(** * qiime/parse.py: the OTU table parser, the lineage/abundance filter
      and the envs-dict builder

    A shallow embedding of [parse_otus], [filter_otus_by_lineage] and
    [make_envs_dict] of [qiime/parse.py], and the properties of them that
    the specification of the OTU table model states.

    Conventions of the embedding.
    - Python [str] is [string]; a Python list is a [list]; a [dict] is a
      [gmap]; a raised exception is the [Raise] case of [result].
    - A numpy 2-D integer array is a [matrix]: its column count and the list
      of its rows.  Counts are [Z]: the fixed-width wrap-around of the
      array's integer dtype is outside the model.
    - numpy arrays are the only objects that the code writes to after they
      are created, so they live in a [heap] and are passed by location; the
      Python lists handed to the functions are only read ([enumerate],
      [__getitem__], [len]) and are passed as values.
    - [subsample] (cogent.maths.stats.rarefaction) draws from the process
      wide random source: it is a parameter that threads a generator
      state. *)

From Stdlib Require Import ZArith Ascii String.
From stdpp Require Import gmap strings list fin_maps sorting.

Local Open Scope Z_scope.

(** ** Exceptions and results *)

Inductive exn : Type :=
| RuntimeError (msg : string)
| UnboundLocalError (name : string)
| ValueError (msg : string)
| IndexError (msg : string).

Inductive result (A : Type) : Type :=
| Ok (a : A)
| Raise (e : exn).
Arguments Ok {A} a.
Arguments Raise {A} e.

Definition rbind {A B} (r : result A) (k : A -> result B) : result B :=
  match r with
  | Ok a => k a
  | Raise e => Raise e
  end.

Declare Scope result_scope.
Delimit Scope result_scope with result.
Notation "'let?' x ':=' r 'in' k" := (rbind r (fun x => k))
  (at level 10, x pattern, r at level 100, k at level 200) : result_scope.
Local Open Scope result_scope.

Definition is_ok {A} (r : result A) : bool :=
  match r with Ok _ => true | Raise _ => false end.

(** [map(f, l)] of Python 2 for an [f] that may raise: eager, left to
    right, the first exception aborts. *)
Fixpoint map_result {A B} (f : A -> result B) (l : list A) : result (list B) :=
  match l with
  | [] => Ok []
  | x :: l' =>
      let? y := f x in
      let? ys := map_result f l' in
      Ok (y :: ys)
  end.

(** ** Python strings *)

Module Str.

Definition TAB : string := String "009"%char EmptyString.
Definition SEMI : string := String ";"%char EmptyString.
Definition AMPAMP : string := String "&"%char (String "&"%char EmptyString).

(** [s.startswith(p)] *)
Fixpoint startswith (p s : string) : bool :=
  match p, s with
  | EmptyString, _ => true
  | String a p', String b s' => if Ascii.eqb a b then startswith p' s' else false
  | String _ _, EmptyString => false
  end.

(** [sub in s] *)
Fixpoint contains (sub s : string) : bool :=
  startswith sub s ||
  match s with
  | EmptyString => false
  | String _ s' => contains sub s'
  end.

Definition snoc (s : string) (c : ascii) : string :=
  String.append s (String c EmptyString).

(** The scan of [s.split(sep)] for a non-empty [sep]: [skip] counts the
    characters of a separator occurrence that are still to be passed
    over, [cur] is the piece read so far.  Occurrences are taken from
    the left and do not overlap. *)
Fixpoint split_scan (sep : string) (cur : string) (skip : nat) (s : string)
  : list string :=
  match s with
  | EmptyString => [cur]
  | String c s' =>
      match skip with
      | S k => split_scan sep cur k s'
      | O =>
          if startswith sep s
          then cur :: split_scan sep EmptyString (Nat.pred (String.length sep)) s'
          else split_scan sep (snoc cur c) O s'
      end
  end.

(** [s.split(sep)] *)
Definition split (sep s : string) : list string :=
  split_scan sep EmptyString O s.

(** The characters [str.strip()] removes are space, tab, newline, vertical
    tab, form feed and carriage return: those of stdpp's [Ascii.is_space]. *)
Fixpoint lstrip (s : string) : string :=
  match s with
  | EmptyString => EmptyString
  | String c s' => if Ascii.is_space c then lstrip s' else s
  end.

Fixpoint rstrip (s : string) : string :=
  match s with
  | EmptyString => EmptyString
  | String c s' =>
      match rstrip s' with
      | EmptyString => if Ascii.is_space c then EmptyString else String c EmptyString
      | t => String c t
      end
  end.

(** [s.strip()], also [string.strip(s)] *)
Definition strip (s : string) : string := rstrip (lstrip s).

(** [sep.join(l)] *)
Fixpoint join (sep : string) (l : list string) : string :=
  match l with
  | [] => EmptyString
  | [x] => x
  | x :: l' => String.append x (String.append sep (join sep l'))
  end.

End Str.

(** ** Python list indexing *)

(** [l[i]] for a non-negative [i]. *)
Definition getitem {A} (l : list A) (i : nat) : result A :=
  match l !! i with
  | Some x => Ok x
  | None => Raise (IndexError "list index out of range")
  end.

(** [map(l.__getitem__, idx)] *)
Definition getitems {A} (l : list A) (idx : list nat) : result (list A) :=
  map_result (getitem l) idx.

(** [l[-1]] *)
Definition getitem_last {A} (l : list A) : result A :=
  match last l with
  | Some x => Ok x
  | None => Raise (IndexError "list index out of range")
  end.

(** [l[1:]], [l[:-1]] and [l[1:-1]] *)
Definition slice_1 {A} (l : list A) : list A := drop 1 l.
Definition slice_to_m1 {A} (l : list A) : list A := take (length l - 1) l.
Definition slice_1_m1 {A} (l : list A) : list A := take (length l - 2) (drop 1 l).

(** ** The default [count_map_f]: [int] on a [str]

    Base ten: surrounding white space is dropped, one sign is allowed, at
    least one digit is required, nothing else is accepted. *)

Definition digit_of (c : ascii) : option Z := Z.of_nat <$> Ascii.is_nat c.

Fixpoint digits_value (acc : Z) (s : string) : option Z :=
  match s with
  | EmptyString => Some acc
  | String c s' =>
      match digit_of c with
      | Some d => digits_value (10 * acc + d) s'
      | None => None
      end
  end.

Definition int (s : string) : result Z :=
  let bad := Raise (ValueError "invalid literal for int() with base 10") in
  let unsigned (t : string) : option Z :=
    match t with
    | EmptyString => None
    | _ => digits_value 0 t
    end in
  match Str.strip s with
  | String "-"%char t =>
      match unsigned t with Some n => Ok (- n) | None => bad end
  | String "+"%char t =>
      match unsigned t with Some n => Ok n | None => bad end
  | t =>
      match unsigned t with Some n => Ok n | None => bad end
  end.

(** ** numpy arrays *)

(** A 2-D integer array of shape [(length rows, ncols)]. *)
Record matrix : Type := Matrix { ncols : nat; rows : list (list Z) }.

Definition nrows (m : matrix) : nat := length (rows m).

(** Every row has [ncols] entries; numpy keeps this for every 2-D array. *)
Definition rect (m : matrix) : Prop :=
  Forall (fun r => length r = ncols m) (rows m).

(** What [array(l)] builds from a list of 1-D integer arrays. *)
Inductive ndarray : Type :=
| Arr1 (xs : list Z)              (* shape (n,) *)
| Arr2 (m : matrix)               (* shape (O, S) *)
| ArrObj (items : list (list Z)). (* shape (O,), dtype=object: ragged rows *)

Definition shape (a : ndarray) : list nat :=
  match a with
  | Arr1 xs => [length xs]
  | Arr2 m => [nrows m; ncols m]
  | ArrObj items => [length items]
  end.

(** [array(otu_table)]: no row gives the empty 1-D array, rows of one
    length give the 2-D array, rows of different lengths give a 1-D array of
    row objects (the numpy releases that run this Python 2 module do not
    reject ragged input). *)
Definition array (l : list (list Z)) : ndarray :=
  match l with
  | [] => Arr1 []
  | r :: _ =>
      if forallb (fun r' => Nat.eqb (length r') (length r)) l
      then Arr2 (Matrix (length r) l)
      else ArrObj l
  end.

(** ** [parse_otus] *)

(** The names the loop of [parse_otus] assigns.  [sample_ids] and
    [has_consensus] are unbound until the line of index 1 is read. *)
Record parse_state : Type := ParseState {
  ps_sample_ids : option (list string);
  ps_has_consensus : option bool;
  ps_otu_table : list (list Z);
  ps_otu_ids : list string;
  ps_lineages : list (list string)
}.

Definition parse_init : parse_state := ParseState None None [] [] [].

Definition CONSENSUS : string := "Consensus Lineage".

Definition read_local {A} (name : string) (v : option A) : result A :=
  match v with
  | Some a => Ok a
  | None => Raise (UnboundLocalError name)
  end.

Section Parse.

Variable count_map_f : string -> result Z.

(** The body of the [for i, line in enumerate(lines)] loop. *)
Definition parse_line (i : nat) (line : string) (st : parse_state)
  : result parse_state :=
  if Nat.eqb i 0 then Ok st
  else if Nat.eqb i 1 then
    let sample_ids := slice_1 (Str.split Str.TAB (Str.strip line)) in
    if Nat.eqb (length sample_ids) 0
    then Raise (RuntimeError "no samples found in otu table")
    else
      let? l := getitem_last sample_ids in
      if String.eqb l CONSENSUS
      then Ok (ParseState (Some (slice_to_m1 sample_ids)) (Some true)
                 (ps_otu_table st) (ps_otu_ids st) (ps_lineages st))
      else Ok (ParseState (Some sample_ids) (Some false)
                 (ps_otu_table st) (ps_otu_ids st) (ps_lineages st))
  else
    let fields := Str.split Str.TAB line in
    let? has_consensus := read_local "has_consensus" (ps_has_consensus st) in
    let? row :=
      if has_consensus
      then map_result count_map_f (slice_1_m1 fields)
      else map_result count_map_f (slice_1 fields) in
    let otu_table := ps_otu_table st ++ [row] in
    let? f0 := getitem fields 0 in
    let otu_id := Str.strip f0 in
    let otu_ids := ps_otu_ids st ++ [otu_id] in
    if has_consensus
    then
      let? fl := getitem_last fields in
      Ok (ParseState (ps_sample_ids st) (ps_has_consensus st) otu_table otu_ids
            (ps_lineages st ++ [map Str.strip (Str.split Str.SEMI fl)]))
    else
      Ok (ParseState (ps_sample_ids st) (ps_has_consensus st) otu_table otu_ids
            (ps_lineages st)).

Fixpoint parse_loop (i : nat) (lines : list string) (st : parse_state)
  : result parse_state :=
  match lines with
  | [] => Ok st
  | line :: lines' =>
      let? st' := parse_line i line st in
      parse_loop (S i) lines' st'
  end.

(** [parse_otus(lines, count_map_f)]: the tuple
    [sample_ids, otu_ids, array(otu_table), lineages]. *)
Definition parse_otus (lines : list string)
  : result (list string * list string * ndarray * list (list string)) :=
  let? st := parse_loop 0 lines parse_init in
  let? sample_ids := read_local "sample_ids" (ps_sample_ids st) in
  Ok (sample_ids, ps_otu_ids st, array (ps_otu_table st), ps_lineages st).

End Parse.

(** A table line from its fields. *)
Definition tsv (fields : list string) : string := Str.join Str.TAB fields.

(** ** numpy operations on 2-D arrays *)

Definition zsum (l : list Z) : Z := foldr Z.add 0 l.

(** [m[:, j].ravel()]: the entries of column [j], as a new 1-D array. *)
Definition get_col (m : matrix) (j : nat) : list Z :=
  map (fun r => nth j r 0) (rows m).

(** [m.T], as the list of the columns. *)
Definition cols (m : matrix) : list (list Z) :=
  map (get_col m) (seq 0 (ncols m)).

(** [m.sum(0)]: one sum per column, also when there is no row. *)
Definition sum0 (m : matrix) : list Z := map zsum (cols m).

(** [mask.nonzero()[0]]: the indices at which the mask holds, ascending. *)
Fixpoint nonzero_from (i : nat) (mask : list bool) : list nat :=
  match mask with
  | [] => []
  | b :: mask' =>
      if b then i :: nonzero_from (S i) mask' else nonzero_from (S i) mask'
  end.
Definition nonzero (mask : list bool) : list nat := nonzero_from 0 mask.

(** [m[idx]] for a list of row indices: a new array. *)
Definition take_rows (m : matrix) (idx : list nat) : result matrix :=
  let? rs := map_result
               (fun i => match rows m !! i with
                         | Some r => Ok r
                         | None => Raise (IndexError "index out of bounds")
                         end) idx in
  Ok (Matrix (ncols m) rs).

(** [m[:, idx]] for an array of column indices: a new array. *)
Definition take_cols (m : matrix) (idx : list nat) : result matrix :=
  if forallb (fun j => Nat.ltb j (ncols m)) idx
  then Ok (Matrix (length idx)
             (map (fun r => map (fun j => nth j r 0) idx) (rows m)))
  else Raise (IndexError "index out of bounds").

(** [m[:, j] = v]: [v] has one entry per row, or one entry that is
    broadcast to every row; any other length is a shape mismatch. *)
Definition set_col (m : matrix) (j : nat) (v : list Z) : result matrix :=
  if negb (Nat.ltb j (ncols m))
  then Raise (IndexError "index out of bounds")
  else if Nat.eqb (length v) (nrows m)
  then Ok (Matrix (ncols m) (zip_with (fun r x => <[j := x]> r) (rows m) v))
  else match v with
       | [x] => Ok (Matrix (ncols m) (map (fun r => <[j := x]> r) (rows m)))
       | _ => Raise (ValueError "shape mismatch: objects cannot be broadcast to a single shape")
       end.

(** ** The heap of arrays and the monad of [filter_otus_by_lineage] *)

Abbreviation loc := positive (only parsing).
Abbreviation heap := (gmap positive matrix) (only parsing).

Section Filter.

(** The state of the random source, and [subsample(counts, n)]. *)
Context {G : Type}.
Variable subsample : list Z -> Z -> G -> list Z * G.

Record state : Type := State { st_heap : heap; st_rng : G }.

Definition M (A : Type) : Type := state -> result A * state.

Definition ret {A} (a : A) : M A := fun s => (Ok a, s).

Definition bind {A B} (c : M A) (k : A -> M B) : M B :=
  fun s =>
    match c s with
    | (Ok a, s') => k a s'
    | (Raise e, s') => (Raise e, s')
    end.

Definition lift {A} (r : result A) : M A := fun s => (r, s).

(** A new array object. *)
Definition alloc (m : matrix) : M loc :=
  fun s =>
    let p := fresh (dom (st_heap s)) in
    (Ok p, State (<[p := m]> (st_heap s)) (st_rng s)).

(** The array a name refers to.  Python has no dangling reference; the
    error case keeps the model total. *)
Definition load (p : loc) : M matrix :=
  fun s =>
    match st_heap s !! p with
    | Some m => (Ok m, s)
    | None => (Raise (RuntimeError "dangling array reference"), s)
    end.

(** Overwrite the array object at [p]. *)
Definition store (p : loc) (m : matrix) : M unit :=
  fun s => (Ok tt, State (<[p := m]> (st_heap s)) (st_rng s)).

(** One call of [subsample]. *)
Definition draw (col : list Z) (n : Z) : M (list Z) :=
  fun s =>
    let '(v, g) := subsample col n (st_rng s) in
    (Ok v, State (st_heap s) g).

Notation "'let!' x ':=' c 'in' k" := (bind c (fun x => k))
  (at level 10, x pattern, c at level 100, k at level 200).

(** The wanted set: [set(wanted_lineage.split('&&'))] or
    [set([wanted_lineage])]. *)
Definition wanted_set (wanted_lineage : string) : gset string :=
  if Str.contains Str.AMPAMP wanted_lineage
  then list_to_set (Str.split Str.AMPAMP wanted_lineage)
  else list_to_set [wanted_lineage].

(** [if set(l).intersection(wanted_lineage)]: a non-empty set is true. *)
Definition intersects (l : list string) (wanted : gset string) : bool :=
  bool_decide ((list_to_set l : gset string) ∩ wanted ≠ ∅).

(** [for i, l in enumerate(lineages): if ...: good_indices.append(i)] *)
Fixpoint good_indices_loop (wanted : gset string) (i : nat)
    (lineages : list (list string)) (good_indices : list nat) : list nat :=
  match lineages with
  | [] => good_indices
  | l :: lineages' =>
      good_indices_loop wanted (S i) lineages'
        (if intersects l wanted then good_indices ++ [i] else good_indices)
  end.

(** [for i in too_big_samples:
       otu_table[:,i] = subsample(otu_table[:,i].ravel(), max_seqs_per_sample)] *)
Fixpoint rarefy_loop (otu_table : loc) (max_seqs_per_sample : Z)
    (too_big_samples : list nat) : M unit :=
  match too_big_samples with
  | [] => ret tt
  | i :: rest =>
      let! a := load otu_table in
      let! v := draw (get_col a i) max_seqs_per_sample in
      let! a' := lift (set_col a i v) in
      let! _ := store otu_table a' in
      rarefy_loop otu_table max_seqs_per_sample rest
  end.

(** [filter_otus_by_lineage]; [otu_table] is the location of the array,
    [wanted_lineage = None] is Python's [None]. *)
Definition filter_otus_by_lineage
    (sample_ids otu_ids : list string) (otu_table : loc)
    (lineages : list (list string)) (wanted_lineage : option string)
    (max_seqs_per_sample min_seqs_per_sample : Z)
  : M (list string * list string * loc * list (list string)) :=
  (* first step: figure out which OTUs we want to keep *)
  let! (otu_table, otu_ids, lineages) :=
    match wanted_lineage with
    | Some w =>
        let wanted := wanted_set w in
        let good_indices := good_indices_loop wanted 0 lineages [] in
        let! a := load otu_table in
        let! a' := lift (take_rows a good_indices) in
        let! otu_table := alloc a' in
        let! otu_ids := lift (getitems otu_ids good_indices) in
        let! lineages := lift (getitems lineages good_indices) in
        ret (otu_table, otu_ids, lineages)
    | None => ret (otu_table, otu_ids, lineages)
    end in
  (* which samples will be dropped because too small *)
  let! a := load otu_table in
  let big_enough_samples :=
    nonzero (map (fun s => Z.leb min_seqs_per_sample s) (sum0 a)) in
  let! a' := lift (take_cols a big_enough_samples) in
  let! otu_table := alloc a' in
  let! sample_ids := lift (getitems sample_ids big_enough_samples) in
  (* which samples will be reduced because too big *)
  let! a := load otu_table in
  let too_big_samples :=
    nonzero (map (fun s => Z.ltb max_seqs_per_sample s) (sum0 a)) in
  let! _ :=
    if negb (Nat.eqb (length too_big_samples) 0)
    then rarefy_loop otu_table max_seqs_per_sample too_big_samples
    else ret tt in
  ret (sample_ids, otu_ids, otu_table, lineages).

End Filter.

(** ** The value the filter computes

    The same statements as [filter_otus_by_lineage], on the array values
    instead of their locations; [filter_otus_by_lineage_run] below relates
    the two. *)

Section FilterValue.

Context {G : Type}.
Variable subsample : list Z -> Z -> G -> list Z * G.

Definition good_indices (wanted_lineage : string)
    (lineages : list (list string)) : list nat :=
  good_indices_loop (wanted_set wanted_lineage) 0 lineages [].

Definition lineage_stage (otu_ids : list string) (m : matrix)
    (lineages : list (list string)) (wanted_lineage : option string)
  : result (matrix * list string * list (list string)) :=
  match wanted_lineage with
  | Some w =>
      let? a' := take_rows m (good_indices w lineages) in
      let? otu_ids' := getitems otu_ids (good_indices w lineages) in
      let? lineages' := getitems lineages (good_indices w lineages) in
      Ok (a', otu_ids', lineages')
  | None => Ok (m, otu_ids, lineages)
  end.

Definition big_enough_samples (m : matrix) (min_seqs_per_sample : Z) : list nat :=
  nonzero (map (fun s => Z.leb min_seqs_per_sample s) (sum0 m)).

Definition min_depth_stage (sample_ids : list string) (m : matrix)
    (min_seqs_per_sample : Z) : result (matrix * list string) :=
  let? a' := take_cols m (big_enough_samples m min_seqs_per_sample) in
  let? sample_ids' := getitems sample_ids (big_enough_samples m min_seqs_per_sample) in
  Ok (a', sample_ids').

Definition too_big_samples (m : matrix) (max_seqs_per_sample : Z) : list nat :=
  nonzero (map (fun s => Z.ltb max_seqs_per_sample s) (sum0 m)).

Fixpoint rarefy (m : matrix) (max_seqs_per_sample : Z) (too_big : list nat)
    (g : G) : result matrix * G :=
  match too_big with
  | [] => (Ok m, g)
  | i :: rest =>
      let '(v, g') := subsample (get_col m i) max_seqs_per_sample g in
      match set_col m i v with
      | Ok m' => rarefy m' max_seqs_per_sample rest g'
      | Raise e => (Raise e, g')
      end
  end.

Definition filter_value
    (sample_ids otu_ids : list string) (m : matrix)
    (lineages : list (list string)) (wanted_lineage : option string)
    (max_seqs_per_sample min_seqs_per_sample : Z) (g : G)
  : result (list string * list string * matrix * list (list string)) * G :=
  match lineage_stage otu_ids m lineages wanted_lineage with
  | Raise e => (Raise e, g)
  | Ok (m1, otu_ids', lineages') =>
      match min_depth_stage sample_ids m1 min_seqs_per_sample with
      | Raise e => (Raise e, g)
      | Ok (m2, sample_ids') =>
          match rarefy m2 max_seqs_per_sample
                  (too_big_samples m2 max_seqs_per_sample) g with
          | (Ok m3, g') => (Ok (sample_ids', otu_ids', m3, lineages'), g')
          | (Raise e, g') => (Raise e, g')
          end
      end
  end.

(** Every array of [h] is still in [h'], with the same entries. *)
Definition heap_extends (h h' : heap) : Prop :=
  forall q, is_Some (h !! q) -> h' !! q = h !! q.

(** The statements of [filter_otus_by_lineage] after the lineage
    selection, for the proofs. *)
Definition depth_stages
    (sample_ids otu_ids : list string) (otu_table : loc)
    (lineages : list (list string)) (max_seqs min_seqs : Z)
  : M (list string * list string * loc * list (list string)) :=
  bind (load otu_table) (fun a =>
  bind (lift (take_cols a (big_enough_samples a min_seqs))) (fun a' =>
  bind (alloc a') (fun otu_table =>
  bind (lift (getitems sample_ids (big_enough_samples a min_seqs))) (fun sample_ids =>
  bind (load otu_table) (fun a =>
  bind (if negb (Nat.eqb (length (too_big_samples a max_seqs)) 0)
        then rarefy_loop subsample otu_table max_seqs (too_big_samples a max_seqs)
        else ret tt) (fun _ =>
  ret (sample_ids, otu_ids, otu_table, lineages))))))).

End FilterValue.

(** The terms of a wanted-lineage expression. *)
Definition lineage_terms (wanted_lineage : string) : list string :=
  if Str.contains Str.AMPAMP wanted_lineage
  then Str.split Str.AMPAMP wanted_lineage
  else [wanted_lineage].

(** The invariants of an OTU table: the matrix is rectangular, there is one
    sample id per column and one OTU id per row, and the lineages, when
    the table has them, are one per row. *)
Definition wf_table (sample_ids otu_ids : list string) (m : matrix)
    (lineages : list (list string)) : Prop :=
  rect m /\ length sample_ids = ncols m /\ length otu_ids = nrows m /\
  (lineages = [] \/ length lineages = nrows m).

(** The matrix that reaches the rarefaction stage. *)
Definition surviving (sample_ids otu_ids : list string) (m : matrix)
    (lineages : list (list string)) (wanted_lineage : option string)
    (min_seqs_per_sample : Z) : result matrix :=
  let? (m1, _, _) := lineage_stage otu_ids m lineages wanted_lineage in
  let? (m2, _) := min_depth_stage sample_ids m1 min_seqs_per_sample in
  Ok m2.


(** ** [make_envs_dict] *)

(** [dict(pairs)]: a later pair with the same key replaces an earlier one. *)
Definition py_dict (pairs : list (string * Z)) : gmap string Z :=
  fold_left (fun d kv => <[kv.1 := kv.2]> d) pairs ∅.

(** [dict(zip(sample_names[nonzeros], taxon[nonzeros]))] for
    [nonzeros = taxon.nonzero()]. *)
Definition taxon_dict (sample_names : list string) (taxon : list Z)
  : result (gmap string Z) :=
  let nonzeros := nonzero (map (fun x => negb (Z.eqb x 0)) taxon) in
  let? names := getitems sample_names nonzeros in
  let? counts := getitems taxon nonzeros in
  Ok (py_dict (zip names counts)).

(** [for i, taxon in enumerate(abund_mtx.T):
       envs_dict[taxon_names[i]] = dict(...)];
    the right-hand side is evaluated before [taxon_names[i]]. *)
Fixpoint envs_loop (sample_names taxon_names : list string) (i : nat)
    (taxa : list (list Z)) (envs_dict : gmap string (gmap string Z))
  : result (gmap string (gmap string Z)) :=
  match taxa with
  | [] => Ok envs_dict
  | taxon :: taxa' =>
      let? d := taxon_dict sample_names taxon in
      let? t := getitem taxon_names i in
      envs_loop sample_names taxon_names (S i) taxa' (<[t := d]> envs_dict)
  end.

(** [make_envs_dict(abund_mtx, sample_names, taxon_names)]; [abund_mtx] is
    samples (rows) by taxa (columns).  [array(sample_names)] is taken to
    hold the names as they are given. *)
Definition make_envs_dict (abund_mtx : matrix)
    (sample_names taxon_names : list string)
  : result (gmap string (gmap string Z)) :=
  let num_samples := nrows abund_mtx in
  let num_seqs := ncols abund_mtx in
  if negb (Nat.eqb num_samples (length sample_names)
           && Nat.eqb num_seqs (length taxon_names))
  then Raise (ValueError "Shape of matrix doesn't match # samples and # taxa")
  else envs_loop sample_names taxon_names 0 (cols abund_mtx) ∅.

(** The entry of row [i] and column [j]. *)
Definition entry (m : matrix) (i j : nat) : Z :=
  nth j (nth i (rows m) []) 0.

(** The dense matrix of an envs dict: the count a taxon's dict has for a
    sample, and zero where the taxon or the sample is missing. *)
Definition expand (envs : gmap string (gmap string Z))
    (sample_names taxon_names : list string) : matrix :=
  Matrix (length taxon_names)
    (map (fun s =>
            map (fun t => default 0 (envs !! t ≫= (fun d => d !! s))) taxon_names)
         sample_names).

(** Three samples by two taxa. *)
Definition ex_abund : matrix := Matrix 2 [[1; 0]; [0; 2]; [3; 4]].
Definition ex_abund_samples : list string := ["s1"; "s2"; "s3"].
Definition ex_abund_taxa : list string := ["t1"; "t2"].

(** ** Assumptions on [subsample], and one draw

    [subsample] is not part of this file's source.  [keeps_length] is the
    shape every draw has; [subsample_first] is one admissible draw, used
    to run the filter on examples: it returns the column itself when the
    column has no more than [n] observations, and else the first [n]
    observations of the column, and it counts the calls in the generator
    state. *)

Definition keeps_length {G : Type}
    (subsample : list Z -> Z -> G -> list Z * G) : Prop :=
  forall c n g, length (subsample c n g).1 = length c.

Fixpoint take_first (n : Z) (c : list Z) : list Z :=
  match c with
  | [] => []
  | x :: c' => Z.min x n :: take_first (n - Z.min x n) c'
  end.

Definition subsample_first (c : list Z) (n : Z) (g : nat) : list Z * nat :=
  (if Z.leb (zsum c) n then c else take_first n c, S g).

(** Bounds under which the two depth stages change nothing in [m]. *)
Definition pass_through (m : matrix) (min_seqs max_seqs : Z) : Prop :=
  Forall (fun s => min_seqs <= s <= max_seqs) (sum0 m).

(** The table of the specification's example, with the matrix at location
    1 of the heap. *)
Definition ex_sample_ids : list string := ["A"; "B"].
Definition ex_otu_ids : list string := ["otu1"; "otu2"].
Definition ex_counts : matrix := Matrix 2 [[10; 100]; [5; 5]].
Definition ex_lineages : list (list string) :=
  [["Root"; "Bacteria"]; ["Root"; "Archaea"]].
Definition ex_heap : gmap positive matrix := {[ 1%positive := ex_counts ]}.

(** The counts of a table are not negative. *)
Definition nonneg (m : matrix) : Prop :=
  Forall (Forall (fun x => 0 <= x)) (rows m).

(** The entries of [l] at which the mask holds. *)
Fixpoint select {A} (mask : list bool) (l : list A) : list A :=
  match mask, l with
  | b :: mask', x :: l' => if b then x :: select mask' l' else select mask' l'
  | _, _ => []
  end.

(** ** The parts of an OTU table file, for the statements on [parse_otus] *)

(** The tokens of the sample-id line after its first one:
    [line.strip().split('\t')[1:]]. *)
Definition header_tokens (header : string) : list string :=
  slice_1 (Str.split Str.TAB (Str.strip header)).

(** The last of them is exactly [Consensus Lineage]. *)
Definition has_consensus_column (header : string) : bool :=
  bool_decide (last (header_tokens header) = Some CONSENSUS).

(** The sample ids the header names. *)
Definition sample_columns (header : string) : list string :=
  if has_consensus_column header
  then slice_to_m1 (header_tokens header)
  else header_tokens header.

(** The fields of a data line that are read as counts. *)
Definition count_fields (has_consensus : bool) (line : string) : list string :=
  if has_consensus
  then slice_1_m1 (Str.split Str.TAB line)
  else slice_1 (Str.split Str.TAB line).

(** The OTU id of a data line: its first field, stripped. *)
Definition row_otu_id (line : string) : string :=
  match Str.split Str.TAB line with
  | f :: _ => Str.strip f
  | [] => EmptyString
  end.

(** The lineage of a data line: the segments of its last field between the
    semicolons, each stripped. *)
Definition row_lineage (line : string) : list string :=
  map Str.strip
    (Str.split Str.SEMI (default EmptyString (last (Str.split Str.TAB line)))).

(** [count_map_f] accepts every count field of every data line. *)
Definition counts_coerce (count_map_f : string -> result Z)
    (has_consensus : bool) (data : list string) : bool :=
  forallb (fun line => forallb (fun f => is_ok (count_map_f f))
                         (count_fields has_consensus line)) data.

(** The shape invariant as the specification words it, on a returned
    quadruple: [len(sample_ids) == counts.shape[1]] and
    [len(otu_ids) == counts.shape[0] == len(lineages)] when lineages are
    present. *)
Definition shape_invariant
    (t : list string * list string * ndarray * list (list string)) : Prop :=
  let '(sample_ids, otu_ids, counts, lineages) := t in
  shape counts = [length otu_ids; length sample_ids] /\
  (lineages <> [] -> length lineages = length otu_ids).

(** A malformed table as the specification words it: the header row
    yields zero sample columns, or a data row has fewer fields than the
    header requires. *)
Definition short_row (header line : string) : bool :=
  Nat.ltb (length (Str.split Str.TAB line))
          (length (Str.split Str.TAB (Str.strip header))).

Definition malformed_table (lines : list string) : bool :=
  match lines with
  | _ :: header :: data =>
      Nat.eqb (length (sample_columns header)) 0 || existsb (short_row header) data
  | _ => false
  end.

(** Two samples in the header, one count in each data row. *)
Definition ex_narrow_lines : list string :=
  [ "#Full OTU Counts";
    tsv ["#OTU ID"; "A"; "B"];
    tsv ["otu1"; "1"];
    tsv ["otu2"; "3"] ].

(** Two samples in the header, a data row without its last count. *)
Definition ex_short_row_lines : list string :=
  [ "#Full OTU Counts";
    tsv ["#OTU ID"; "A"; "B"];
    tsv ["otu1"; "7"] ].

(** The table of the specification's example, as a file. *)
Definition ex_lines : list string :=
  [ "#Full OTU Counts";
    tsv ["#OTU ID"; "A"; "B"; "Consensus Lineage"];
    tsv ["otu1"; "10"; "100"; "Root; Bacteria"];
    tsv ["otu2"; "5"; "5"; "Root;Archaea"] ].

(** ** More of Python, for the other parsers of the module *)

(** A [for x in l:] loop whose body may raise: the state is threaded, the
    first exception aborts. *)
Fixpoint for_each {A S : Type} (body : S -> A -> result S) (l : list A) (s : S)
  : result S :=
  match l with
  | [] => Ok s
  | x :: l' =>
      let? s' := body s x in
      for_each body l' s'
  end.

(** [s.split(sep)] where the separator is an argument: an empty separator
    raises. *)
Definition split_by (sep s : string) : result (list string) :=
  match sep with
  | EmptyString => Raise (ValueError "empty separator")
  | _ => Ok (Str.split sep s)
  end.

(** The scan of [s.split()]: the words between runs of white space; [cur]
    is the word read so far. *)
Fixpoint split_ws_scan (cur : string) (s : string) : list string :=
  match s with
  | EmptyString =>
      match cur with
      | EmptyString => []
      | _ => [cur]
      end
  | String c s' =>
      if Ascii.is_space c
      then match cur with
           | EmptyString => split_ws_scan EmptyString s'
           | _ => cur :: split_ws_scan EmptyString s'
           end
      else split_ws_scan (Str.snoc cur c) s'
  end.

(** [s.split()] *)
Definition split_ws (s : string) : list string := split_ws_scan EmptyString s.

(** [s.upper()] of a [str] in the C locale: the letters [a] to [z]. *)
Definition upper_char (c : ascii) : ascii :=
  let n := nat_of_ascii c in
  if Nat.leb 97 n && Nat.leb n 122 then ascii_of_nat (n - 32) else c.

Fixpoint upper (s : string) : string :=
  match s with
  | EmptyString => EmptyString
  | String c s' => String (upper_char c) (upper s')
  end.

(** [a, b = l]: unpacking into two names. *)
Definition unpack2 {A} (l : list A) : result (A * A) :=
  match l with
  | [a; b] => Ok (a, b)
  | [] => Raise (ValueError "need more than 0 values to unpack")
  | [_] => Raise (ValueError "need more than 1 value to unpack")
  | _ => Raise (ValueError "too many values to unpack")
  end.

(** [l.index(x)]: the first position of [x]. *)
Fixpoint list_index (x : string) (l : list string) : result nat :=
  match l with
  | [] => Raise (ValueError "list.index(x): x not in list")
  | y :: l' =>
      if String.eqb y x then Ok 0%nat
      else let? i := list_index x l' in Ok (S i)
  end.

(** ** [fields_to_dict] *)

(** [strip_f] is a function or a false value ([None]). *)
Definition fields_to_dict_line (delim : string) (strip_f : option (string -> string))
    (result0 : gmap string (list string)) (line : string)
  : result (gmap string (list string)) :=
  let? pieces := split_by delim line in
  let fields := match strip_f with
                | Some f => map f pieces
                | None => pieces
                end in
  let? f0 := getitem fields 0 in
  if String.eqb f0 EmptyString
  then Ok result0
  else Ok (<[f0 := slice_1 fields]> result0).

Definition fields_to_dict (lines : list string) (delim : string)
    (strip_f : option (string -> string)) : result (gmap string (list string)) :=
  for_each (fields_to_dict_line delim strip_f) lines ∅.

(** ** [parse_qiime_config_file] and [parse_qiime_config_files] *)

(** ['\t'.join(fields[1:]) or None] *)
Definition config_value (fields : list string) : option string :=
  match Str.join Str.TAB (slice_1 fields) with
  | EmptyString => None
  | v => Some v
  end.

Definition config_file_line (result0 : gmap string (option string)) (line : string)
  : result (gmap string (option string)) :=
  let line := Str.strip line in
  if String.eqb line EmptyString || Str.startswith "#" line
  then Ok result0
  else
    let fields := Str.split Str.TAB line in
    let? param_id := getitem fields 0 in
    let param_value := config_value fields in
    Ok (<[param_id := param_value]> result0).

Definition parse_qiime_config_file (qiime_config_file : list string)
  : result (gmap string (option string)) :=
  for_each config_file_line qiime_config_file ∅.

(** A config file is the list of its lines, or [None] when reading it
    raises [IOError]; [results.update(...)] is then not reached and the
    file leaves no trace.  The returned [defaultdict] is read with
    [config_get]: [None] for a missing key. *)
Definition config_files_step (results : gmap string (option string))
    (qiime_config_file : option (list string))
  : result (gmap string (option string)) :=
  match qiime_config_file with
  | None => Ok results
  | Some lines =>
      let? d := parse_qiime_config_file lines in
      Ok (d ∪ results)
  end.

Definition parse_qiime_config_files (qiime_config_files : list (option (list string)))
  : result (gmap string (option string)) :=
  for_each config_files_step qiime_config_files ∅.

Definition config_get (results : gmap string (option string)) (k : string)
  : option string :=
  default None (results !! k).

(** ** [parse_tmp_to_final_filepath_map_file] *)

Definition filepath_map_line (st : list (list string) * list string) (line : string)
  : result (list (list string) * list string) :=
  let fields := split_ws line in
  let infiles_lists := st.1 ++ [slice_to_m1 fields] in
  let? out := getitem_last fields in
  Ok (infiles_lists, st.2 ++ [out]).

Definition parse_tmp_to_final_filepath_map_file (lines : list string)
  : result (list (list string) * list string) :=
  for_each filepath_map_line lines ([], []).

(** ** [parse_metadata_state_descriptions] *)

Definition COLON : string := ":".
Definition COMMA : string := ",".

Definition state_description_col (result0 : gmap string (gset string)) (c : string)
  : result (gmap string (gset string)) :=
  let? (colname, vals) := unpack2 (map Str.strip (Str.split COLON c)) in
  let vals := map Str.strip (Str.split COMMA vals) in
  Ok (<[colname := list_to_set vals]> result0).

Definition parse_metadata_state_descriptions (state_string : string)
  : result (gmap string (gset string)) :=
  let state_string := Str.strip state_string in
  if String.eqb state_string EmptyString
  then Ok ∅
  else
    let cols := map Str.strip (Str.split Str.SEMI state_string) in
    for_each state_description_col cols ∅.

(** ** [parse_taxonomy] *)

Definition SPACE : string := " ".

Definition taxonomy_line (res : gmap string string) (line : string)
  : result (gmap string string) :=
  let fields := Str.split Str.TAB line in
  if negb (Nat.eqb (length fields) 3)
  then Ok res
  else
    let? f0 := getitem fields 0 in
    let? otu := getitem (Str.split SPACE f0) 0 in
    let? tax := getitem fields 1 in
    Ok (<[otu := tax]> res).

Definition parse_taxonomy (infile : list string) : result (gmap string string) :=
  for_each taxonomy_line infile ∅.

(** ** [parse_sample_mapping] *)

(** [dict([(i, '0') for i in all_sample_names])], copied for each OTU. *)
Definition zero_counts (all_sample_names : gset string) : gmap string string :=
  gset_to_gmap "0" all_sample_names.

Definition sample_mapping_line (all_sample_names : gset string)
    (OTU_sample_info : gmap string (gmap string string)) (line : list string)
  : result (gmap string (gmap string string)) :=
  let? OTU_name := getitem line 0 in
  (* the dict of this OTU, made when the OTU is first seen *)
  let sample_info :=
    match OTU_sample_info !! OTU_name with
    | Some d => d
    | None => zero_counts all_sample_names
    end in
  let? sample_name := getitem line 1 in
  let? count := getitem line 2 in
  Ok (<[OTU_name := <[sample_name := count]> sample_info]> OTU_sample_info).

Definition parse_sample_mapping (lines : list string)
  : result (gmap string (gmap string string) * gset string) :=
  let lines := map (fun line => Str.split Str.TAB (Str.strip line)) lines in
  let? all_sample_names := map_result (fun line => getitem line 1) lines in
  let all_sample_names : gset string := list_to_set all_sample_names in
  let? OTU_sample_info := for_each (sample_mapping_line all_sample_names) lines ∅ in
  Ok (OTU_sample_info, all_sample_names).

(** ** [group_by_field]

    The message of the [ValueError] that replaces the one of [index] is
    kept without the name and the headers that the code formats into
    it. *)

Definition group_by_field_row (col_index : nat)
    (result0 : gmap string (list string)) (row : list string)
  : result (gmap string (list string)) :=
  let? header := getitem row 0 in
  let? state := getitem row col_index in
  Ok (<[state := default [] (result0 !! state) ++ [header]]> result0).

Definition group_by_field (table : list (list string)) (name : string)
  : result (gmap string (list string)) :=
  let? t0 := getitem table 0 in
  let? col_index :=
    match list_index name t0 with
    | Ok i => Ok i
    | Raise (ValueError _) => Raise (ValueError "Couldn't find name in headers")
    | Raise e => Raise e
    end in
  for_each (group_by_field_row col_index) (slice_1 table) ∅.

(** ** [parse_qiime_parameters] *)

Definition qiime_parameters_line
    (result0 : gmap string (gmap string (option string))) (line : string)
  : result (gmap string (gmap string (option string))) :=
  let line := Str.strip line in
  if negb (String.eqb line EmptyString) && negb (Str.startswith "#" line)
  then
    let fields := split_ws line in
    let? f0 := getitem fields 0 in
    let? (script_id, parameter_id) := unpack2 (Str.split COLON f0) in
    match fields !! 1%nat with
    | None => Ok result0
    | Some value =>
        if String.eqb (upper value) "FALSE" || String.eqb (upper value) "NONE"
        then Ok result0
        else
          let value := if String.eqb (upper value) "TRUE" then None else Some value in
          match result0 !! script_id with
          | Some params => Ok (<[script_id := <[parameter_id := value]> params]> result0)
          | None => Ok (<[script_id := {[parameter_id := value]}]> result0)
          end
    end
  else Ok result0.

Definition parse_qiime_parameters (lines : list string)
  : result (gmap string (gmap string (option string))) :=
  for_each qiime_parameters_line lines ∅.

(** ** Assignments in a loop, for the statements on the dict builders *)

(** What one iteration of a loop around [result[k] = v] does to the dict:
    [None] stands for an iteration that assigns nothing. *)
Definition assign1 {V} (d : gmap string V) (o : option (string * V)) : gmap string V :=
  match o with
  | Some (k, v) => <[k := v]> d
  | None => d
  end.

Definition assign_all {V} (kvs : list (option (string * V))) (d : gmap string V)
  : gmap string V :=
  fold_left assign1 kvs d.

(** The last line that assigns to key [k] assigns [v]. *)
Definition last_assigned {A V} (entry : A -> option (string * V))
    (lines : list A) (k : string) (v : V) : Prop :=
  exists i line,
    lines !! i = Some line /\ entry line = Some (k, v) /\
    forall j line' v',
      (i < j)%nat -> lines !! j = Some line' -> entry line' <> Some (k, v').

(** No line assigns to key [k]. *)
Definition never_assigned {A V} (entry : A -> option (string * V))
    (lines : list A) (k : string) : Prop :=
  forall line v, line ∈ lines -> entry line <> Some (k, v).

(** The assignment a line of [fields_to_dict] makes. *)
Definition fields_entry (delim : string) (strip_f : option (string -> string))
    (line : string) : option (string * list string) :=
  match (match strip_f with
         | Some f => map f (Str.split delim line)
         | None => Str.split delim line
         end) with
  | k :: rest => if String.eqb k EmptyString then None else Some (k, rest)
  | [] => None
  end.

(** The assignment a line of a config file makes. *)
Definition config_entry (line : string) : option (string * option string) :=
  let l := Str.strip line in
  if String.eqb l EmptyString || Str.startswith "#" l then None
  else match Str.split Str.TAB l with
       | k :: rest => Some (k, config_value (k :: rest))
       | [] => None
       end.

(** The assignment a line of a taxonomy file makes: only a line of
    exactly three tab-separated fields makes one. *)
Definition taxonomy_entry (line : string) : option (string * string) :=
  match Str.split Str.TAB line with
  | [f0; tax; _] =>
      match Str.split SPACE f0 with
      | otu :: _ => Some (otu, tax)
      | [] => None
      end
  | _ => None
  end.

(** The fields of a line of a sample mapping file. *)
Definition mapping_fields (line : string) : list string :=
  Str.split Str.TAB (Str.strip line).

(** The count a line of a sample mapping file gives to a sample of
    [otu]. *)
Definition mapping_entry (otu : string) (line : string) : option (string * string) :=
  match mapping_fields line with
  | o :: s :: c :: _ => if String.eqb o otu then Some (s, c) else None
  | _ => None
  end.

(** The row headers of the rows whose field [col] is [state], in the
    order of the rows. *)
Definition headers_with (col : nat) (state : string) (rows : list (list string))
  : list string :=
  omap (fun row => if decide (row !! col = Some state) then row !! 0%nat else None)
       rows.

(** A value that [parse_qiime_parameters] reads as a switch. *)
Definition is_switch (value : string) : bool :=
  String.eqb (upper value) "TRUE" || String.eqb (upper value) "FALSE"
  || String.eqb (upper value) "NONE".

(** ** [parse_mapping_file] *)

(** The double quote. *)
Definition QUOTE : ascii := "034"%char.

(** [x.replace(QUOTE, '')]: every double quote is dropped. *)
Fixpoint remove_quotes (x : string) : string :=
  match x with
  | EmptyString => EmptyString
  | String c x' =>
      if Ascii.eqb c QUOTE then remove_quotes x' else String c (remove_quotes x')
  end.

(** The [strip_f] that the two flags select. *)
Definition mapping_strip_f (strip_quotes suppress_stripping : bool) (x : string)
  : string :=
  if strip_quotes then
    if suppress_stripping then remove_quotes x else Str.strip (remove_quotes x)
  else
    if suppress_stripping then x else Str.strip x.

(** [line[1:]] of a string *)
Definition str_slice_1 (line : string) : string :=
  match line with
  | EmptyString => EmptyString
  | String _ rest => rest
  end.

(** The test that skips a line, made on the line after [strip_f]. *)
Definition skipped (suppress_stripping : bool) (line : string) : bool :=
  String.eqb line EmptyString
  || (suppress_stripping && String.eqb (Str.strip line) EmptyString).

(** One iteration; the state is [(mapping_data, header, comments)]. *)
Definition mapping_file_line (strip_quotes suppress_stripping : bool)
    (st : list (list string) * list string * list string) (line : string)
  : list (list string) * list string * list string :=
  let '(mapping_data, header, comments) := st in
  let strip_f := mapping_strip_f strip_quotes suppress_stripping in
  let line := strip_f line in
  if skipped suppress_stripping line then st
  else if Str.startswith "#" line then
    let line := str_slice_1 line in
    match header with
    | [] => (mapping_data, Str.split Str.TAB (Str.strip line), comments)
    | _ :: _ => (mapping_data, header, comments ++ [line])
    end
  else (mapping_data ++ [map strip_f (Str.split Str.TAB line)], header, comments).

Definition parse_mapping_file (lines : list string)
    (strip_quotes suppress_stripping : bool)
  : list (list string) * list string * list string :=
  fold_left (mapping_file_line strip_quotes suppress_stripping) lines ([], [], []).

(** The lines that are not skipped, after [strip_f], and among them those
    that start with [#]. *)
Definition kept_lines (strip_quotes suppress_stripping : bool) (lines : list string)
  : list string :=
  List.filter (fun line => negb (skipped suppress_stripping line))
    (map (mapping_strip_f strip_quotes suppress_stripping) lines).

Definition hash_lines (ls : list string) : list string :=
  List.filter (Str.startswith "#") ls.

Definition data_lines (ls : list string) : list string :=
  List.filter (fun line => negb (Str.startswith "#" line)) ls.

(** A string without a double quote. *)
Definition no_quote (s : string) : Prop :=
  Str.contains (String QUOTE EmptyString) s = false.

(** ** [group_by_fields]

    The keys of the dict are tuples of states, here lists.  The
    [ValueError] of [index] is not replaced in this function. *)

Definition group_by_fields_row (col_indices : list nat)
    (result0 : gmap (list string) (list string)) (row : list string)
  : result (gmap (list string) (list string)) :=
  let? header := getitem row 0 in
  let? states := getitems row col_indices in
  Ok (<[states := default [] (result0 !! states) ++ [header]]> result0).

Definition group_by_fields (table : list (list string)) (names : list string)
  : result (gmap (list string) (list string)) :=
  let? t0 := getitem table 0 in
  let? col_indices := map_result (fun name => list_index name t0) names in
  for_each (group_by_fields_row col_indices) (slice_1 table) ∅.

(** The row headers of the rows whose fields at [cols] are [states], in
    the order of the rows. *)
Definition headers_with_states (cols : list nat) (states : list string)
    (rows : list (list string)) : list string :=
  omap (fun row =>
          match getitems row cols with
          | Ok s => if decide (s = states) then row !! 0%nat else None
          | Raise _ => None
          end)
       rows.

(** [col] is the first position of [name] in the header. *)
Definition first_position (hdr : list string) (name : string) (col : nat) : Prop :=
  hdr !! col = Some name /\ forall j, (j < col)%nat -> hdr !! j <> Some name.

(** ** [parse_rarefaction_fname]

    [os.path.splitext] belongs to the Python library: it is a parameter
    here. *)

Definition UNDERSCORE : string := String "_"%char EmptyString.

(** [l.pop()]: the last item and the list without it. *)
Definition pop {A} (l : list A) : result (A * list A) :=
  match last l with
  | Some x => Ok (x, slice_to_m1 l)
  | None => Raise (IndexError "pop from empty list")
  end.

Section RarefactionFname.

Variable splitext : string -> string * string.

Definition parse_rarefaction_fname (name_string : string)
  : result (string * Z * Z * string) :=
  let (root, ext) := splitext name_string in
  let root_list := Str.split UNDERSCORE root in
  let? (it, root_list) := pop root_list in
  let? iters := int it in
  let? (sq, root_list) := pop root_list in
  let? seqs_per_sam := int sq in
  Ok (Str.join UNDERSCORE root_list, seqs_per_sam, iters, ext).

End RarefactionFname.

(** * Properties *)

Example split_ex1 : Str.split Str.AMPAMP "a&&&b&&" = ["a"; "&b"; EmptyString].
Proof. reflexivity. Qed.

Example strip_ex1 : Str.strip " Root " = "Root".
Proof. reflexivity. Qed.

Example int_ex1 : int " -12 " = Ok (-12).
Proof. reflexivity. Qed.

Example parse_ex1 :
  parse_otus int
    [ "#Full OTU Counts";
      tsv ["#OTU ID"; "A"; "B"; "Consensus Lineage"];
      tsv ["otu1"; "10"; "100"; "Root; Bacteria"];
      tsv ["otu2"; "5"; "5"; "Root;Archaea"] ]
  = Ok (["A"; "B"], ["otu1"; "otu2"],
        Arr2 (Matrix 2 [[10; 100]; [5; 5]]),
        [["Root"; "Bacteria"]; ["Root"; "Archaea"]]).
Proof. reflexivity. Qed.


(** ** The filter on a heap and the value it computes *)

Section FilterRun.

Context {G : Type}.
Variable subsample : list Z -> Z -> G -> list Z * G.

Lemma heap_extends_refl (h : heap) : heap_extends h h.
Proof. by intros q _. Qed.

Lemma heap_extends_trans (h1 h2 h3 : heap) :
  heap_extends h1 h2 -> heap_extends h2 h3 -> heap_extends h1 h3.
Proof.
  intros H12 H23 q Hq. rewrite <- (H12 q Hq). apply H23.
  by rewrite (H12 q Hq).
Qed.

Lemma fresh_heap_None (h : heap) : h !! fresh (dom h) = None.
Proof. apply not_elem_of_dom, is_fresh. Qed.

Lemma heap_extends_alloc (h : heap) (m : matrix) :
  heap_extends h (<[fresh (dom h) := m]> h).
Proof.
  intros q [x Hq]. apply lookup_insert_ne. intros Heq. subst q.
  by rewrite fresh_heap_None in Hq.
Qed.

Lemma heap_extends_overwrite (h : heap) (p : loc) (m1 m2 : matrix) :
  h !! p = None ->
  heap_extends h (<[p := m2]> (<[p := m1]> h)).
Proof.
  intros Hp q [x Hq]. rewrite insert_insert_eq. apply lookup_insert_ne.
  intros Heq. subst q. congruence.
Qed.

(** The loop of the rarefaction stage writes to the working array only. *)
Lemma rarefy_loop_run (p : loc) (max_seqs : Z) (too_big : list nat) :
  forall (h : heap) (g : G) (m : matrix),
    h !! p = Some m ->
    exists mx,
      rarefy_loop subsample p max_seqs too_big (State h g)
      = (match fst (rarefy subsample m max_seqs too_big g) with
         | Ok _ => Ok tt
         | Raise e => Raise e
         end,
         State (<[p := mx]> h) (snd (rarefy subsample m max_seqs too_big g)))
      /\ (forall m', fst (rarefy subsample m max_seqs too_big g) = Ok m' -> mx = m').
Proof.
  induction too_big as [|i rest IH]; intros h g m Hp; simpl.
  - exists m. split; [|by intros m' [= ->]].
    unfold ret. by rewrite insert_id.
  - unfold bind at 1, load; simpl. rewrite Hp.
    unfold bind at 1, draw; simpl.
    destruct (subsample (get_col m i) max_seqs g) as [v g'] eqn:Hs.
    unfold bind at 1, lift; simpl.
    destruct (set_col m i v) as [m'|e] eqn:Hset.
    + unfold bind at 1, store; simpl.
      destruct (IH (<[p := m']> h) g' m') as (mx & Hrun & Hmx).
      { apply lookup_insert_eq. }
      exists mx. rewrite Hrun. rewrite insert_insert_eq. done.
    + exists m. simpl. split; [|done]. by rewrite insert_id.
Qed.

Lemma filter_otus_by_lineage_None sample_ids otu_ids p lineages max_seqs min_seqs :
  filter_otus_by_lineage subsample sample_ids otu_ids p lineages None max_seqs min_seqs
  = depth_stages subsample sample_ids otu_ids p lineages max_seqs min_seqs.
Proof. reflexivity. Qed.

Lemma filter_otus_by_lineage_Some sample_ids otu_ids p lineages w max_seqs min_seqs s :
  filter_otus_by_lineage subsample sample_ids otu_ids p lineages (Some w)
    max_seqs min_seqs s
  = bind (load p) (fun a =>
    bind (lift (take_rows a (good_indices w lineages))) (fun a' =>
    bind (alloc a') (fun p1 =>
    bind (lift (getitems otu_ids (good_indices w lineages))) (fun otu_ids' =>
    bind (lift (getitems lineages (good_indices w lineages))) (fun lineages' =>
    depth_stages subsample sample_ids otu_ids' p1 lineages' max_seqs min_seqs))))) s.
Proof.
  unfold filter_otus_by_lineage, good_indices.
  unfold bind at 1 2 3 4 5 6. unfold bind at 7 8 9 10 11.
  unfold load, lift, alloc, ret; simpl.
  destruct (st_heap s !! p) as [a|]; simpl; [|done].
  destruct (take_rows a _) as [a'|]; simpl; [|done].
  destruct (getitems otu_ids _) as [o'|]; simpl; [|done].
  destruct (getitems lineages _) as [l'|]; simpl; done.
Qed.

Lemma depth_stages_run
    (sample_ids otu_ids : list string) (p : loc) (m : matrix)
    (lineages : list (list string)) (max_seqs min_seqs : Z) (h : heap) (g : G) :
  h !! p = Some m ->
  exists h',
    heap_extends h h' /\
    match min_depth_stage sample_ids m min_seqs with
    | Raise e =>
        depth_stages subsample sample_ids otu_ids p lineages max_seqs min_seqs (State h g)
        = (Raise e, State h' g)
    | Ok (m2, sample_ids') =>
        match rarefy subsample m2 max_seqs (too_big_samples m2 max_seqs) g with
        | (Ok m3, g') =>
            exists p', h !! p' = None /\ h' !! p' = Some m3 /\
              depth_stages subsample sample_ids otu_ids p lineages max_seqs min_seqs (State h g)
              = (Ok (sample_ids', otu_ids, p', lineages), State h' g')
        | (Raise e, g') =>
            depth_stages subsample sample_ids otu_ids p lineages max_seqs min_seqs (State h g)
            = (Raise e, State h' g')
        end
    end.
Proof.
  intros Hp. unfold depth_stages, min_depth_stage.
  unfold bind, load, lift, alloc; simpl. rewrite Hp.
  destruct (take_cols m (big_enough_samples m min_seqs)) as [m2|e]; simpl;
    [|exists h; split; [apply heap_extends_refl|done]].
  set (p2 := fresh (dom h)).
  destruct (getitems sample_ids (big_enough_samples m min_seqs)) as [s'|e]; simpl;
    [|exists (<[p2 := m2]> h); split; [apply heap_extends_alloc|done]].
  rewrite lookup_insert_eq.
  assert (Hrun : exists mx,
    (if negb (Nat.eqb (length (too_big_samples m2 max_seqs)) 0)
     then rarefy_loop subsample p2 max_seqs (too_big_samples m2 max_seqs)
     else ret tt) (State (<[p2 := m2]> h) g)
    = (match fst (rarefy subsample m2 max_seqs (too_big_samples m2 max_seqs) g) with
       | Ok _ => Ok tt
       | Raise e => Raise e
       end,
       State (<[p2 := mx]> (<[p2 := m2]> h))
         (snd (rarefy subsample m2 max_seqs (too_big_samples m2 max_seqs) g)))
    /\ (forall m', fst (rarefy subsample m2 max_seqs (too_big_samples m2 max_seqs) g) = Ok m'
          -> mx = m')).
  { destruct (too_big_samples m2 max_seqs) as [|i rest] eqn:Htb; simpl negb; cbv iota.
    - exists m2. simpl. unfold ret. rewrite insert_insert_eq.
      split; [done|by intros m' [= ->]].
    - apply rarefy_loop_run, lookup_insert_eq. }
  destruct Hrun as (mx & Hrun & Hmx).
  exists (<[p2 := mx]> (<[p2 := m2]> h)).
  split; [apply heap_extends_overwrite, fresh_heap_None|].
  rewrite Hrun.
  destruct (rarefy subsample m2 max_seqs (too_big_samples m2 max_seqs) g) as [[m3|e] g'];
    simpl; [|done].
  exists p2. split; [apply fresh_heap_None|].
  rewrite (Hmx m3 eq_refl). split; [apply lookup_insert_eq|done].
Qed.

(** [filter_otus_by_lineage] on a heap computes [filter_value] of the
    array it is given, puts the result in a new array, and leaves every
    array of the heap as it was. *)
Lemma filter_otus_by_lineage_run
    (sample_ids otu_ids : list string) (p : loc) (m : matrix)
    (lineages : list (list string)) (wanted_lineage : option string)
    (max_seqs min_seqs : Z) (h : heap) (g : G) :
  h !! p = Some m ->
  exists h',
    heap_extends h h' /\
    match filter_value subsample sample_ids otu_ids m lineages wanted_lineage
            max_seqs min_seqs g with
    | (Ok (s, o, m', l), g') =>
        exists p', h !! p' = None /\ h' !! p' = Some m' /\
          filter_otus_by_lineage subsample sample_ids otu_ids p lineages
            wanted_lineage max_seqs min_seqs (State h g)
          = (Ok (s, o, p', l), State h' g')
    | (Raise e, g') =>
        filter_otus_by_lineage subsample sample_ids otu_ids p lineages
          wanted_lineage max_seqs min_seqs (State h g)
        = (Raise e, State h' g')
    end.
Proof.
  intros Hp. unfold filter_value, lineage_stage.
  destruct wanted_lineage as [w|].
  - rewrite filter_otus_by_lineage_Some.
    unfold bind, load, lift, alloc; simpl. rewrite Hp.
    destruct (take_rows m (good_indices w lineages)) as [m1|e]; simpl;
      [|exists h; split; [apply heap_extends_refl|done]].
    set (p1 := fresh (dom h)).
    destruct (getitems otu_ids (good_indices w lineages)) as [o'|e]; simpl;
      [|exists (<[p1 := m1]> h); split; [apply heap_extends_alloc|done]].
    destruct (getitems lineages (good_indices w lineages)) as [l'|e]; simpl;
      [|exists (<[p1 := m1]> h); split; [apply heap_extends_alloc|done]].
    destruct (depth_stages_run sample_ids o' p1 m1 l' max_seqs min_seqs
                (<[p1 := m1]> h) g) as (h' & Hext & Hrun).
    { apply lookup_insert_eq. }
    exists h'. split.
    { eapply heap_extends_trans; [apply heap_extends_alloc|exact Hext]. }
    destruct (min_depth_stage sample_ids m1 min_seqs) as [[m2 s']|e]; [|done].
    destruct (rarefy subsample m2 max_seqs (too_big_samples m2 max_seqs) g) as [[m3|e] g'];
      [|done].
    destruct Hrun as (p' & Hfresh & Hp' & Hrun).
    exists p'. split; [|done].
    destruct (decide (p' = p1)) as [->|Hne].
    + by rewrite lookup_insert_eq in Hfresh.
    + by rewrite lookup_insert_ne in Hfresh.
  - rewrite filter_otus_by_lineage_None.
    destruct (depth_stages_run sample_ids otu_ids p m lineages max_seqs min_seqs
                h g Hp) as (h' & Hext & Hrun).
    exists h'. split; [done|].
    destruct (min_depth_stage sample_ids m min_seqs) as [[m2 s']|e]; [|done].
    destruct (rarefy subsample m2 max_seqs (too_big_samples m2 max_seqs) g) as [[m3|e] g'];
      done.
Qed.

End FilterRun.

(** ** Lemmas on [map_result], list indexing and index lists *)

Section ListLemmas.

Context {A B : Type}.

Lemma map_result_Ok (f : A -> result B) (l : list A) (ys : list B) :
  map_result f l = Ok ys <-> Forall2 (fun x y => f x = Ok y) l ys.
Proof.
  revert ys. induction l as [|x l IH]; intros ys; simpl.
  - split.
    + intros [= <-]. constructor.
    + intros H. by inversion H.
  - destruct (f x) as [y|e] eqn:Hfx; simpl.
    + destruct (map_result f l) as [ys'|e] eqn:Hl; simpl.
      * split.
        -- intros [= <-]. constructor; [done|]. by apply IH.
        -- intros H. inversion H as [|? y0 ? ys0 Hy Hys]; subst.
           apply IH in Hys. congruence.
      * split; [done|]. intros H.
        inversion H as [|? y0 ? ys0 Hy Hys]; subst.
        apply IH in Hys. done.
    + split; [done|]. intros H.
      inversion H as [|? y0 ? ys0 Hy Hys]; subst. congruence.
Qed.

Lemma map_result_total (f : A -> result B) (l : list A) :
  Forall (fun x => exists y, f x = Ok y) l ->
  exists ys, map_result f l = Ok ys.
Proof.
  induction 1 as [|x l [y Hy] _ [ys Hys]]; simpl.
  - by exists [].
  - exists (y :: ys). by rewrite Hy, Hys.
Qed.

Lemma map_result_length (f : A -> result B) (l : list A) (ys : list B) :
  map_result f l = Ok ys -> length ys = length l.
Proof.
  intros H. apply map_result_Ok in H. symmetry. by eapply Forall2_length.
Qed.

Lemma map_result_app (f : A -> result B) (l1 l2 : list A) :
  map_result f (l1 ++ l2)
  = (let? ys1 := map_result f l1 in
     let? ys2 := map_result f l2 in
     Ok (ys1 ++ ys2)).
Proof.
  induction l1 as [|x l1 IH]; simpl.
  - by destruct (map_result f l2).
  - destruct (f x); simpl; [|done]. rewrite IH.
    destruct (map_result f l1); simpl; [|done].
    by destruct (map_result f l2).
Qed.

End ListLemmas.

Lemma getitems_Ok {A} (l : list A) (idx : list nat) (xs : list A) :
  getitems l idx = Ok xs <-> Forall2 (fun i x => l !! i = Some x) idx xs.
Proof.
  unfold getitems. rewrite map_result_Ok.
  split; intros H; (eapply Forall2_impl; [exact H|]); intros i x; unfold getitem.
  - destruct (l !! i); congruence.
  - by intros ->.
Qed.

Lemma getitems_total {A} (l : list A) (idx : list nat) :
  Forall (fun i => (i < length l)%nat) idx ->
  exists xs, getitems l idx = Ok xs.
Proof.
  intros H. apply map_result_total. eapply Forall_impl; [exact H|].
  intros i Hi. unfold getitem.
  destruct (lookup_lt_is_Some_2 l i Hi) as [x ->]. by exists x.
Qed.

Lemma Forall2_lookup_seq {A} (pre l : list A) :
  Forall2 (fun i x => (pre ++ l) !! i = Some x) (seq (length pre) (length l)) l.
Proof.
  revert pre. induction l as [|x l IH]; intros pre; simpl; constructor.
  - by rewrite list_lookup_middle.
  - specialize (IH (pre ++ [x])).
    rewrite length_app, <- app_assoc in IH. simpl in IH.
    by rewrite Nat.add_1_r in IH.
Qed.

Lemma getitems_seq {A} (l : list A) :
  getitems l (seq 0 (length l)) = Ok l.
Proof. apply getitems_Ok. apply (Forall2_lookup_seq [] l). Qed.

(** The indices [nonzero_from] lists are those at which the mask holds,
    in ascending order. *)
Lemma elem_of_nonzero_from (i : nat) (mask : list bool) (j : nat) :
  j ∈ nonzero_from i mask <-> (i <= j)%nat /\ mask !! (j - i)%nat = Some true.
Proof.
  revert i. induction mask as [|b mask IH]; intros i; simpl.
  - rewrite elem_of_nil. split; [done|]. by intros [_ ?].
  - assert (Hrec : j ∈ (if b then i :: nonzero_from (S i) mask
                        else nonzero_from (S i) mask)
                   <-> (b = true /\ j = i) \/ j ∈ nonzero_from (S i) mask).
    { destruct b; [rewrite elem_of_cons|]; split.
      - intros [->|?]; [by left|by right].
      - intros [[_ ->]|?]; [by left|by right].
      - intros ?; by right.
      - intros [[? _]|?]; done. }
    rewrite Hrec, IH. clear Hrec IH.
    destruct (lt_eq_lt_dec j i) as [[Hlt|Heq]|Hgt].
    + split; [intros [[_ ->]|[? _]]; lia|intros [? _]; lia].
    + subst j. rewrite Nat.sub_diag. simpl. split.
      * intros [[-> _]|[? _]]; [done|lia].
      * intros [_ [= ->]]. by left.
    + replace (j - i)%nat with (S (j - S i)) by lia. simpl. split.
      * intros [[_ ->]|[_ ?]]; [lia|]. split; [lia|done].
      * intros [_ ?]. right. split; [lia|done].
Qed.

Lemma elem_of_nonzero (mask : list bool) (j : nat) :
  j ∈ nonzero mask <-> mask !! j = Some true.
Proof.
  unfold nonzero. rewrite elem_of_nonzero_from, Nat.sub_0_r.
  split; [by intros [_ ?]|]. intros ?. split; [lia|done].
Qed.

Lemma nonzero_from_sorted (i : nat) (mask : list bool) :
  StronglySorted lt (nonzero_from i mask).
Proof.
  revert i. induction mask as [|b mask IH]; intros i; simpl; [constructor|].
  destruct b; [|apply IH].
  constructor; [apply IH|].
  apply Forall_forall. intros j Hj%elem_of_nonzero_from. lia.
Qed.

Lemma nonzero_from_all_true (i : nat) (mask : list bool) :
  Forall (fun b => b = true) mask ->
  nonzero_from i mask = seq i (length mask).
Proof.
  intros H. revert i. induction H as [|b mask -> _ IH]; intros i; simpl; [done|].
  by rewrite IH.
Qed.

Lemma nonzero_lt (mask : list bool) (j : nat) :
  j ∈ nonzero mask -> (j < length mask)%nat.
Proof. rewrite elem_of_nonzero. apply lookup_lt_Some. Qed.

Lemma lookup_map {A B} (f : A -> B) (l : list A) (i : nat) :
  map f l !! i = f <$> (l !! i).
Proof. exact (list_lookup_fmap f l i). Qed.

Lemma good_indices_loop_nonzero (W : gset string) (i : nat)
    (ls : list (list string)) (acc : list nat) :
  good_indices_loop W i ls acc
  = acc ++ nonzero_from i (map (fun l => intersects l W) ls).
Proof.
  revert i acc. induction ls as [|l ls IH]; intros i acc; simpl.
  - by rewrite app_nil_r.
  - rewrite IH. destruct (intersects l W); [|done].
    by rewrite <- app_assoc.
Qed.

Lemma good_indices_nonzero (w : string) (ls : list (list string)) :
  good_indices w ls = nonzero (map (fun l => intersects l (wanted_set w)) ls).
Proof. unfold good_indices. by rewrite good_indices_loop_nonzero. Qed.

(** [set(l).intersection(wanted)] is non-empty exactly when some token of
    [l] is in the wanted set. *)
Lemma intersects_spec (l : list string) (W : gset string) :
  intersects l W = true <-> exists t, t ∈ l /\ t ∈ W.
Proof.
  unfold intersects. rewrite bool_decide_eq_true. split.
  - intros Hne. apply set_choose_L in Hne as [t Ht].
    exists t. set_solver.
  - intros (t & Htl & HtW) Hempty.
    assert (t ∈ (list_to_set l : gset string) ∩ W) as Hin by set_solver.
    rewrite Hempty in Hin. set_solver.
Qed.

Lemma elem_of_wanted_set (w t : string) :
  t ∈ wanted_set w <-> t ∈ lineage_terms w.
Proof.
  unfold wanted_set, lineage_terms.
  destruct (Str.contains Str.AMPAMP w); by rewrite elem_of_list_to_set.
Qed.

(** *** Matrices *)

Lemma length_cols (m : matrix) : length (cols m) = ncols m.
Proof. unfold cols. by rewrite length_map, length_seq. Qed.

Lemma lookup_cols (m : matrix) (j : nat) :
  (j < ncols m)%nat -> cols m !! j = Some (get_col m j).
Proof.
  intros Hj. unfold cols. rewrite lookup_map, lookup_seq_lt by done. done.
Qed.

Lemma lookup_cols_Some (m : matrix) (j : nat) (c : list Z) :
  cols m !! j = Some c <-> (j < ncols m)%nat /\ c = get_col m j.
Proof.
  split.
  - intros H. assert (j < ncols m)%nat as Hj.
    { rewrite <- length_cols. by eapply lookup_lt_Some. }
    rewrite lookup_cols in H by done. split; [done|congruence].
  - intros [Hj ->]. by apply lookup_cols.
Qed.

Lemma length_sum0 (m : matrix) : length (sum0 m) = ncols m.
Proof. unfold sum0. by rewrite length_map, length_cols. Qed.

Lemma lookup_sum0 (m : matrix) (j : nat) :
  (j < ncols m)%nat -> sum0 m !! j = Some (zsum (get_col m j)).
Proof.
  intros Hj. unfold sum0. by rewrite lookup_map, lookup_cols.
Qed.

Lemma length_get_col (m : matrix) (j : nat) : length (get_col m j) = nrows m.
Proof. unfold get_col, nrows. by rewrite length_map. Qed.

Lemma take_rows_Ok (m : matrix) (idx : list nat) (m' : matrix) :
  take_rows m idx = Ok m' <->
  ncols m' = ncols m /\ Forall2 (fun i r => rows m !! i = Some r) idx (rows m').
Proof.
  unfold take_rows.
  set (f := fun i => match rows m !! i with
                     | Some r => Ok r
                     | None => Raise (IndexError "index out of bounds")
                     end).
  assert (Hf : forall rs, map_result f idx = Ok rs <->
                          Forall2 (fun i r => rows m !! i = Some r) idx rs).
  { intros rs. rewrite map_result_Ok.
    split; intros H; (eapply Forall2_impl; [exact H|]); intros i r; unfold f.
    - destruct (rows m !! i); congruence.
    - by intros ->. }
  destruct (map_result f idx) as [rs|e] eqn:Hrs; simpl.
  - split.
    + intros [= <-]. simpl. split; [done|]. by apply Hf.
    + intros [Hn Hr]. apply Hf in Hr. destruct m' as [n' rs']. simpl in *.
      congruence.
  - split; [done|]. intros [_ Hr]. apply Hf in Hr. congruence.
Qed.

Lemma take_rows_total (m : matrix) (idx : list nat) :
  Forall (fun i => (i < nrows m)%nat) idx ->
  exists m', take_rows m idx = Ok m'.
Proof.
  intros H. destruct (getitems_total (rows m) idx H) as [rs Hrs].
  exists (Matrix (ncols m) rs). apply take_rows_Ok. simpl.
  split; [done|]. by apply getitems_Ok.
Qed.

Lemma take_rows_rect (m : matrix) (idx : list nat) (m' : matrix) :
  rect m -> take_rows m idx = Ok m' -> rect m'.
Proof.
  intros Hrect [Hn Hr]%take_rows_Ok. unfold rect in *. rewrite Hn.
  induction Hr as [|i r idx rs Hi _ IH]; constructor; [|done].
  rewrite Forall_forall in Hrect. apply Hrect.
  by eapply list_elem_of_lookup_2.
Qed.

Lemma take_rows_nrows (m : matrix) (idx : list nat) (m' : matrix) :
  take_rows m idx = Ok m' -> nrows m' = length idx.
Proof.
  intros [_ Hr]%take_rows_Ok. unfold nrows. symmetry. by eapply Forall2_length.
Qed.

Lemma take_rows_seq (m : matrix) : take_rows m (seq 0 (nrows m)) = Ok m.
Proof.
  apply take_rows_Ok. split; [done|]. apply (Forall2_lookup_seq [] (rows m)).
Qed.

Lemma map_nth_seq (r : list Z) :
  map (fun j => nth j r 0) (seq 0 (length r)) = r.
Proof.
  apply list_eq. intros i. rewrite lookup_map.
  destruct (decide (i < length r)%nat) as [Hi|Hi].
  - rewrite lookup_seq_lt by done. simpl. rewrite nth_lookup.
    destruct (lookup_lt_is_Some_2 r i Hi) as [x ->]. done.
  - rewrite lookup_seq_ge by lia. simpl. symmetry. apply lookup_ge_None. lia.
Qed.

Lemma take_cols_Ok (m : matrix) (idx : list nat) :
  Forall (fun j => (j < ncols m)%nat) idx ->
  take_cols m idx
  = Ok (Matrix (length idx) (map (fun r => map (fun j => nth j r 0) idx) (rows m))).
Proof.
  intros H. unfold take_cols.
  assert (forallb (fun j => Nat.ltb j (ncols m)) idx = true) as ->; [|done].
  apply forallb_forall. intros j Hj. apply Nat.ltb_lt.
  rewrite Forall_forall in H. apply H. by apply list_elem_of_In.
Qed.

Lemma take_cols_inv (m : matrix) (idx : list nat) (m' : matrix) :
  take_cols m idx = Ok m' ->
  m' = Matrix (length idx) (map (fun r => map (fun j => nth j r 0) idx) (rows m)).
Proof.
  unfold take_cols. destruct (forallb _ idx); [|done]. by intros [= <-].
Qed.

Lemma take_cols_rect (m : matrix) (idx : list nat) (m' : matrix) :
  take_cols m idx = Ok m' -> rect m'.
Proof.
  intros ->%take_cols_inv. unfold rect. simpl.
  apply Forall_forall. intros r Hr. apply list_elem_of_In, in_map_iff in Hr.
  destruct Hr as (r0 & <- & _). by rewrite length_map.
Qed.

Lemma take_cols_nrows (m : matrix) (idx : list nat) (m' : matrix) :
  take_cols m idx = Ok m' -> nrows m' = nrows m.
Proof. intros ->%take_cols_inv. unfold nrows. simpl. by rewrite length_map. Qed.

Lemma take_cols_ncols (m : matrix) (idx : list nat) (m' : matrix) :
  take_cols m idx = Ok m' -> ncols m' = length idx.
Proof. by intros ->%take_cols_inv. Qed.

Lemma take_cols_get_col (m : matrix) (idx : list nat) (m' : matrix) (k j : nat) :
  take_cols m idx = Ok m' -> idx !! k = Some j ->
  get_col m' k = get_col m j.
Proof.
  intros ->%take_cols_inv Hk. unfold get_col. simpl.
  rewrite map_map. apply map_ext. intros r.
  by rewrite nth_lookup, lookup_map, Hk.
Qed.

Lemma take_cols_seq (m : matrix) :
  rect m -> take_cols m (seq 0 (ncols m)) = Ok m.
Proof.
  intros Hrect. rewrite take_cols_Ok.
  - destruct m as [n rs]. unfold rect in Hrect. simpl in *.
    rewrite length_seq. f_equal. f_equal.
    induction Hrect as [|r rs Hr _ IH]; simpl; [done|].
    rewrite IH. f_equal. rewrite <- Hr. apply map_nth_seq.
  - apply Forall_forall. intros j Hj%list_elem_of_In%in_seq. lia.
Qed.

Lemma set_col_Ok (m : matrix) (j : nat) (v : list Z) :
  (j < ncols m)%nat -> length v = nrows m ->
  set_col m j v
  = Ok (Matrix (ncols m) (zip_with (fun r x => <[j := x]> r) (rows m) v)).
Proof.
  intros Hj Hv. unfold set_col.
  apply Nat.ltb_lt in Hj as ->. simpl.
  apply Nat.eqb_eq in Hv as ->. done.
Qed.

Lemma get_col_zip_insert_eq (rs : list (list Z)) (j : nat) (v : list Z) :
  Forall (fun r => (j < length r)%nat) rs -> length v = length rs ->
  map (fun r => nth j r 0) (zip_with (fun r x => <[j := x]> r) rs v) = v.
Proof.
  intros H. revert v. induction H as [|r rs Hr _ IH]; intros [|x v] Hv;
    simpl in *; try done.
  rewrite IH by lia. f_equal.
  by rewrite nth_lookup, list_lookup_insert_eq.
Qed.

Lemma get_col_zip_insert_ne (rs : list (list Z)) (j j' : nat) (v : list Z) :
  j' <> j -> length v = length rs ->
  map (fun r => nth j' r 0) (zip_with (fun r x => <[j := x]> r) rs v)
  = map (fun r => nth j' r 0) rs.
Proof.
  intros Hne. revert v. induction rs as [|r rs IH]; intros [|x v] Hv;
    simpl in *; try done.
  rewrite IH by lia. f_equal.
  by rewrite !nth_lookup, list_lookup_insert_ne.
Qed.

Lemma set_col_spec (m : matrix) (j : nat) (v : list Z) :
  rect m -> (j < ncols m)%nat -> length v = nrows m ->
  exists m',
    set_col m j v = Ok m' /\ rect m' /\ ncols m' = ncols m /\
    nrows m' = nrows m /\ get_col m' j = v /\
    (forall j', j' <> j -> get_col m' j' = get_col m j').
Proof.
  intros Hrect Hj Hv. eexists. split; [by apply set_col_Ok|].
  unfold rect, nrows, get_col in *. simpl.
  split; [|split; [done|split; [|split]]].
  - apply Forall_forall. intros r Hr.
    apply list_elem_of_lookup in Hr as [i Hi].
    apply lookup_zip_with_Some in Hi as (r0 & x & -> & Hr0 & _).
    rewrite length_insert. rewrite Forall_forall in Hrect.
    apply Hrect. by eapply list_elem_of_lookup_2.
  - rewrite length_zip_with. lia.
  - apply get_col_zip_insert_eq; [|done].
    eapply Forall_impl; [exact Hrect|]. simpl. intros r ->. done.
  - intros j' Hne. by apply get_col_zip_insert_ne.
Qed.

Section RarefySpec.

Context {G : Type}.
Variable subsample : list Z -> Z -> G -> list Z * G.

(** The loop of the rarefaction stage replaces each listed column by a
    draw from it and leaves the other columns as they are. *)
Lemma rarefy_spec (max_seqs : Z) (too_big : list nat) :
  forall (m : matrix) (g : G),
    rect m -> NoDup too_big ->
    Forall (fun i => (i < ncols m)%nat) too_big ->
    (forall i g0, i ∈ too_big ->
       length (subsample (get_col m i) max_seqs g0).1 = nrows m) ->
    exists m' g',
      rarefy subsample m max_seqs too_big g = (Ok m', g') /\
      rect m' /\ ncols m' = ncols m /\ nrows m' = nrows m /\
      (forall j, j ∉ too_big -> get_col m' j = get_col m j) /\
      (forall j, j ∈ too_big ->
         exists gj, get_col m' j = (subsample (get_col m j) max_seqs gj).1).
Proof.
  induction too_big as [|i rest IH]; intros m g Hrect Hnd Hlt Hlen; simpl.
  - exists m, g. repeat split; try done. intros j Hj. by apply elem_of_nil in Hj.
  - apply NoDup_cons in Hnd as [Hi Hnd].
    apply Forall_cons in Hlt as [Hilt Hlt].
    pose proof (Hlen i g (list_elem_of_here _ _)) as Hv.
    destruct (subsample (get_col m i) max_seqs g) as [v g1] eqn:Hs.
    simpl in Hv.
    destruct (set_col_spec m i v Hrect Hilt Hv)
      as (m1 & Hset & Hrect1 & Hc1 & Hr1 & Hcol & Hother).
    rewrite Hset.
    destruct (IH m1 g1) as (m' & g' & Hrun & Hrect' & Hc' & Hr' & Hout & Hin).
    + done.
    + done.
    + by rewrite Hc1.
    + intros i' g0 Hi'. rewrite Hr1, Hother.
      * apply Hlen. by apply list_elem_of_further.
      * intros ->. done.
    + exists m', g'. split; [done|]. split; [done|].
      split; [congruence|]. split; [congruence|]. split.
      * intros j Hj. apply not_elem_of_cons in Hj as [Hne Hj].
        rewrite Hout by done. by apply Hother.
      * intros j Hj. apply elem_of_cons in Hj as [->|Hj].
        -- exists g. rewrite Hout by done. rewrite Hcol. by rewrite Hs.
        -- destruct (Hin j Hj) as [gj Hgj]. exists gj.
           rewrite Hgj, Hother; [done|]. intros ->. done.
Qed.

End RarefySpec.

(** ** The stages of the filter on a well-formed table *)

Lemma elem_of_good_indices (w : string) (lineages : list (list string)) (i : nat) :
  i ∈ good_indices w lineages <->
  exists l, lineages !! i = Some l /\ exists t, t ∈ l /\ t ∈ lineage_terms w.
Proof.
  rewrite good_indices_nonzero, elem_of_nonzero, lookup_map.
  split.
  - destruct (lineages !! i) as [l|]; simpl; [|done].
    intros [= H]. exists l. split; [done|].
    apply intersects_spec in H as (t & Htl & Ht). exists t.
    by rewrite <- elem_of_wanted_set.
  - intros (l & -> & t & Htl & Ht). simpl. f_equal.
    apply intersects_spec. exists t. by rewrite elem_of_wanted_set.
Qed.

Lemma good_indices_sorted (w : string) (lineages : list (list string)) :
  StronglySorted lt (good_indices w lineages).
Proof. rewrite good_indices_nonzero. apply nonzero_from_sorted. Qed.

Lemma good_indices_lt (w : string) (lineages : list (list string)) :
  Forall (fun i => (i < length lineages)%nat) (good_indices w lineages).
Proof.
  apply Forall_forall. intros i (l & Hl & _)%elem_of_good_indices.
  by eapply lookup_lt_Some.
Qed.

Lemma elem_of_big_enough_samples (m : matrix) (min_seqs : Z) (j : nat) :
  j ∈ big_enough_samples m min_seqs <->
  (j < ncols m)%nat /\ min_seqs <= zsum (get_col m j).
Proof.
  unfold big_enough_samples. rewrite elem_of_nonzero, lookup_map. split.
  - intros H. assert (j < ncols m)%nat as Hj.
    { rewrite <- length_sum0. destruct (sum0 m !! j) eqn:E; [|done].
      by eapply lookup_lt_Some. }
    rewrite lookup_sum0 in H by done. simpl in H.
    split; [done|]. injection H as H. by apply Z.leb_le.
  - intros [Hj Hle]. rewrite lookup_sum0 by done. simpl. f_equal.
    by apply Z.leb_le.
Qed.

Lemma elem_of_too_big_samples (m : matrix) (max_seqs : Z) (j : nat) :
  j ∈ too_big_samples m max_seqs <->
  (j < ncols m)%nat /\ max_seqs < zsum (get_col m j).
Proof.
  unfold too_big_samples. rewrite elem_of_nonzero, lookup_map. split.
  - intros H. assert (j < ncols m)%nat as Hj.
    { rewrite <- length_sum0. destruct (sum0 m !! j) eqn:E; [|done].
      by eapply lookup_lt_Some. }
    rewrite lookup_sum0 in H by done. simpl in H.
    split; [done|]. injection H as H. by apply Z.ltb_lt.
  - intros [Hj Hle]. rewrite lookup_sum0 by done. simpl. f_equal.
    by apply Z.ltb_lt.
Qed.

Lemma StronglySorted_lt_NoDup (l : list nat) : StronglySorted lt l -> NoDup l.
Proof.
  induction 1 as [|x l _ IH Hx]; constructor; [|done].
  intros Hin. rewrite Forall_forall in Hx. specialize (Hx x Hin). lia.
Qed.

Lemma lineage_stage_spec (sample_ids otu_ids : list string) (m : matrix)
    (lineages : list (list string)) (wanted_lineage : option string) :
  wf_table sample_ids otu_ids m lineages ->
  exists m1 o1 l1,
    lineage_stage otu_ids m lineages wanted_lineage = Ok (m1, o1, l1) /\
    wf_table sample_ids o1 m1 l1 /\ ncols m1 = ncols m /\
    match wanted_lineage with
    | None => m1 = m /\ o1 = otu_ids /\ l1 = lineages
    | Some w =>
        Forall2 (fun i r => rows m !! i = Some r) (good_indices w lineages) (rows m1) /\
        Forall2 (fun i o => otu_ids !! i = Some o) (good_indices w lineages) o1 /\
        Forall2 (fun i l => lineages !! i = Some l) (good_indices w lineages) l1
    end.
Proof.
  intros (Hrect & Hs & Ho & Hl). unfold lineage_stage.
  destruct wanted_lineage as [w|].
  - pose proof (good_indices_lt w lineages) as Hlt.
    assert (Forall (fun i => (i < nrows m)%nat) (good_indices w lineages)) as Hlt'.
    { destruct Hl as [->|Hl]; [|by rewrite <- Hl].
      eapply Forall_impl; [exact Hlt|]. simpl. intros; lia. }
    destruct (take_rows_total m _ Hlt') as [m1 Hm1].
    destruct (getitems_total otu_ids (good_indices w lineages)) as [o1 Ho1].
    { by rewrite Ho. }
    destruct (getitems_total lineages _ Hlt) as [l1 Hl1].
    exists m1, o1, l1. rewrite Hm1, Ho1, Hl1. simpl.
    pose proof (take_rows_nrows _ _ _ Hm1) as Hn1.
    pose proof (take_rows_rect _ _ _ Hrect Hm1) as Hrect1.
    apply take_rows_Ok in Hm1 as [Hc1 Hrows].
    apply getitems_Ok in Ho1. apply getitems_Ok in Hl1.
    split; [done|]. split; [|done].
    split; [done|]. split; [congruence|].
    split; [|right].
    + rewrite Hn1. symmetry. by eapply Forall2_length.
    + rewrite Hn1. symmetry. by eapply Forall2_length.
  - exists m, otu_ids, lineages. done.
Qed.

Lemma min_depth_stage_spec (sample_ids : list string) (m1 : matrix) (min_seqs : Z) :
  rect m1 -> length sample_ids = ncols m1 ->
  exists m2 s2,
    min_depth_stage sample_ids m1 min_seqs = Ok (m2, s2) /\
    rect m2 /\ nrows m2 = nrows m1 /\
    ncols m2 = length (big_enough_samples m1 min_seqs) /\
    length s2 = ncols m2 /\
    Forall2 (fun j s => sample_ids !! j = Some s) (big_enough_samples m1 min_seqs) s2 /\
    (forall k j, big_enough_samples m1 min_seqs !! k = Some j ->
                 get_col m2 k = get_col m1 j).
Proof.
  intros Hrect Hs. unfold min_depth_stage.
  assert (Forall (fun j => (j < ncols m1)%nat) (big_enough_samples m1 min_seqs)) as Hlt.
  { apply Forall_forall. by intros j [Hj _]%elem_of_big_enough_samples. }
  pose proof (take_cols_Ok m1 _ Hlt) as Hm2.
  destruct (getitems_total sample_ids (big_enough_samples m1 min_seqs)) as [s2 Hs2].
  { by rewrite Hs. }
  eexists _, s2. rewrite Hm2, Hs2. simpl. split; [done|].
  apply getitems_Ok in Hs2.
  split; [by eapply take_cols_rect|].
  split; [by eapply take_cols_nrows|].
  split; [by eapply take_cols_ncols|].
  split; [simpl; symmetry; by eapply Forall2_length|].
  split; [done|].
  intros k j Hk. by eapply take_cols_get_col.
Qed.

Section FilterSpec.

Context {G : Type}.
Variable subsample : list Z -> Z -> G -> list Z * G.

(** On a well-formed table, with a [subsample] that returns one entry
    per row for the columns it is called on, the filter returns; the
    outcome of each stage is as follows. *)
Lemma filter_run_wf
    (sample_ids otu_ids : list string) (p : loc) (m : matrix)
    (lineages : list (list string)) (wanted_lineage : option string)
    (max_seqs min_seqs : Z) (h : heap) (g : G) :
  h !! p = Some m ->
  wf_table sample_ids otu_ids m lineages ->
  (forall m2 c g0,
     surviving sample_ids otu_ids m lineages wanted_lineage min_seqs = Ok m2 ->
     c ∈ cols m2 -> max_seqs < zsum c ->
     length (subsample c max_seqs g0).1 = length c) ->
  exists m1 o1 l1 m2 s2 m3 p' h' g',
    lineage_stage otu_ids m lineages wanted_lineage = Ok (m1, o1, l1) /\
    min_depth_stage sample_ids m1 min_seqs = Ok (m2, s2) /\
    surviving sample_ids otu_ids m lineages wanted_lineage min_seqs = Ok m2 /\
    rarefy subsample m2 max_seqs (too_big_samples m2 max_seqs) g = (Ok m3, g') /\
    filter_otus_by_lineage subsample sample_ids otu_ids p lineages
      wanted_lineage max_seqs min_seqs (State h g)
    = (Ok (s2, o1, p', l1), State h' g') /\
    h !! p' = None /\ h' !! p' = Some m3 /\ heap_extends h h' /\
    wf_table sample_ids o1 m1 l1 /\
    (rect m2 /\ nrows m2 = nrows m1 /\ length s2 = ncols m2 /\
     Forall2 (fun j s => sample_ids !! j = Some s)
       (big_enough_samples m1 min_seqs) s2 /\
     (forall k j, big_enough_samples m1 min_seqs !! k = Some j ->
                  get_col m2 k = get_col m1 j)) /\
    (rect m3 /\ ncols m3 = ncols m2 /\ nrows m3 = nrows m2 /\
     (forall j, j ∉ too_big_samples m2 max_seqs -> get_col m3 j = get_col m2 j) /\
     (forall j, j ∈ too_big_samples m2 max_seqs ->
        exists gj, get_col m3 j = (subsample (get_col m2 j) max_seqs gj).1)).
Proof.
  intros Hp Hwf Hlen.
  destruct (lineage_stage_spec sample_ids otu_ids m lineages wanted_lineage Hwf)
    as (m1 & o1 & l1 & Hst1 & Hwf1 & Hc1 & _).
  pose proof Hwf1 as (Hrect1 & Hs1 & Ho1 & Hl1).
  destruct (min_depth_stage_spec sample_ids m1 min_seqs Hrect1 Hs1)
    as (m2 & s2 & Hst2 & Hrect2 & Hr2 & Hc2 & Hs2 & Hsid & Hcol2).
  assert (surviving sample_ids otu_ids m lineages wanted_lineage min_seqs = Ok m2)
    as Hsurv.
  { unfold surviving. rewrite Hst1. simpl. by rewrite Hst2. }
  destruct (rarefy_spec subsample max_seqs (too_big_samples m2 max_seqs) m2 g)
    as (m3 & g' & Hrar & Hrect3 & Hc3 & Hr3 & Hout & Hin).
  { done. }
  { apply StronglySorted_lt_NoDup. apply nonzero_from_sorted. }
  { apply Forall_forall. by intros j [Hj _]%elem_of_too_big_samples. }
  { intros i g0 [Hi Hbig]%elem_of_too_big_samples.
    rewrite <- (length_get_col m2 i). apply (Hlen m2); [done| |done].
    apply list_elem_of_lookup. exists i. by apply lookup_cols. }
  destruct (filter_otus_by_lineage_run subsample sample_ids otu_ids p m lineages
              wanted_lineage max_seqs min_seqs h g Hp) as (h' & Hext & Hrun).
  unfold filter_value in Hrun. rewrite Hst1, Hst2, Hrar in Hrun.
  destruct Hrun as (p' & Hfresh & Hp' & Hrun).
  exists m1, o1, l1, m2, s2, m3, p', h', g'. repeat split; done.
Qed.

End FilterSpec.

(** ** The filtering engine *)

Lemma keeps_length_on {G : Type} (subsample : list Z -> Z -> G -> list Z * G)
    (r : result matrix) (max_seqs : Z) :
  keeps_length subsample ->
  forall m2 c g0, r = Ok m2 -> c ∈ cols m2 -> max_seqs < zsum c ->
    length (subsample c max_seqs g0).1 = length c.
Proof. intros H m2 c g0 _ _ _. apply H. Qed.

Section FilterClaims.

Context {G : Type}.
Variable subsample : list Z -> Z -> G -> list Z * G.

(** C2.  Lineage selection.  For a wanted-lineage expression [w], the
    filter returns the OTU ids and the lineages found at one ascending
    index list [good]: the indices of the rows of which some lineage token
    is among the terms of [w] (the pieces of [w] between the [&&], or [w]
    itself when it has no [&&]); one matching token is enough.  The matrix
    rows are taken at the same indices: the returned matrix has one row per
    index, and it is the matrix that the filter with [None] returns for the
    rows of the input found at [good]. *)
Theorem lineage_selection_keeps_matching_rows
    (sample_ids otu_ids : list string) (p : loc) (m : matrix)
    (lineages : list (list string)) (w : string)
    (max_seqs min_seqs : Z) (h : heap) (g : G) :
  h !! p = Some m ->
  wf_table sample_ids otu_ids m lineages ->
  keeps_length subsample ->
  exists good sids oids p' lins h' g' m',
    filter_otus_by_lineage subsample sample_ids otu_ids p lineages (Some w)
      max_seqs min_seqs (State h g)
    = (Ok (sids, oids, p', lins), State h' g') /\
    h' !! p' = Some m' /\
    StronglySorted lt good /\
    (forall i, i ∈ good <->
       exists l, lineages !! i = Some l /\ exists t, t ∈ l /\ t ∈ lineage_terms w) /\
    Forall2 (fun i o => otu_ids !! i = Some o) good oids /\
    Forall2 (fun i l => lineages !! i = Some l) good lins /\
    nrows m' = length good /\
    exists m1,
      ncols m1 = ncols m /\
      Forall2 (fun i r => rows m !! i = Some r) good (rows m1) /\
      forall (h2 : heap) (p2 : loc), h2 !! p2 = Some m1 ->
        exists p2' h2',
          filter_otus_by_lineage subsample sample_ids oids p2 lins None
            max_seqs min_seqs (State h2 g)
          = (Ok (sids, oids, p2', lins), State h2' g') /\
          h2' !! p2' = Some m'.
Proof.
  intros Hp Hwf Hk.
  destruct (filter_run_wf subsample sample_ids otu_ids p m lineages (Some w)
              max_seqs min_seqs h g Hp Hwf (keeps_length_on _ _ _ Hk))
    as (m1 & o1 & l1 & m2 & s2 & m3 & p' & h' & g' & Hst1 & Hst2 & _ & Hrar
        & Hrun & _ & Hp' & _ & Hwf1 & (_ & Hr2 & _) & (_ & _ & Hr3 & _)).
  destruct (lineage_stage_spec sample_ids otu_ids m lineages (Some w) Hwf)
    as (m1' & o1' & l1' & Hst1' & _ & Hc1 & Hrows & Ho & Hl).
  rewrite Hst1 in Hst1'. injection Hst1' as <- <- <-.
  exists (good_indices w lineages), s2, o1, p', l1, h', g', m3.
  split; [done|]. split; [done|].
  split; [apply good_indices_sorted|].
  split; [apply elem_of_good_indices|].
  split; [done|]. split; [done|].
  split.
  { rewrite Hr3, Hr2. unfold nrows. symmetry. by eapply Forall2_length. }
  exists m1. split; [done|]. split; [done|].
  intros h2 p2 Hp2.
  destruct (filter_otus_by_lineage_run subsample sample_ids o1 p2 m1 l1 None
              max_seqs min_seqs h2 g Hp2) as (h2' & _ & Hrun2).
  unfold filter_value, lineage_stage in Hrun2. rewrite Hst2, Hrar in Hrun2.
  destruct Hrun2 as (p2' & _ & Hp2' & Hrun2). by exists p2', h2'.
Qed.

(** C3.  Rarefaction.  Assume that each draw from a surviving column [c]
    whose sum exceeds [max_seqs] has sum [max_seqs] and is entrywise at
    most [c].  Then the filter returns, and column [k] of its matrix is: a
    draw [subsample c max_seqs] from column [k] of the surviving matrix when
    that column sums to more than [max_seqs], so that it sums to
    [max_seqs] with every count at most the original; and that column
    itself when it sums to [max_seqs] or less. *)
Theorem rarefaction_caps_large_samples
    (sample_ids otu_ids : list string) (p : loc) (m : matrix)
    (lineages : list (list string)) (wanted_lineage : option string)
    (max_seqs min_seqs : Z) (h : heap) (g : G) :
  h !! p = Some m ->
  wf_table sample_ids otu_ids m lineages ->
  (forall m2 c g0,
     surviving sample_ids otu_ids m lineages wanted_lineage min_seqs = Ok m2 ->
     c ∈ cols m2 -> max_seqs < zsum c ->
     zsum (subsample c max_seqs g0).1 = max_seqs /\
     Forall2 Z.le (subsample c max_seqs g0).1 c) ->
  exists m2 sids oids p' lins h' g' m',
    surviving sample_ids otu_ids m lineages wanted_lineage min_seqs = Ok m2 /\
    filter_otus_by_lineage subsample sample_ids otu_ids p lineages wanted_lineage
      max_seqs min_seqs (State h g)
    = (Ok (sids, oids, p', lins), State h' g') /\
    h' !! p' = Some m' /\
    ncols m' = ncols m2 /\
    forall k c, cols m2 !! k = Some c ->
      (max_seqs < zsum c ->
         (exists gk, get_col m' k = (subsample c max_seqs gk).1) /\
         zsum (get_col m' k) = max_seqs /\
         Forall2 Z.le (get_col m' k) c) /\
      (zsum c <= max_seqs -> get_col m' k = c).
Proof.
  intros Hp Hwf Hsub.
  destruct (filter_run_wf subsample sample_ids otu_ids p m lineages wanted_lineage
              max_seqs min_seqs h g Hp Hwf)
    as (m1 & o1 & l1 & m2 & s2 & m3 & p' & h' & g' & _ & _ & Hsurv & _
        & Hrun & _ & Hp' & _ & _ & _ & (_ & Hc3 & _ & Hout & Hin)).
  { intros m2 c g0 Hm2 Hc Hbig.
    destruct (Hsub m2 c g0 Hm2 Hc Hbig) as [_ Hle]. by eapply Forall2_length. }
  exists m2, s2, o1, p', l1, h', g', m3.
  split; [done|]. split; [done|]. split; [done|]. split; [done|].
  intros k c [Hk ->]%lookup_cols_Some. split.
  - intros Hbig.
    destruct (Hin k) as [gk Hgk]; [by apply elem_of_too_big_samples|].
    assert (get_col m2 k ∈ cols m2) as Hmem.
    { apply list_elem_of_lookup. exists k. by apply lookup_cols. }
    destruct (Hsub m2 (get_col m2 k) gk Hsurv Hmem Hbig) as [Hsum Hle].
    rewrite Hgk. split; [by exists gk|done].
  - intros Hsmall. apply Hout. intros [_ Hbig]%elem_of_too_big_samples. lia.
Qed.

(** C4.  Minimum depth.  With [m1] the matrix after lineage selection, the
    filter returns the sample ids found at one ascending index list
    [big]: the columns of [m1] whose sum is at least [min_seqs] (a column
    that sums to [min_seqs - 1] is not listed, one that sums to
    [min_seqs] is).  The returned matrix has one column per index of
    [big], and the column at position [k] is the column of [m1] at
    [big[k]] itself unless that column sums to more than [max_seqs]. *)
Theorem min_depth_drops_small_samples
    (sample_ids otu_ids : list string) (p : loc) (m : matrix)
    (lineages : list (list string)) (wanted_lineage : option string)
    (max_seqs min_seqs : Z) (h : heap) (g : G) :
  h !! p = Some m ->
  wf_table sample_ids otu_ids m lineages ->
  keeps_length subsample ->
  exists m1 o1 l1 big sids oids p' lins h' g' m',
    lineage_stage otu_ids m lineages wanted_lineage = Ok (m1, o1, l1) /\
    filter_otus_by_lineage subsample sample_ids otu_ids p lineages wanted_lineage
      max_seqs min_seqs (State h g)
    = (Ok (sids, oids, p', lins), State h' g') /\
    h' !! p' = Some m' /\
    StronglySorted lt big /\
    (forall j, j ∈ big <-> (j < ncols m1)%nat /\ min_seqs <= zsum (get_col m1 j)) /\
    Forall2 (fun j s => sample_ids !! j = Some s) big sids /\
    ncols m' = length big /\
    (forall k j, big !! k = Some j ->
       zsum (get_col m1 j) <= max_seqs -> get_col m' k = get_col m1 j).
Proof.
  intros Hp Hwf Hk.
  destruct (filter_run_wf subsample sample_ids otu_ids p m lineages wanted_lineage
              max_seqs min_seqs h g Hp Hwf (keeps_length_on _ _ _ Hk))
    as (m1 & o1 & l1 & m2 & s2 & m3 & p' & h' & g' & Hst1 & _ & _ & _
        & Hrun & _ & Hp' & _ & _ & (_ & _ & Hs2 & Hsid & Hcol2)
        & (_ & Hc3 & _ & Hout & _)).
  exists m1, o1, l1, (big_enough_samples m1 min_seqs), s2, o1, p', l1, h', g', m3.
  split; [done|]. split; [done|]. split; [done|].
  split; [apply nonzero_from_sorted|].
  split; [apply elem_of_big_enough_samples|].
  split; [done|].
  split.
  { rewrite Hc3, <- Hs2. symmetry. by eapply Forall2_length. }
  intros k j Hkj Hsmall. rewrite <- (Hcol2 k j Hkj). apply Hout.
  intros [_ Hbig]%elem_of_too_big_samples. rewrite (Hcol2 k j Hkj) in Hbig. lia.
Qed.

(** C6.  The filter does not write to its input.  Whatever the arguments
    and whether the call returns or raises, every array that was in the
    heap before the call, the input matrix among them, has the same
    entries after it, and the matrix of a returned table is an array that
    was not in the heap before.  (The lists [sample_ids], [otu_ids] and
    [lineages] are only read by the function, see the conventions of the
    embedding.) *)
Theorem filter_leaves_input_arrays
    (sample_ids otu_ids : list string) (p : loc)
    (lineages : list (list string)) (wanted_lineage : option string)
    (max_seqs min_seqs : Z) (h : heap) (g : G) :
  heap_extends h
    (st_heap (filter_otus_by_lineage subsample sample_ids otu_ids p lineages
                wanted_lineage max_seqs min_seqs (State h g)).2) /\
  forall sids oids p' lins,
    (filter_otus_by_lineage subsample sample_ids otu_ids p lineages
       wanted_lineage max_seqs min_seqs (State h g)).1
    = Ok (sids, oids, p', lins) ->
    h !! p' = None /\
    is_Some (st_heap (filter_otus_by_lineage subsample sample_ids otu_ids p
                        lineages wanted_lineage max_seqs min_seqs (State h g)).2
             !! p').
Proof.
  destruct (h !! p) as [m|] eqn:Hp.
  - destruct (filter_otus_by_lineage_run subsample sample_ids otu_ids p m lineages
                wanted_lineage max_seqs min_seqs h g Hp) as (h' & Hext & Hrun).
    destruct (filter_value subsample sample_ids otu_ids m lineages wanted_lineage
                max_seqs min_seqs g) as [[[[[s o] m'] l]|e] g'].
    + destruct Hrun as (p' & Hfresh & Hp' & ->). simpl.
      split; [done|]. intros sids oids p'' lins [= _ _ <- _]. by rewrite Hp'.
    + rewrite Hrun. simpl. split; [done|]. done.
  - assert (filter_otus_by_lineage subsample sample_ids otu_ids p lineages
              wanted_lineage max_seqs min_seqs (State h g)
            = (Raise (RuntimeError "dangling array reference"), State h g)) as ->.
    { destruct wanted_lineage as [w|];
        unfold filter_otus_by_lineage, bind, load; simpl; by rewrite Hp. }
    simpl. split; [apply heap_extends_refl|done].
Qed.

(** C10.  With a wanted lineage, an OTU whose lineage list is empty is
    not among the selected indices, so its id, its lineage and its row are
    not returned; and when the table has no lineages at all the filter
    returns no OTU id, no lineage and a matrix without rows. *)
Theorem empty_lineage_rows_removed
    (sample_ids otu_ids : list string) (p : loc) (m : matrix)
    (lineages : list (list string)) (w : string)
    (max_seqs min_seqs : Z) (h : heap) (g : G) :
  h !! p = Some m ->
  wf_table sample_ids otu_ids m lineages ->
  keeps_length subsample ->
  exists good sids oids p' lins h' g' m',
    filter_otus_by_lineage subsample sample_ids otu_ids p lineages (Some w)
      max_seqs min_seqs (State h g)
    = (Ok (sids, oids, p', lins), State h' g') /\
    h' !! p' = Some m' /\
    Forall2 (fun i o => otu_ids !! i = Some o) good oids /\
    Forall2 (fun i l => lineages !! i = Some l) good lins /\
    nrows m' = length good /\
    (forall i, lineages !! i = Some [] -> i ∉ good) /\
    (lineages = [] -> oids = [] /\ lins = [] /\ nrows m' = 0%nat).
Proof.
  intros Hp Hwf Hk.
  destruct (filter_run_wf subsample sample_ids otu_ids p m lineages (Some w)
              max_seqs min_seqs h g Hp Hwf (keeps_length_on _ _ _ Hk))
    as (m1 & o1 & l1 & m2 & s2 & m3 & p' & h' & g' & Hst1 & _ & _ & _
        & Hrun & _ & Hp' & _ & _ & (_ & Hr2 & _) & (_ & _ & Hr3 & _)).
  destruct (lineage_stage_spec sample_ids otu_ids m lineages (Some w) Hwf)
    as (m1' & o1' & l1' & Hst1' & _ & _ & Hrows & Ho & Hl).
  rewrite Hst1 in Hst1'. injection Hst1' as <- <- <-.
  assert (nrows m3 = length (good_indices w lineages)) as Hn.
  { rewrite Hr3, Hr2. unfold nrows. symmetry. by eapply Forall2_length. }
  exists (good_indices w lineages), s2, o1, p', l1, h', g', m3.
  split; [done|]. split; [done|]. split; [done|]. split; [done|].
  split; [done|]. split.
  - intros i Hi (l & Hl' & t & Ht & _)%elem_of_good_indices.
    rewrite Hi in Hl'. injection Hl' as <-. by apply elem_of_nil in Ht.
  - intros ->. assert (good_indices w [] = []) as Hg by done.
    rewrite Hg in *. inversion Ho. inversion Hl. done.
Qed.

End FilterClaims.

(** ** Filtering twice *)

Lemma nonzero_from_all_false (i : nat) (mask : list bool) :
  Forall (fun b => b = false) mask -> nonzero_from i mask = [].
Proof.
  intros H. revert i. induction H as [|b mask -> _ IH]; intros i; simpl; [done|].
  apply IH.
Qed.

Lemma nonzero_map_all {A} (f : A -> bool) (l : list A) :
  Forall (fun x => f x = true) l -> nonzero (map f l) = seq 0 (length l).
Proof.
  intros H. unfold nonzero. rewrite nonzero_from_all_true.
  - by rewrite length_map.
  - apply Forall_forall. intros b Hb%list_elem_of_In%in_map_iff.
    destruct Hb as (x & <- & Hx%list_elem_of_In).
    rewrite Forall_forall in H. by apply H.
Qed.

Lemma nonzero_map_none {A} (f : A -> bool) (l : list A) :
  Forall (fun x => f x = false) l -> nonzero (map f l) = [].
Proof.
  intros H. unfold nonzero. apply nonzero_from_all_false.
  apply Forall_forall. intros b Hb%list_elem_of_In%in_map_iff.
  destruct Hb as (x & <- & Hx%list_elem_of_In).
  rewrite Forall_forall in H. by apply H.
Qed.

Lemma elem_of_sum0 (m : matrix) (s : Z) :
  s ∈ sum0 m <-> exists j, (j < ncols m)%nat /\ s = zsum (get_col m j).
Proof.
  rewrite list_elem_of_lookup. split.
  - intros [j Hj]. exists j.
    assert (j < ncols m)%nat as Hlt.
    { rewrite <- length_sum0. by eapply lookup_lt_Some. }
    rewrite lookup_sum0 in Hj by done. split; [done|congruence].
  - intros (j & Hlt & ->). exists j. by apply lookup_sum0.
Qed.

Lemma select_nil {A} (mask : list bool) : select mask (@nil A) = [].
Proof. by destruct mask. Qed.

(** Indexing with the index list of a mask selects by the mask. *)
Lemma lookup_nonzero_from_select {A} (mask : list bool) :
  forall (i0 : nat) (l xs : list A),
    Forall2 (fun i x => l !! i = Some x) (nonzero_from i0 mask) xs ->
    xs = select mask (drop i0 l).
Proof.
  induction mask as [|b mask IH]; intros i0 l xs H; simpl in *.
  - by inversion H.
  - destruct b.
    + inversion H as [|? x ? xs' Hx Hxs]; subst.
      rewrite (drop_S l x i0 Hx). f_equal. by apply IH.
    + destruct (l !! i0) as [x|] eqn:Hx.
      * rewrite (drop_S l x i0 Hx). by apply IH.
      * rewrite (IH _ _ _ H).
        rewrite !drop_ge; [by rewrite select_nil| |].
        -- by apply lookup_ge_None.
        -- apply lookup_ge_None in Hx. lia.
Qed.

Lemma zsum_select_le (f : list Z -> Z) (mask : list bool) (rs : list (list Z)) :
  Forall (fun r => 0 <= f r) rs ->
  zsum (map f (select mask rs)) <= zsum (map f rs).
Proof.
  intros H. revert mask. induction H as [|r rs Hr _ IH]; intros [|b mask];
    simpl; try lia.
  - assert (0 <= zsum (map f rs)) as H0.
    { specialize (IH []). by destruct rs. }
    lia.
  - specialize (IH mask). destruct b; simpl; lia.
Qed.

Lemma nth_nonneg (r : list Z) (j : nat) :
  Forall (fun x => 0 <= x) r -> 0 <= nth j r 0.
Proof.
  intros H. rewrite nth_lookup. destruct (r !! j) as [x|] eqn:Hx; simpl; [|lia].
  rewrite Forall_forall in H. apply H. by eapply list_elem_of_lookup_2.
Qed.

(** Under non-negative counts, the bound of the input's column sums also
    bounds the column sums after lineage selection. *)
Lemma max_bound_after_selection
    (otu_ids : list string) (m : matrix) (lineages : list (list string))
    (wanted_lineage : option string) (min_seqs max_seqs : Z)
    (m1 : matrix) (o1 : list string) (l1 : list (list string)) :
  nonneg m ->
  pass_through m min_seqs max_seqs ->
  lineage_stage otu_ids m lineages wanted_lineage = Ok (m1, o1, l1) ->
  Forall (fun s => s <= max_seqs) (sum0 m1).
Proof.
  intros Hnn Hpt Hst. unfold lineage_stage in Hst.
  destruct wanted_lineage as [w|].
  - destruct (take_rows m (good_indices w lineages)) as [m1'|] eqn:Hm1; [|done].
    simpl in Hst.
    destruct (getitems otu_ids (good_indices w lineages)); [|done].
    destruct (getitems lineages (good_indices w lineages)); [|done].
    simpl in Hst. injection Hst as -> _ _.
    apply take_rows_Ok in Hm1 as [Hc Hrows].
    rewrite good_indices_nonzero in Hrows.
    apply lookup_nonzero_from_select in Hrows. rewrite drop_0 in Hrows.
    apply Forall_forall. intros s (j & Hj & ->)%elem_of_sum0.
    rewrite Hc in Hj.
    unfold pass_through in Hpt. rewrite Forall_forall in Hpt.
    destruct (Hpt (zsum (get_col m j))) as [_ Hle].
    { apply elem_of_sum0. by exists j. }
    etrans; [|exact Hle]. unfold get_col. rewrite Hrows.
    apply (zsum_select_le (fun r => nth j r 0)).
    eapply Forall_impl; [exact Hnn|]. intros r Hr. by apply nth_nonneg.
  - injection Hst as <- _ _. eapply Forall_impl; [exact Hpt|].
    simpl. intros s [_ ?]. done.
Qed.

(** A table that lineage selection returned is not changed by lineage
    selection with the same expression. *)
Lemma lineage_stage_fixed
    (otu_ids : list string) (m : matrix) (lineages : list (list string))
    (wanted_lineage : option string)
    (m1 m2 : matrix) (o1 : list string) (l1 : list (list string)) :
  lineage_stage otu_ids m lineages wanted_lineage = Ok (m1, o1, l1) ->
  nrows m2 = nrows m1 ->
  lineage_stage o1 m2 l1 wanted_lineage = Ok (m2, o1, l1).
Proof.
  intros Hst Hn. unfold lineage_stage in *.
  destruct wanted_lineage as [w|]; [|done].
  destruct (take_rows m (good_indices w lineages)) as [m1'|] eqn:Hm1; [|done].
  simpl in Hst.
  destruct (getitems otu_ids (good_indices w lineages)) as [o1'|] eqn:Ho1; [|done].
  destruct (getitems lineages (good_indices w lineages)) as [l1'|] eqn:Hl1; [|done].
  simpl in Hst. injection Hst as -> -> ->.
  apply take_rows_nrows in Hm1.
  pose proof (map_result_length _ _ _ Ho1) as Hlo.
  pose proof (map_result_length _ _ _ Hl1) as Hll.
  apply getitems_Ok in Hl1.
  assert (good_indices w l1 = seq 0 (length l1)) as Hgood.
  { rewrite good_indices_nonzero. apply nonzero_map_all.
    apply Forall_forall. intros l Hl.
    apply list_elem_of_lookup in Hl as [k Hk].
    destruct (Forall2_lookup_r _ _ _ _ _ Hl1 Hk) as (i & Hi & Hlook).
    apply list_elem_of_lookup_2 in Hi.
    apply elem_of_good_indices in Hi as (l' & Hl' & t & Ht & Hw).
    rewrite Hlook in Hl'. injection Hl' as <-.
    apply intersects_spec. exists t. by rewrite elem_of_wanted_set. }
  rewrite Hgood.
  replace (length l1) with (nrows m2) at 1 by congruence.
  rewrite take_rows_seq. simpl.
  replace (length l1) with (length o1) at 1 by congruence.
  rewrite getitems_seq. simpl.
  by rewrite getitems_seq.
Qed.

Section FilterTwice.

Context {G : Type}.
Variable subsample : list Z -> Z -> G -> list Z * G.

(** When no column of the lineage-selected matrix exceeds [max_seqs], the
    filter draws nothing, and the table it returns is a fixed point. *)
Lemma filter_value_twice
    (sample_ids otu_ids : list string) (m : matrix)
    (lineages : list (list string)) (wanted_lineage : option string)
    (max_seqs min_seqs : Z) (g : G)
    (m1 : matrix) (o1 : list string) (l1 : list (list string)) :
  wf_table sample_ids otu_ids m lineages ->
  lineage_stage otu_ids m lineages wanted_lineage = Ok (m1, o1, l1) ->
  Forall (fun s => s <= max_seqs) (sum0 m1) ->
  exists m2 s2,
    filter_value subsample sample_ids otu_ids m lineages wanted_lineage
      max_seqs min_seqs g = (Ok (s2, o1, m2, l1), g) /\
    filter_value subsample s2 o1 m2 l1 wanted_lineage
      max_seqs min_seqs g = (Ok (s2, o1, m2, l1), g).
Proof.
  intros Hwf Hst1 Hmax.
  destruct (lineage_stage_spec sample_ids otu_ids m lineages wanted_lineage Hwf)
    as (m1' & o1' & l1' & Hst1' & Hwf1 & _).
  rewrite Hst1 in Hst1'. injection Hst1' as <- <- <-.
  destruct Hwf1 as (Hrect1 & Hs1 & Ho1 & Hl1).
  destruct (min_depth_stage_spec sample_ids m1 min_seqs Hrect1 Hs1)
    as (m2 & s2 & Hst2 & Hrect2 & Hr2 & Hc2 & Hs2 & Hsid & Hcol2).
  assert (forall k, (k < ncols m2)%nat ->
            min_seqs <= zsum (get_col m2 k) <= max_seqs) as Hbounds.
  { intros k Hk. rewrite Hc2 in Hk.
    destruct (lookup_lt_is_Some_2 _ _ Hk) as [j Hj].
    rewrite (Hcol2 k j Hj).
    apply list_elem_of_lookup_2, elem_of_big_enough_samples in Hj as [Hj Hmin].
    split; [done|]. rewrite Forall_forall in Hmax. apply Hmax.
    apply elem_of_sum0. by exists j. }
  assert (too_big_samples m2 max_seqs = []) as Htb.
  { apply elem_of_nil_inv. intros j [Hj Hbig]%elem_of_too_big_samples.
    specialize (Hbounds j Hj). lia. }
  assert (min_depth_stage s2 m2 min_seqs = Ok (m2, s2)) as Hst2'.
  { unfold min_depth_stage.
    assert (big_enough_samples m2 min_seqs = seq 0 (ncols m2)) as ->.
    { unfold big_enough_samples. rewrite nonzero_map_all.
      - by rewrite length_sum0.
      - apply Forall_forall. intros s (j & Hj & ->)%elem_of_sum0.
        apply Z.leb_le. by apply Hbounds. }
    rewrite take_cols_seq by done. simpl.
    rewrite <- Hs2. by rewrite getitems_seq. }
  exists m2, s2. unfold filter_value.
  rewrite Hst1, Hst2, Htb. simpl. split; [done|].
  rewrite (lineage_stage_fixed _ _ _ _ m1 m2 o1 l1 Hst1 Hr2).
  by rewrite Hst2', Htb.
Qed.

(** C8.  Filtering twice.  When the bounds let everything through, in that
    no column of the lineage-selected matrix sums to more than [max_seqs],
    the filter applied with the same arguments to the table it returned
    returns the same sample ids, OTU ids and lineages and a matrix with the
    same entries.  Any [min_seqs] will do: a column that the first pass
    keeps is kept by the second.  The assumption holds when [max_seqs] is
    at least every column sum of the selected matrix, and also, for counts
    that are not negative, when it is at least every column sum of the
    input matrix ([max_bound_after_selection]). *)
Theorem lineage_filter_idempotent
    (sample_ids otu_ids : list string) (p : loc) (m : matrix)
    (lineages : list (list string)) (wanted_lineage : option string)
    (max_seqs min_seqs : Z) (h : heap) (g : G) :
  h !! p = Some m ->
  wf_table sample_ids otu_ids m lineages ->
  (forall m1 o1 l1,
     lineage_stage otu_ids m lineages wanted_lineage = Ok (m1, o1, l1) ->
     Forall (fun s => s <= max_seqs) (sum0 m1)) ->
  exists sids oids lins m' p1 h1 g1 p2 h2 g2,
    filter_otus_by_lineage subsample sample_ids otu_ids p lineages wanted_lineage
      max_seqs min_seqs (State h g)
    = (Ok (sids, oids, p1, lins), State h1 g1) /\
    h1 !! p1 = Some m' /\
    filter_otus_by_lineage subsample sids oids p1 lins wanted_lineage
      max_seqs min_seqs (State h1 g1)
    = (Ok (sids, oids, p2, lins), State h2 g2) /\
    h2 !! p2 = Some m'.
Proof.
  intros Hp Hwf Hmax.
  destruct (lineage_stage_spec sample_ids otu_ids m lineages wanted_lineage Hwf)
    as (m1 & o1 & l1 & Hst1 & _).
  destruct (filter_value_twice sample_ids otu_ids m lineages wanted_lineage
              max_seqs min_seqs g m1 o1 l1 Hwf Hst1 (Hmax _ _ _ Hst1))
    as (m2 & s2 & Hv1 & Hv2).
  destruct (filter_otus_by_lineage_run subsample sample_ids otu_ids p m lineages
              wanted_lineage max_seqs min_seqs h g Hp) as (h1 & _ & Hrun1).
  rewrite Hv1 in Hrun1. destruct Hrun1 as (p1 & _ & Hp1 & Hrun1).
  destruct (filter_otus_by_lineage_run subsample s2 o1 p1 m2 l1
              wanted_lineage max_seqs min_seqs h1 g Hp1) as (h2 & _ & Hrun2).
  rewrite Hv2 in Hrun2. destruct Hrun2 as (p2 & _ & Hp2 & Hrun2).
  by exists s2, o1, l1, m2, p1, h1, g, p2, h2, g.
Qed.

End FilterTwice.

(** ** The parser *)

Lemma split_scan_cons (sep cur : string) (skip : nat) (s : string) :
  exists f fs, Str.split_scan sep cur skip s = f :: fs.
Proof.
  revert cur skip. induction s as [|c s IH]; intros cur skip; simpl; [by eauto|].
  destruct skip as [|k]; [|apply IH].
  destruct (Str.startswith sep (String c s)); [by eauto|apply IH].
Qed.

Lemma split_cons (sep s : string) : exists f fs, Str.split sep s = f :: fs.
Proof. apply split_scan_cons. Qed.

Lemma getitem_last_cons {A} (x : A) (l : list A) :
  getitem_last (x :: l) = Ok (default x (last (x :: l))).
Proof.
  unfold getitem_last. destruct (last (x :: l)) as [y|] eqn:Hl; [done|].
  by apply last_None in Hl.
Qed.

Section ParseLemmas.

Variable count_map_f : string -> result Z.

(** One data line of the loop. *)
Lemma parse_line_data (i : nat) (line : string) (st : parse_state) (hc : bool) :
  (2 <= i)%nat ->
  ps_has_consensus st = Some hc ->
  parse_line count_map_f i line st
  = (let? row := map_result count_map_f (count_fields hc line) in
     Ok (ParseState (ps_sample_ids st) (Some hc)
           (ps_otu_table st ++ [row])
           (ps_otu_ids st ++ [row_otu_id line])
           (if hc then ps_lineages st ++ [row_lineage line] else ps_lineages st))).
Proof.
  intros Hi Hhc. unfold parse_line, count_fields, row_otu_id, row_lineage.
  destruct i as [|[|i]]; [lia|lia|]. simpl Nat.eqb. cbv iota.
  rewrite Hhc. simpl.
  destruct (split_cons Str.TAB line) as (f & fs & ->).
  destruct hc.
  - destruct (map_result count_map_f (slice_1_m1 (f :: fs))) as [row|e]; [|done].
    simpl. rewrite getitem_last_cons. simpl.
    destruct (last (f :: fs)) as [y|] eqn:Hl; [done|].
    by apply last_None in Hl.
  - destruct (map_result count_map_f (slice_1 (f :: fs))) as [row|e]; done.
Qed.

(** The loop over the data lines. *)
Lemma parse_loop_data (hc : bool) (data : list string) :
  forall (i : nat) (st : parse_state),
    (2 <= i)%nat ->
    ps_has_consensus st = Some hc ->
    parse_loop count_map_f i data st
    = (let? counts := map_result
                        (fun line => map_result count_map_f (count_fields hc line))
                        data in
       Ok (ParseState (ps_sample_ids st) (Some hc)
             (ps_otu_table st ++ counts)
             (ps_otu_ids st ++ map row_otu_id data)
             (if hc then ps_lineages st ++ map row_lineage data
              else ps_lineages st))).
Proof.
  induction data as [|line data IH]; intros i st Hi Hhc; simpl.
  - rewrite !app_nil_r. destruct st as [s c t o l]. simpl in *. subst c.
    by destruct hc.
  - rewrite (parse_line_data i line st hc Hi Hhc).
    destruct (map_result count_map_f (count_fields hc line)) as [row|e]; [|done].
    simpl. rewrite IH; [|lia|done]. simpl.
    destruct (map_result _ data) as [counts|e]; [|done]. simpl.
    rewrite <- !app_assoc. simpl. destruct hc; [|done].
    by rewrite <- app_assoc.
Qed.

(** The whole parse of a file with a title line, a sample-id line that
    has a token after its first, and data lines. *)
Lemma parse_otus_closed_form (title header : string) (data : list string) :
  header_tokens header <> [] ->
  parse_otus count_map_f (title :: header :: data)
  = (let? counts :=
       map_result
         (fun line =>
            map_result count_map_f (count_fields (has_consensus_column header) line))
         data in
     Ok (sample_columns header, map row_otu_id data, array counts,
         if has_consensus_column header then map row_lineage data else [])).
Proof.
  intros Htok. unfold parse_otus. simpl parse_loop.
  unfold parse_line at 1. simpl Nat.eqb. cbv iota.
  unfold sample_columns, has_consensus_column. fold (header_tokens header).
  destruct (header_tokens header) as [|t ts] eqn:Hts; [done|].
  simpl length. simpl Nat.eqb. cbv iota.
  rewrite getitem_last_cons. simpl rbind.
  assert (last (t :: ts) = Some (default t (last (t :: ts)))) as Hlast.
  { destruct (last (t :: ts)) as [y|] eqn:Hl; [done|]. by apply last_None in Hl. }
  destruct (String.eqb (default t (last (t :: ts))) CONSENSUS) eqn:Heq.
  - apply String.eqb_eq in Heq.
    rewrite bool_decide_eq_true_2 by congruence. simpl rbind.
    rewrite (parse_loop_data true); [|lia|done]. simpl.
    by destruct (map_result _ data).
  - apply String.eqb_neq in Heq.
    rewrite bool_decide_eq_false_2 by congruence. simpl rbind.
    rewrite (parse_loop_data false); [|lia|done]. simpl.
    by destruct (map_result _ data).
Qed.

Lemma parse_otus_no_samples (title header : string) (data : list string) :
  header_tokens header = [] ->
  parse_otus count_map_f (title :: header :: data)
  = Raise (RuntimeError "no samples found in otu table").
Proof.
  intros Htok. unfold parse_otus. simpl parse_loop.
  unfold parse_line at 1. simpl Nat.eqb. cbv iota.
  fold (header_tokens header). by rewrite Htok.
Qed.

Lemma map_result_is_ok {A B} (f : A -> result B) (l : list A) :
  is_ok (map_result f l) = forallb (fun x => is_ok (f x)) l.
Proof.
  induction l as [|x l IH]; simpl; [done|].
  destruct (f x); simpl; [|done]. rewrite <- IH.
  by destruct (map_result f l).
Qed.

End ParseLemmas.

Lemma array_Arr2 (n : nat) (r : list Z) (rs : list (list Z)) :
  Forall (fun r' => length r' = n) (r :: rs) ->
  array (r :: rs) = Arr2 (Matrix n (r :: rs)) /\ rect (Matrix n (r :: rs)).
Proof.
  intros H. pose proof (Forall_inv H) as Hr. unfold array.
  assert (forallb (fun r' => Nat.eqb (length r') (length r)) (r :: rs) = true) as ->.
  { apply forallb_forall. intros r' Hr'%list_elem_of_In. apply Nat.eqb_eq.
    rewrite Forall_forall in H. rewrite (H r' Hr'). done. }
  by rewrite Hr.
Qed.

Lemma length_count_fields (hc : bool) (line : string) (n : nat) :
  length (Str.split Str.TAB line) = S n ->
  length (count_fields hc line) = if hc then (n - 1)%nat else n.
Proof.
  intros H. unfold count_fields, slice_1_m1, slice_1.
  destruct hc; rewrite ?length_take, !length_drop, H; lia.
Qed.

Lemma length_sample_columns (header : string) :
  length (sample_columns header)
  = if has_consensus_column header
    then (length (header_tokens header) - 1)%nat
    else length (header_tokens header).
Proof.
  unfold sample_columns, slice_to_m1.
  destruct (has_consensus_column header); [|done].
  rewrite length_take. lia.
Qed.

Lemma counts_coerce_Ok (count_map_f : string -> result Z) (hc : bool)
    (data : list string) :
  counts_coerce count_map_f hc data = true ->
  exists counts,
    map_result (fun line => map_result count_map_f (count_fields hc line)) data
    = Ok counts.
Proof.
  intros H. apply map_result_total. apply Forall_forall. intros line Hline.
  unfold counts_coerce in H. rewrite forallb_forall in H.
  specialize (H line (proj1 (list_elem_of_In _ _) Hline)).
  rewrite <- map_result_is_ok in H.
  destruct (map_result count_map_f (count_fields hc line)) as [row|e]; [|done].
  by exists row.
Qed.

Lemma is_ok_counts_coerce (count_map_f : string -> result Z) (hc : bool)
    (data : list string) :
  is_ok (map_result (fun line => map_result count_map_f (count_fields hc line)) data)
  = counts_coerce count_map_f hc data.
Proof.
  rewrite map_result_is_ok. unfold counts_coerce.
  induction data as [|line data IH]; simpl; [done|].
  by rewrite IH, map_result_is_ok.
Qed.

(** On a file whose data lines (at least one) have one field more than
    the header has tokens after its first, the parser returns a table
    that satisfies the shape invariant. *)
Lemma parse_otus_shape (count_map_f : string -> result Z)
    (title header : string) (data : list string) :
  header_tokens header <> [] ->
  data <> [] ->
  Forall (fun line => length (Str.split Str.TAB line)
                      = S (length (header_tokens header))) data ->
  counts_coerce count_map_f (has_consensus_column header) data = true ->
  exists sids oids mtx lins,
    parse_otus count_map_f (title :: header :: data)
    = Ok (sids, oids, Arr2 mtx, lins) /\
    wf_table sids oids mtx lins.
Proof.
  intros Htok Hdata Hlen Hco.
  rewrite parse_otus_closed_form by done.
  destruct (counts_coerce_Ok _ _ _ Hco) as [counts Hcounts].
  rewrite Hcounts. simpl.
  pose proof (map_result_length _ _ _ Hcounts) as Hlc.
  apply map_result_Ok in Hcounts.
  assert (Forall (fun r => length r = length (sample_columns header)) counts) as Hrows.
  { apply Forall_forall. intros r Hr. apply list_elem_of_lookup in Hr as [k Hk].
    destruct (Forall2_lookup_r _ _ _ _ _ Hcounts Hk) as (line & Hline & Hrow).
    apply map_result_length in Hrow. rewrite Hrow.
    rewrite Forall_forall in Hlen.
    rewrite (length_count_fields _ _ _ (Hlen line (list_elem_of_lookup_2 _ _ _ Hline))).
    by rewrite length_sample_columns. }
  destruct counts as [|r rs].
  { destruct data; [done|]. simpl in Hlc. lia. }
  destruct (array_Arr2 _ r rs Hrows) as [-> Hrect].
  eexists _, _, _, _. split; [reflexivity|].
  split; [done|]. split; [done|].
  unfold nrows. simpl rows. split.
  - by rewrite length_map.
  - destruct (has_consensus_column header); [right|by left].
    by rewrite length_map.
Qed.

Lemma wf_table_shape_invariant (sids oids : list string) (m : matrix)
    (lins : list (list string)) :
  wf_table sids oids m lins -> shape_invariant (sids, oids, Arr2 m, lins).
Proof.
  intros (_ & Hs & Ho & Hl). unfold shape_invariant. simpl.
  split; [congruence|]. intros Hne. destruct Hl; congruence.
Qed.

Lemma set_col_shape (m : matrix) (j : nat) (v : list Z) (m' : matrix) :
  rect m -> set_col m j v = Ok m' ->
  rect m' /\ ncols m' = ncols m /\ nrows m' = nrows m.
Proof.
  intros Hrect. unfold set_col.
  destruct (negb (Nat.ltb j (ncols m))); [done|].
  destruct (Nat.eqb (length v) (nrows m)) eqn:Hv.
  - intros [= <-]. apply Nat.eqb_eq in Hv. unfold rect, nrows in *. simpl.
    split; [|split; [done|]].
    + apply Forall_forall. intros r Hr.
      apply list_elem_of_lookup in Hr as [i Hi].
      apply lookup_zip_with_Some in Hi as (r0 & x & -> & Hr0 & _).
      rewrite length_insert. rewrite Forall_forall in Hrect.
      apply Hrect. by eapply list_elem_of_lookup_2.
    + rewrite length_zip_with. lia.
  - destruct v as [|x [|y v]]; [done| |done].
    intros [= <-]. unfold rect, nrows in *. simpl.
    split; [|split; [done|by rewrite length_map]].
    apply Forall_forall. intros r Hr%list_elem_of_In%in_map_iff.
    destruct Hr as (r0 & <- & Hr0%list_elem_of_In).
    rewrite length_insert. rewrite Forall_forall in Hrect. by apply Hrect.
Qed.

Section FilterShape.

Context {G : Type}.
Variable subsample : list Z -> Z -> G -> list Z * G.

Lemma rarefy_shape (max_seqs : Z) (too_big : list nat) :
  forall (m : matrix) (g : G) (m' : matrix) (g' : G),
    rect m ->
    rarefy subsample m max_seqs too_big g = (Ok m', g') ->
    rect m' /\ ncols m' = ncols m /\ nrows m' = nrows m.
Proof.
  induction too_big as [|i rest IH]; intros m g m' g' Hrect; simpl.
  - by intros [= <- _].
  - destruct (subsample (get_col m i) max_seqs g) as [v g1].
    destruct (set_col m i v) as [m1|e] eqn:Hset; [|done].
    destruct (set_col_shape m i v m1 Hrect Hset) as (Hrect1 & Hc1 & Hr1).
    intros Hrar. destruct (IH m1 g1 m' g' Hrect1 Hrar) as (? & ? & ?).
    split; [done|]. split; congruence.
Qed.

(** Whatever [subsample] returns, a table that the filter returns for a
    well-formed table is well formed. *)
Lemma filter_value_shape
    (sample_ids otu_ids : list string) (m : matrix)
    (lineages : list (list string)) (wanted_lineage : option string)
    (max_seqs min_seqs : Z) (g : G)
    (s o : list string) (m' : matrix) (l : list (list string)) (g' : G) :
  wf_table sample_ids otu_ids m lineages ->
  filter_value subsample sample_ids otu_ids m lineages wanted_lineage
    max_seqs min_seqs g = (Ok (s, o, m', l), g') ->
  wf_table s o m' l.
Proof.
  intros Hwf. unfold filter_value.
  destruct (lineage_stage_spec sample_ids otu_ids m lineages wanted_lineage Hwf)
    as (m1 & o1 & l1 & -> & (Hrect1 & Hs1 & Ho1 & Hl1) & _).
  destruct (min_depth_stage_spec sample_ids m1 min_seqs Hrect1 Hs1)
    as (m2 & s2 & -> & Hrect2 & Hr2 & _ & Hs2 & _).
  destruct (rarefy subsample m2 max_seqs (too_big_samples m2 max_seqs) g)
    as [[m3|e] g3] eqn:Hrar; [|done].
  intros [= <- <- <- <- _].
  destruct (rarefy_shape _ _ _ _ _ _ Hrect2 Hrar) as (Hrect3 & Hc3 & Hr3).
  split; [done|]. split; [congruence|]. split; [congruence|].
  destruct Hl1 as [->|Hl1]; [by left|right; congruence].
Qed.

End FilterShape.

Lemma take_first_length (n : Z) (c : list Z) : length (take_first n c) = length c.
Proof. revert n. induction c as [|x c IH]; intros n; simpl; [done|]. by rewrite IH. Qed.

Lemma subsample_first_keeps_length : keeps_length subsample_first.
Proof.
  intros c n g. unfold subsample_first. simpl.
  destruct (Z.leb (zsum c) n); [done|apply take_first_length].
Qed.

Lemma ex_table_wf : wf_table ex_sample_ids ex_otu_ids ex_counts ex_lineages.
Proof.
  split; [by repeat constructor|]. split; [done|]. split; [done|]. by right.
Qed.

(** ** The claims on the parser and on the shape of the tables *)

(** C7.  The lineage column.  On a file with a title line and a
    sample-id line that has a token after its first, the parser records
    lineages exactly when the last token of the stripped sample-id line is
    [Consensus Lineage].  When it is, the sample ids are the tokens
    without that last one, the counts of a data line are its fields
    without the first and the last, and its lineage is its last field
    split at the semicolons with every segment stripped.  When it is not,
    the sample ids are all the tokens, the counts of a data line are all
    its fields after the first, and the lineages are empty.  The parse
    raises what [count_map_f] raises on the first field it rejects. *)
Theorem lineages_recorded_iff_consensus_column
    (count_map_f : string -> result Z)
    (title header : string) (data : list string) :
  header_tokens header <> [] ->
  parse_otus count_map_f (title :: header :: data)
  = if bool_decide (last (header_tokens header) = Some CONSENSUS)
    then
      let? counts :=
        map_result
          (fun line => map_result count_map_f
                         (slice_1_m1 (Str.split Str.TAB line))) data in
      Ok (slice_to_m1 (header_tokens header), map row_otu_id data,
          array counts, map row_lineage data)
    else
      let? counts :=
        map_result
          (fun line => map_result count_map_f
                         (slice_1 (Str.split Str.TAB line))) data in
      Ok (header_tokens header, map row_otu_id data, array counts, []).
Proof.
  intros Htok. rewrite parse_otus_closed_form by done.
  unfold sample_columns, has_consensus_column, count_fields.
  by destruct (bool_decide (last (header_tokens header) = Some CONSENSUS)).
Qed.

Lemma lineages_recorded_witness :
  header_tokens (tsv ["#OTU ID"; "A"; "B"; "Consensus Lineage"]) <> [] /\
  parse_otus int ex_lines
  = Ok (["A"; "B"], ["otu1"; "otu2"],
        Arr2 (Matrix 2 [[10; 100]; [5; 5]]),
        [["Root"; "Bacteria"]; ["Root"; "Archaea"]]).
Proof.
  assert (header_tokens (tsv ["#OTU ID"; "A"; "B"; "Consensus Lineage"]) <> [])
    as H by (vm_compute; discriminate).
  split; [exact H|].
  etrans; [exact (lineages_recorded_iff_consensus_column int _ _ _ H)|].
  vm_compute. reflexivity.
Defined.

(** C5, as the specification has it, fails: a data row with fewer fields
    than the header requires makes the table malformed in its words, and
    the parser returns a table for it. *)
Lemma short_row_is_accepted :
  ~ (is_ok (parse_otus int ex_short_row_lines) = false
     <-> malformed_table ex_short_row_lines = true).
Proof.
  intros [_ H]. assert (malformed_table ex_short_row_lines = true) as Hm
    by (vm_compute; reflexivity).
  specialize (H Hm). vm_compute in H. discriminate H.
Qed.

(** C5, amended.  The parser raises [RuntimeError('no samples found in otu
    table')], and so returns no table, when the stripped sample-id line
    has no token after its first.  It does not compare the number of
    fields of a data line with the header: when the header names at least
    one sample, the parse returns a table exactly when [count_map_f]
    accepts every count field of every data line. *)
Theorem parse_raises_on_no_samples
    (count_map_f : string -> result Z)
    (title header : string) (data : list string) :
  (header_tokens header = [] ->
   parse_otus count_map_f (title :: header :: data)
   = Raise (RuntimeError "no samples found in otu table")) /\
  (sample_columns header <> [] ->
   is_ok (parse_otus count_map_f (title :: header :: data))
   = counts_coerce count_map_f (has_consensus_column header) data).
Proof.
  split; [apply parse_otus_no_samples|].
  intros Hcols. rewrite parse_otus_closed_form.
  - rewrite <- is_ok_counts_coerce. by destruct (map_result _ data).
  - intros Htok. apply Hcols. unfold sample_columns. rewrite Htok.
    by destruct (has_consensus_column header).
Qed.

Lemma parse_raises_on_no_samples_witness :
  parse_otus int ["#Full OTU Counts"; "#OTU ID"; tsv ["otu1"; "1"]]
  = Raise (RuntimeError "no samples found in otu table") /\
  is_ok (parse_otus int ex_short_row_lines) = true.
Proof.
  split.
  - apply (proj1 (parse_raises_on_no_samples int _ "#OTU ID" _)).
    vm_compute. reflexivity.
  - etrans; [apply (proj2 (parse_raises_on_no_samples int _ _ _))|].
    + vm_compute. discriminate.
    + vm_compute. reflexivity.
Defined.

(** C1, as the specification has it, fails for the parser: from a file
    whose header names two samples and whose data rows carry one count
    each, it returns a matrix with one column and two sample ids. *)
Lemma narrow_table_breaks_shape_invariant :
  exists t, parse_otus int ex_narrow_lines = Ok t /\ ~ shape_invariant t.
Proof.
  eexists. split; [vm_compute; reflexivity|].
  intros [H _]. vm_compute in H. discriminate H.
Qed.

(** C1, amended.  The parser does not check the rows against the header;
    the shape invariant holds for the table it returns from a file with at
    least one data line in which every data line has one field more than
    the stripped sample-id line has tokens after its first.  For the
    filter, every table it returns for a table that satisfies the
    invariant (a rectangular matrix, one sample id per column, one OTU id
    per row, lineages absent or one per row) satisfies the invariant,
    whatever [wanted_lineage], the bounds and [subsample] are; and it
    returns whenever [subsample] returns one entry per row. *)
Theorem shape_invariant_holds
    (count_map_f : string -> result Z)
    {G : Type} (subsample : list Z -> Z -> G -> list Z * G) :
  (forall (title header : string) (data : list string),
     header_tokens header <> [] ->
     data <> [] ->
     Forall (fun line => length (Str.split Str.TAB line)
                         = S (length (header_tokens header))) data ->
     counts_coerce count_map_f (has_consensus_column header) data = true ->
     exists t,
       parse_otus count_map_f (title :: header :: data) = Ok t /\
       shape_invariant t) /\
  (forall (sample_ids otu_ids : list string) (p : loc) (m : matrix)
          (lineages : list (list string)) (wanted_lineage : option string)
          (max_seqs min_seqs : Z) (h : heap) (g : G),
     h !! p = Some m ->
     wf_table sample_ids otu_ids m lineages ->
     (forall sids oids p' lins s',
        filter_otus_by_lineage subsample sample_ids otu_ids p lineages
          wanted_lineage max_seqs min_seqs (State h g)
        = (Ok (sids, oids, p', lins), s') ->
        exists m', st_heap s' !! p' = Some m' /\ rect m' /\
                   shape_invariant (sids, oids, Arr2 m', lins)) /\
     (keeps_length subsample ->
      exists sids oids p' lins s',
        filter_otus_by_lineage subsample sample_ids otu_ids p lineages
          wanted_lineage max_seqs min_seqs (State h g)
        = (Ok (sids, oids, p', lins), s'))).
Proof.
  split.
  - intros title header data Htok Hdata Hlen Hco.
    destruct (parse_otus_shape count_map_f title header data Htok Hdata Hlen Hco)
      as (sids & oids & mtx & lins & Hparse & Hwf).
    eexists. split; [exact Hparse|]. by apply wf_table_shape_invariant.
  - intros sample_ids otu_ids p m lineages wanted_lineage max_seqs min_seqs h g
      Hp Hwf.
    split.
    + intros sids oids p' lins s' Hrun.
      destruct (filter_otus_by_lineage_run subsample sample_ids otu_ids p m lineages
                  wanted_lineage max_seqs min_seqs h g Hp) as (h' & _ & Hrun').
      destruct (filter_value subsample sample_ids otu_ids m lineages wanted_lineage
                  max_seqs min_seqs g) as [[[[[s o] m'] l]|e] g'] eqn:Hv.
      * destruct Hrun' as (p'' & _ & Hp'' & Hrun').
        rewrite Hrun in Hrun'. injection Hrun' as -> -> -> -> ->.
        pose proof (filter_value_shape subsample _ _ _ _ _ _ _ _ _ _ _ _ _ Hwf Hv)
          as Hwf'.
        exists m'. split; [done|]. split; [apply Hwf'|].
        by apply wf_table_shape_invariant.
      * rewrite Hrun in Hrun'. done.
    + intros Hk.
      destruct (filter_run_wf subsample sample_ids otu_ids p m lineages
                  wanted_lineage max_seqs min_seqs h g Hp Hwf
                  (keeps_length_on _ _ _ Hk))
        as (m1 & o1 & l1 & m2 & s2 & m3 & p' & h' & g' & _ & _ & _ & _ & Hrun & _).
      by eexists _, _, _, _, _.
Qed.

Lemma shape_invariant_witness :
  (exists t, parse_otus int ex_lines = Ok t /\ shape_invariant t) /\
  (exists sids oids p' lins s',
     filter_otus_by_lineage subsample_first ex_sample_ids ex_otu_ids 1%positive
       ex_lineages (Some "Bacteria") 50 1 (State ex_heap 0%nat)
     = (Ok (sids, oids, p', lins), s')).
Proof.
  split.
  - apply (proj1 (shape_invariant_holds int subsample_first)).
    + vm_compute. discriminate.
    + discriminate.
    + repeat constructor.
    + vm_compute. reflexivity.
  - apply (proj2 (proj2 (shape_invariant_holds int subsample_first)
                          ex_sample_ids ex_otu_ids 1%positive ex_counts ex_lineages
                          (Some "Bacteria") 50 1 ex_heap 0%nat
                          eq_refl ex_table_wf)).
    apply subsample_first_keeps_length.
Defined.

(** ** The envs dict *)

Lemma py_dict_fold_lookup (pairs : list (string * Z)) :
  forall (d : gmap string Z) (k : string) (v : Z),
    NoDup (pairs.*1) ->
    fold_left (fun d kv => <[kv.1 := kv.2]> d) pairs d !! k = Some v
    <-> (k, v) ∈ pairs \/ ((k ∉ pairs.*1) /\ d !! k = Some v).
Proof.
  induction pairs as [|[k0 v0] pairs IH]; intros d k v Hnd; simpl.
  - rewrite elem_of_nil. split; [|intros [[]|[_ ?]]; done].
    intros ?. right. split; [|done]. apply not_elem_of_nil.
  - apply NoDup_cons in Hnd as [Hk0 Hnd]. simpl in Hk0.
    rewrite IH by done. rewrite elem_of_cons, not_elem_of_cons.
    destruct (decide (k = k0)) as [->|Hne].
    + rewrite lookup_insert_eq. split.
      * intros [Hin|[_ [= ->]]]; [|by left; left].
        exfalso. apply Hk0. apply list_elem_of_fmap. by exists (k0, v).
      * intros [[[= ->]|Hin]|[[? _] _]]; [|by left|done].
        right. split; [done|done].
    + rewrite lookup_insert_ne by done. split.
      * intros [Hin|[Hnot Hd]]; [by left; right|]. right. done.
      * intros [[[= -> _]|Hin]|[[_ Hnot] Hd]]; [done|by left|by right].
Qed.

Lemma py_dict_lookup (pairs : list (string * Z)) (k : string) (v : Z) :
  NoDup (pairs.*1) -> py_dict pairs !! k = Some v <-> (k, v) ∈ pairs.
Proof.
  intros Hnd. unfold py_dict. rewrite py_dict_fold_lookup by done.
  rewrite lookup_empty. split; [intros [?|[_ ?]]; done|by left].
Qed.

Lemma NoDup_getitems {A} (l : list A) (idx : list nat) (xs : list A) :
  NoDup idx -> NoDup l ->
  Forall2 (fun i x => l !! i = Some x) idx xs -> NoDup xs.
Proof.
  intros Hidx Hl H. apply NoDup_alt. intros i j x Hi Hj.
  destruct (Forall2_lookup_r _ _ _ _ _ H Hi) as (a & Ha & Hla).
  destruct (Forall2_lookup_r _ _ _ _ _ H Hj) as (b & Hb & Hlb).
  assert (a = b) as -> by exact (NoDup_lookup l a b x Hl Hla Hlb).
  exact (NoDup_lookup idx i j b Hidx Ha Hb).
Qed.

(** The dict of one taxon holds the non-zero counts of its column, by
    sample name. *)
Lemma taxon_dict_spec (sample_names : list string) (taxon : list Z) :
  NoDup sample_names -> length taxon = length sample_names ->
  exists d,
    taxon_dict sample_names taxon = Ok d /\
    forall s c, d !! s = Some c <->
      exists i, sample_names !! i = Some s /\ taxon !! i = Some c /\ c <> 0.
Proof.
  intros Hnd Hlen. unfold taxon_dict.
  set (nz := nonzero (map (fun x => negb (Z.eqb x 0)) taxon)).
  assert (Hnz : forall i, i ∈ nz <-> exists x, taxon !! i = Some x /\ x <> 0).
  { intros i. unfold nz. rewrite elem_of_nonzero, lookup_map. split.
    - destruct (taxon !! i) as [x|]; simpl; [|done].
      intros [= Hx]. exists x. split; [done|].
      apply negb_true_iff, Z.eqb_neq in Hx. done.
    - intros (x & -> & Hx). simpl. f_equal.
      by apply negb_true_iff, Z.eqb_neq. }
  assert (Forall (fun i => (i < length taxon)%nat) nz) as Hlt.
  { apply Forall_forall. intros i (x & Hx & _)%Hnz. by eapply lookup_lt_Some. }
  destruct (getitems_total sample_names nz) as [names Hnames].
  { by rewrite <- Hlen. }
  destruct (getitems_total taxon nz Hlt) as [vals Hvals].
  rewrite Hnames, Hvals. simpl. eexists. split; [reflexivity|].
  apply getitems_Ok in Hnames. apply getitems_Ok in Hvals.
  pose proof (Forall2_length _ _ _ Hnames) as Hln.
  pose proof (Forall2_length _ _ _ Hvals) as Hlv.
  intros s c. rewrite py_dict_lookup.
  - rewrite list_elem_of_lookup. split.
    + intros [k Hk]. apply lookup_zip_with_Some in Hk as (s' & c' & [= <- <-] & Hs & Hc).
      destruct (Forall2_lookup_r _ _ _ _ _ Hnames Hs) as (i & Hi & Hsi).
      destruct (Forall2_lookup_r _ _ _ _ _ Hvals Hc) as (i' & Hi' & Hci).
      rewrite Hi in Hi'. injection Hi' as <-.
      exists i. split; [done|]. split; [done|].
      apply list_elem_of_lookup_2, Hnz in Hi as (x & Hx & Hx0). congruence.
    + intros (i & Hs & Hc & Hc0).
      assert (i ∈ nz) as Hi by (apply Hnz; eauto).
      apply list_elem_of_lookup in Hi as [k Hk]. exists k.
      destruct (Forall2_lookup_l _ _ _ _ _ Hnames Hk) as (s' & Hs' & Hsi).
      destruct (Forall2_lookup_l _ _ _ _ _ Hvals Hk) as (c' & Hc' & Hci).
      apply lookup_zip_with_Some. exists s', c'.
      split; [congruence|done].
  - rewrite fst_zip by lia.
    eapply NoDup_getitems; [|exact Hnd|exact Hnames].
    apply StronglySorted_lt_NoDup, nonzero_from_sorted.
Qed.

(** The loop gives each taxon its dict and leaves the other keys alone. *)
Lemma envs_loop_spec (sample_names taxon_names : list string)
    (taxa : list (list Z)) :
  NoDup sample_names -> NoDup taxon_names ->
  Forall (fun taxon => length taxon = length sample_names) taxa ->
  forall (i : nat) (envs0 : gmap string (gmap string Z)),
    (i + length taxa <= length taxon_names)%nat ->
    exists envs,
      envs_loop sample_names taxon_names i taxa envs0 = Ok envs /\
      (forall k taxon t,
         taxa !! k = Some taxon -> taxon_names !! (i + k)%nat = Some t ->
         exists d, taxon_dict sample_names taxon = Ok d /\ envs !! t = Some d) /\
      (forall t,
         (forall k, (k < length taxa)%nat -> taxon_names !! (i + k)%nat <> Some t) ->
         envs !! t = envs0 !! t).
Proof.
  intros Hsn Htn Htaxa. induction Htaxa as [|taxon taxa Hlen _ IH];
    intros i envs0 Hi; simpl in *.
  - exists envs0. split; [done|]. split; [|done]. intros k taxon t Hk. done.
  - destruct (taxon_dict_spec sample_names taxon Hsn Hlen) as (d & Hd & _).
    rewrite Hd. simpl.
    destruct (lookup_lt_is_Some_2 taxon_names i) as [t0 Ht0]; [lia|].
    unfold getitem. rewrite Ht0. simpl.
    destruct (IH (S i) (<[t0 := d]> envs0)) as (envs & Hrun & Hin & Hout); [lia|].
    exists envs. split; [done|]. split.
    + intros [|k] taxon' t Hk Ht.
      * simpl in Hk. injection Hk as <-. rewrite Nat.add_0_r in Ht.
        rewrite Ht0 in Ht. injection Ht as <-.
        cut (envs !! t0 = Some d); [by exists d|].
        rewrite Hout.
        -- by rewrite lookup_insert_eq.
        -- intros k _ Hk.
           pose proof (NoDup_lookup _ _ _ _ Htn Ht0 Hk). lia.
      * simpl in Hk. apply (Hin k); [done|].
        by replace (S i + k)%nat with (i + S k)%nat by lia.
    + intros t Ht. rewrite Hout.
      * apply lookup_insert_ne. intros ->.
        apply (Ht 0%nat); [lia|]. by rewrite Nat.add_0_r.
      * intros k Hk. replace (S i + k)%nat with (i + S k)%nat by lia.
        apply Ht. lia.
Qed.

Lemma lookup_get_col (m : matrix) (i j : nat) (c : Z) :
  get_col m j !! i = Some c <-> (i < nrows m)%nat /\ c = entry m i j.
Proof.
  unfold get_col, entry, nrows. rewrite lookup_map, (nth_lookup (rows m)).
  destruct (rows m !! i) as [r|] eqn:Hr; simpl.
  - apply lookup_lt_Some in Hr as Hlt. split.
    + intros [= <-]. done.
    + intros [_ ->]. done.
  - apply lookup_ge_None in Hr. split; [done|]. intros [? _]. lia.
Qed.

(** C9.  The envs dict.  For a samples-by-taxa matrix with distinct sample
    names, one per row, and distinct taxon names, one per column,
    [make_envs_dict] returns a dict in which taxon [t] maps sample [s] to
    count [c] exactly when [c] is the entry of the matrix for [s] and [t]
    and is not zero; and the dense matrix of that dict, with zero for each
    missing key, is the matrix itself. *)
Theorem envs_dict_sparse_round_trip
    (m : matrix) (sample_names taxon_names : list string) :
  rect m ->
  nrows m = length sample_names ->
  ncols m = length taxon_names ->
  NoDup sample_names ->
  NoDup taxon_names ->
  exists envs,
    make_envs_dict m sample_names taxon_names = Ok envs /\
    (forall t s c,
       (exists d, envs !! t = Some d /\ d !! s = Some c) <->
       (exists i j, sample_names !! i = Some s /\ taxon_names !! j = Some t /\
                    entry m i j = c /\ c <> 0)) /\
    expand envs sample_names taxon_names = m.
Proof.
  intros Hrect Hnr Hnc Hsn Htn. unfold make_envs_dict.
  rewrite Hnr, Hnc, !Nat.eqb_refl. simpl.
  destruct (envs_loop_spec sample_names taxon_names (cols m) Hsn Htn) with
    (i := 0%nat) (envs0 := (∅ : gmap string (gmap string Z)))
    as (envs & Hrun & Hin & Hout).
  { apply Forall_forall. intros c Hc. apply list_elem_of_lookup in Hc as [j Hj].
    apply lookup_cols_Some in Hj as [_ ->]. by rewrite length_get_col. }
  { rewrite length_cols. lia. }
  assert (HK : forall j t, taxon_names !! j = Some t ->
            exists d, envs !! t = Some d /\
              forall s c, d !! s = Some c <->
                exists i, sample_names !! i = Some s /\ entry m i j = c /\ c <> 0).
  { intros j t Ht. apply lookup_lt_Some in Ht as Hj. rewrite <- Hnc in Hj.
    destruct (Hin j (get_col m j) t) as (d & Hd & Hlook);
      [by apply lookup_cols|done|].
    destruct (taxon_dict_spec sample_names (get_col m j) Hsn) as (d' & Hd' & Hspec).
    { by rewrite length_get_col. }
    rewrite Hd in Hd'. injection Hd' as <-.
    exists d. split; [done|]. intros s c. rewrite Hspec.
    split.
    - intros (i & Hs & Hcol & Hc). apply lookup_get_col in Hcol as [_ Hcol].
      exists i. by rewrite <- Hcol.
    - intros (i & Hs & <- & Hc). exists i. split; [done|]. split; [|done].
      apply lookup_get_col. split; [|done].
      rewrite Hnr. by eapply lookup_lt_Some. }
  assert (HN : forall t d, envs !! t = Some d -> exists j, taxon_names !! j = Some t).
  { intros t d Hd. destruct (decide (t ∈ taxon_names)) as [Hin'|Hnot].
    - by apply list_elem_of_lookup in Hin'.
    - rewrite Hout in Hd; [by rewrite lookup_empty in Hd|].
      intros k _ Hk. apply Hnot. by eapply list_elem_of_lookup_2. }
  exists envs. split; [done|]. split.
  - intros t s c. split.
    + intros (d & Hd & Hc). destruct (HN t d Hd) as [j Hj].
      destruct (HK j t Hj) as (d' & Hd' & Hspec).
      rewrite Hd in Hd'. injection Hd' as <-.
      destruct (proj1 (Hspec s c) Hc) as (i & Hs & He & Hc0). by exists i, j.
    + intros (i & j & Hs & Ht & He & Hc0).
      destruct (HK j t Ht) as (d & Hd & Hspec).
      exists d. split; [done|]. apply Hspec. by exists i.
  - destruct m as [n rs]. unfold expand, rect, nrows, entry in *. simpl in *.
    rewrite <- Hnc. f_equal.
    apply list_eq. intros i. rewrite lookup_map.
    destruct (sample_names !! i) as [s|] eqn:Hs; simpl.
    + apply lookup_lt_Some in Hs as Hi. rewrite <- Hnr in Hi.
      destruct (lookup_lt_is_Some_2 rs i Hi) as [r Hr]. rewrite Hr. f_equal.
      assert (length r = n) as Hlr.
      { rewrite Forall_forall in Hrect. apply Hrect.
        by eapply list_elem_of_lookup_2. }
      apply list_eq. intros j. rewrite lookup_map.
      destruct (taxon_names !! j) as [t|] eqn:Ht; simpl.
      * apply lookup_lt_Some in Ht as Hj. rewrite <- Hnc, <- Hlr in Hj.
        destruct (lookup_lt_is_Some_2 r j Hj) as [x Hx]. rewrite Hx. f_equal.
        destruct (HK j t Ht) as (d & -> & Hspec). simpl.
        assert (nth j (nth i rs []) 0 = x) as Hent.
        { rewrite (nth_lookup rs), Hr. simpl. by rewrite nth_lookup, Hx. }
        destruct (d !! s) as [c|] eqn:Hc; simpl.
        -- destruct (proj1 (Hspec s c) Hc) as (i' & Hs' & He & _).
           rewrite (NoDup_lookup _ _ _ _ Hsn Hs' Hs) in He. congruence.
        -- destruct (decide (x = 0)) as [->|Hx0]; [done|].
           assert (d !! s = Some x) as Hc'; [|congruence].
           apply Hspec. by exists i.
      * symmetry. apply lookup_ge_None. apply lookup_ge_None in Ht. lia.
    + symmetry. apply lookup_ge_None. apply lookup_ge_None in Hs. lia.
Qed.

Lemma envs_dict_witness :
  exists envs,
    make_envs_dict ex_abund ex_abund_samples ex_abund_taxa = Ok envs /\
    (forall t s c,
       (exists d, envs !! t = Some d /\ d !! s = Some c) <->
       (exists i j, ex_abund_samples !! i = Some s /\ ex_abund_taxa !! j = Some t /\
                    entry ex_abund i j = c /\ c <> 0)) /\
    expand envs ex_abund_samples ex_abund_taxa = ex_abund.
Proof.
  apply (envs_dict_sparse_round_trip ex_abund ex_abund_samples ex_abund_taxa).
  - repeat constructor.
  - reflexivity.
  - reflexivity.
  - apply (bool_decide_eq_true_1 _). vm_compute. reflexivity.
  - apply (bool_decide_eq_true_1 _). vm_compute. reflexivity.
Defined.

(** ** The claims on the example of the specification

    Samples [A], [B]; OTUs [otu1], [otu2]; counts [[10,100],[5,5]];
    wanted lineage [Bacteria], at least 1 and at most 50 sequences per
    sample. *)

Example filter_ex :
  let '(r, s) :=
    filter_otus_by_lineage subsample_first ex_sample_ids ex_otu_ids 1%positive
      ex_lineages (Some "Bacteria") 50 1 (State ex_heap 0%nat) in
  r = Ok (["A"; "B"], ["otu1"], 3%positive, [["Root"; "Bacteria"]]) /\
  st_heap s !! 3%positive = Some (Matrix 2 [[10; 50]]) /\
  st_heap s !! 1%positive = Some ex_counts /\
  st_rng s = 1%nat.
Proof. vm_compute. done. Qed.

Lemma lineage_selection_witness :
  exists good sids oids p' lins h' g' m',
    filter_otus_by_lineage subsample_first ex_sample_ids ex_otu_ids 1%positive
      ex_lineages (Some "Bacteria") 50 1 (State ex_heap 0%nat)
    = (Ok (sids, oids, p', lins), State h' g') /\
    h' !! p' = Some m' /\
    StronglySorted lt good /\
    (forall i, i ∈ good <->
       exists l, ex_lineages !! i = Some l /\
                 exists t, t ∈ l /\ t ∈ lineage_terms "Bacteria") /\
    Forall2 (fun i o => ex_otu_ids !! i = Some o) good oids /\
    Forall2 (fun i l => ex_lineages !! i = Some l) good lins /\
    nrows m' = length good /\
    exists m1,
      ncols m1 = ncols ex_counts /\
      Forall2 (fun i r => rows ex_counts !! i = Some r) good (rows m1) /\
      forall (h2 : heap) (p2 : loc), h2 !! p2 = Some m1 ->
        exists p2' h2',
          filter_otus_by_lineage subsample_first ex_sample_ids oids p2 lins None
            50 1 (State h2 0%nat)
          = (Ok (sids, oids, p2', lins), State h2' g') /\
          h2' !! p2' = Some m'.
Proof.
  apply (lineage_selection_keeps_matching_rows subsample_first
           ex_sample_ids ex_otu_ids 1%positive ex_counts ex_lineages "Bacteria"
           50 1 ex_heap 0%nat).
  - reflexivity.
  - exact ex_table_wf.
  - exact subsample_first_keeps_length.
Defined.

Lemma rarefaction_witness :
  exists m2 sids oids p' lins h' g' m',
    surviving ex_sample_ids ex_otu_ids ex_counts ex_lineages (Some "Bacteria") 1
    = Ok m2 /\
    filter_otus_by_lineage subsample_first ex_sample_ids ex_otu_ids 1%positive
      ex_lineages (Some "Bacteria") 50 1 (State ex_heap 0%nat)
    = (Ok (sids, oids, p', lins), State h' g') /\
    h' !! p' = Some m' /\
    ncols m' = ncols m2 /\
    forall k c, cols m2 !! k = Some c ->
      (50 < zsum c ->
         (exists gk, get_col m' k = (subsample_first c 50 gk).1) /\
         zsum (get_col m' k) = 50 /\
         Forall2 Z.le (get_col m' k) c) /\
      (zsum c <= 50 -> get_col m' k = c).
Proof.
  apply (rarefaction_caps_large_samples subsample_first
           ex_sample_ids ex_otu_ids 1%positive ex_counts ex_lineages
           (Some "Bacteria") 50 1 ex_heap 0%nat).
  - reflexivity.
  - exact ex_table_wf.
  - intros m2 c g0 Hm2 Hc Hbig.
    assert (surviving ex_sample_ids ex_otu_ids ex_counts ex_lineages
              (Some "Bacteria") 1 = Ok (Matrix 2 [[10; 100]])) as Hs
      by (vm_compute; reflexivity).
    rewrite Hs in Hm2. injection Hm2 as <-.
    change (c ∈ [[10]; [100]]) in Hc.
    apply elem_of_cons in Hc as [->|Hc].
    + vm_compute in Hbig. discriminate Hbig.
    + apply list_elem_of_singleton in Hc as ->.
      split; [reflexivity|]. repeat constructor. vm_compute. discriminate.
Defined.

Lemma min_depth_witness :
  exists m1 o1 l1 big sids oids p' lins h' g' m',
    lineage_stage ex_otu_ids ex_counts ex_lineages (Some "Bacteria")
    = Ok (m1, o1, l1) /\
    filter_otus_by_lineage subsample_first ex_sample_ids ex_otu_ids 1%positive
      ex_lineages (Some "Bacteria") 50 11 (State ex_heap 0%nat)
    = (Ok (sids, oids, p', lins), State h' g') /\
    h' !! p' = Some m' /\
    StronglySorted lt big /\
    (forall j, j ∈ big <-> (j < ncols m1)%nat /\ 11 <= zsum (get_col m1 j)) /\
    Forall2 (fun j s => ex_sample_ids !! j = Some s) big sids /\
    ncols m' = length big /\
    (forall k j, big !! k = Some j ->
       zsum (get_col m1 j) <= 50 -> get_col m' k = get_col m1 j).
Proof.
  apply (min_depth_drops_small_samples subsample_first
           ex_sample_ids ex_otu_ids 1%positive ex_counts ex_lineages
           (Some "Bacteria") 50 11 ex_heap 0%nat).
  - reflexivity.
  - exact ex_table_wf.
  - exact subsample_first_keeps_length.
Defined.

Example min_depth_ex :
  (filter_otus_by_lineage subsample_first ex_sample_ids ex_otu_ids 1%positive
     ex_lineages (Some "Bacteria") 50 11 (State ex_heap 0%nat)).1
  = Ok (["B"], ["otu1"], 3%positive, [["Root"; "Bacteria"]])
  /\ (filter_otus_by_lineage subsample_first ex_sample_ids ex_otu_ids 1%positive
        ex_lineages (Some "Bacteria") 50 10 (State ex_heap 0%nat)).1
     = Ok (["A"; "B"], ["otu1"], 3%positive, [["Root"; "Bacteria"]]).
Proof. vm_compute. done. Qed.

Lemma idempotent_witness :
  exists sids oids lins m' p1 h1 g1 p2 h2 g2,
    filter_otus_by_lineage subsample_first ex_sample_ids ex_otu_ids 1%positive
      ex_lineages (Some "Root&&Bacteria") 1000 0 (State ex_heap 0%nat)
    = (Ok (sids, oids, p1, lins), State h1 g1) /\
    h1 !! p1 = Some m' /\
    filter_otus_by_lineage subsample_first sids oids p1 lins
      (Some "Root&&Bacteria") 1000 0 (State h1 g1)
    = (Ok (sids, oids, p2, lins), State h2 g2) /\
    h2 !! p2 = Some m'.
Proof.
  apply (lineage_filter_idempotent subsample_first
           ex_sample_ids ex_otu_ids 1%positive ex_counts ex_lineages
           (Some "Root&&Bacteria") 1000 0 ex_heap 0%nat).
  - reflexivity.
  - exact ex_table_wf.
  - intros m1 o1 l1 Hst.
    assert (lineage_stage ex_otu_ids ex_counts ex_lineages (Some "Root&&Bacteria")
            = Ok (ex_counts, ex_otu_ids, ex_lineages)) as Hs
      by (vm_compute; reflexivity).
    rewrite Hs in Hst. injection Hst as <- _ _.
    repeat constructor; vm_compute; discriminate.
Defined.

Lemma empty_lineage_witness :
  exists good sids oids p' lins h' g' m',
    filter_otus_by_lineage subsample_first ex_sample_ids ex_otu_ids 1%positive
      [] (Some "Bacteria") 50 0 (State ex_heap 0%nat)
    = (Ok (sids, oids, p', lins), State h' g') /\
    h' !! p' = Some m' /\
    Forall2 (fun i o => ex_otu_ids !! i = Some o) good oids /\
    Forall2 (fun i l => @nil (list string) !! i = Some l) good lins /\
    nrows m' = length good /\
    (forall i, @nil (list string) !! i = Some [] -> i ∉ good) /\
    (@nil (list string) = [] -> oids = [] /\ lins = [] /\ nrows m' = 0%nat).
Proof.
  apply (empty_lineage_rows_removed subsample_first
           ex_sample_ids ex_otu_ids 1%positive ex_counts [] "Bacteria"
           50 0 ex_heap 0%nat).
  - reflexivity.
  - split; [by repeat constructor|]. split; [done|]. split; [done|]. by left.
  - exact subsample_first_keeps_length.
Defined.

Example empty_lineage_ex :
  (filter_otus_by_lineage subsample_first ex_sample_ids ex_otu_ids 1%positive
     [["Root"; "Bacteria"]; []] (Some "Bacteria") 50 0 (State ex_heap 0%nat)).1
  = Ok (["A"; "B"], ["otu1"], 3%positive, [["Root"; "Bacteria"]])
  /\ (filter_otus_by_lineage subsample_first ex_sample_ids ex_otu_ids 1%positive
        [] (Some "Bacteria") 50 0 (State ex_heap 0%nat)).1
     = Ok (["A"; "B"], [], 3%positive, []).
Proof. vm_compute. done. Qed.

(** The [&&] form keeps a row when one of the terms is among its tokens. *)
Example or_over_terms_ex :
  (filter_otus_by_lineage subsample_first ex_sample_ids ex_otu_ids 1%positive
     ex_lineages (Some "Bacteria&&Archaea") 1000 0 (State ex_heap 0%nat)).1
  = Ok (["A"; "B"], ["otu1"; "otu2"], 3%positive,
        [["Root"; "Bacteria"]; ["Root"; "Archaea"]]).
Proof. vm_compute. done. Qed.

(** * Further properties *)

(** ** [parse_otus]: edges and errors *)

(** X1.  An input of fewer than two lines has no sample-id line: the
    parser raises (the name [sample_ids] is unbound at the [return]) and
    returns no empty table. *)
Theorem parse_otus_needs_two_lines
    (count_map_f : string -> result Z) (lines : list string) :
  (length lines < 2)%nat ->
  parse_otus count_map_f lines = Raise (UnboundLocalError "sample_ids").
Proof.
  intros Hlen. destruct lines as [|title [|header data]]; [done|done|].
  simpl in Hlen. lia.
Qed.

Lemma parse_otus_needs_two_lines_witness :
  parse_otus int [] = Raise (UnboundLocalError "sample_ids") /\
  parse_otus int ["#Full OTU Counts"] = Raise (UnboundLocalError "sample_ids").
Proof.
  split.
  - apply (parse_otus_needs_two_lines int []). simpl. lia.
  - apply (parse_otus_needs_two_lines int ["#Full OTU Counts"]). simpl. lia.
Defined.

(** X2.  A sample-id line whose only token after the first is
    [Consensus Lineage] passes the no-samples check, which runs before
    that column is taken off: the parse returns a table exactly when
    [count_map_f] accepts the count fields, and that table has no sample
    id and one lineage per data line. *)
Theorem consensus_only_header_is_accepted
    (count_map_f : string -> result Z)
    (title header : string) (data : list string) :
  header_tokens header = [CONSENSUS] ->
  is_ok (parse_otus count_map_f (title :: header :: data))
  = counts_coerce count_map_f true data /\
  forall sids oids counts lins,
    parse_otus count_map_f (title :: header :: data)
    = Ok (sids, oids, counts, lins) ->
    sids = [] /\ oids = map row_otu_id data /\ lins = map row_lineage data.
Proof.
  intros Htok.
  assert (has_consensus_column header = true) as Hhc.
  { unfold has_consensus_column. rewrite Htok. by apply bool_decide_eq_true_2. }
  assert (sample_columns header = []) as Hcols.
  { unfold sample_columns. by rewrite Hhc, Htok. }
  rewrite parse_otus_closed_form by (by rewrite Htok).
  rewrite Hhc, Hcols. split.
  - rewrite <- is_ok_counts_coerce. by destruct (map_result _ data).
  - intros sids oids counts lins.
    destruct (map_result _ data); simpl; [|done]. by intros [= <- <- _ <-].
Qed.

Lemma consensus_only_header_witness :
  is_ok (parse_otus int
           ["#Full OTU Counts"; tsv ["#OTU ID"; "Consensus Lineage"];
            tsv ["otu1"; "Root;Bacteria"]])
  = true.
Proof.
  etrans.
  - apply (proj1 (consensus_only_header_is_accepted int "#Full OTU Counts"
                    (tsv ["#OTU ID"; "Consensus Lineage"])
                    [tsv ["otu1"; "Root;Bacteria"]] eq_refl)).
  - vm_compute. reflexivity.
Defined.

(** X3.  A count field that [count_map_f] rejects aborts the parse with
    the exception [count_map_f] raised for it, when every count field
    before it, in reading order, was accepted; no default value is put in
    its place. *)
Theorem coercion_error_propagates
    (count_map_f : string -> result Z)
    (title header : string) (before after : list string) (line : string)
    (fs1 fs2 : list string) (fld : string) (e : exn) :
  header_tokens header <> [] ->
  counts_coerce count_map_f (has_consensus_column header) before = true ->
  count_fields (has_consensus_column header) line = fs1 ++ fld :: fs2 ->
  forallb (fun f => is_ok (count_map_f f)) fs1 = true ->
  count_map_f fld = Raise e ->
  parse_otus count_map_f (title :: header :: before ++ line :: after) = Raise e.
Proof.
  intros Htok Hbefore Hline Hfs1 Hfld.
  rewrite parse_otus_closed_form by done.
  rewrite map_result_app.
  destruct (counts_coerce_Ok _ _ _ Hbefore) as [counts ->]. simpl.
  rewrite Hline, map_result_app.
  rewrite <- map_result_is_ok in Hfs1.
  destruct (map_result count_map_f fs1); [|done]. simpl.
  by rewrite Hfld.
Qed.

Lemma coercion_error_witness :
  parse_otus int
    ["#Full OTU Counts"; tsv ["#OTU ID"; "A"; "B"];
     tsv ["otu1"; "1"; "2"]; tsv ["otu2"; "3"; "x"]; tsv ["otu3"; "y"; "4"]]
  = Raise (ValueError "invalid literal for int() with base 10").
Proof.
  apply (coercion_error_propagates int "#Full OTU Counts"
           (tsv ["#OTU ID"; "A"; "B"]) [tsv ["otu1"; "1"; "2"]]
           [tsv ["otu3"; "y"; "4"]] (tsv ["otu2"; "3"; "x"]) ["3"] [] "x").
  - vm_compute. discriminate.
  - vm_compute. reflexivity.
  - vm_compute. reflexivity.
  - vm_compute. reflexivity.
  - vm_compute. reflexivity.
Defined.

(** X4.  Data lines with different numbers of count fields are not
    rejected either: when every count field is accepted and two data
    lines differ in their number of count fields, the parse returns, and
    the counts are a one-dimensional array of row objects, not a
    matrix. *)
Theorem ragged_rows_give_object_array
    (count_map_f : string -> result Z)
    (title header : string) (data : list string) (i j : nat) (li lj : string) :
  header_tokens header <> [] ->
  counts_coerce count_map_f (has_consensus_column header) data = true ->
  data !! i = Some li -> data !! j = Some lj ->
  length (count_fields (has_consensus_column header) li)
  <> length (count_fields (has_consensus_column header) lj) ->
  exists sids oids items lins,
    parse_otus count_map_f (title :: header :: data)
    = Ok (sids, oids, ArrObj items, lins) /\
    shape (ArrObj items) = [length data].
Proof.
  intros Htok Hco Hi Hj Hne.
  rewrite parse_otus_closed_form by done.
  destruct (counts_coerce_Ok _ _ _ Hco) as [counts Hcounts].
  rewrite Hcounts. simpl.
  pose proof (map_result_length _ _ _ Hcounts) as Hlc.
  apply map_result_Ok in Hcounts.
  destruct (Forall2_lookup_l _ _ _ _ _ Hcounts Hi) as (ri & Hri & Hrowi).
  destruct (Forall2_lookup_l _ _ _ _ _ Hcounts Hj) as (rj & Hrj & Hrowj).
  apply map_result_length in Hrowi, Hrowj.
  destruct counts as [|r rs]; [done|].
  unfold array.
  destruct (forallb (fun r' => Nat.eqb (length r') (length r)) (r :: rs)) eqn:Hall.
  - exfalso. rewrite forallb_forall in Hall.
    pose proof (Hall ri (proj1 (list_elem_of_In _ _) (list_elem_of_lookup_2 _ _ _ Hri)))
      as Hli.
    pose proof (Hall rj (proj1 (list_elem_of_In _ _) (list_elem_of_lookup_2 _ _ _ Hrj)))
      as Hlj.
    apply Nat.eqb_eq in Hli, Hlj. congruence.
  - eexists _, _, _, _. split; [reflexivity|]. unfold shape. by rewrite Hlc.
Qed.

Lemma ragged_rows_witness :
  exists sids oids items lins,
    parse_otus int
      ["#Full OTU Counts"; tsv ["#OTU ID"; "A"; "B"];
       tsv ["otu1"; "1"; "2"]; tsv ["otu2"; "3"]]
    = Ok (sids, oids, ArrObj items, lins) /\
    shape (ArrObj items) = [length [tsv ["otu1"; "1"; "2"]; tsv ["otu2"; "3"]]].
Proof.
  apply (ragged_rows_give_object_array int "#Full OTU Counts"
           (tsv ["#OTU ID"; "A"; "B"])
           [tsv ["otu1"; "1"; "2"]; tsv ["otu2"; "3"]] 0 1
           (tsv ["otu1"; "1"; "2"]) (tsv ["otu2"; "3"])).
  - vm_compute. discriminate.
  - vm_compute. reflexivity.
  - reflexivity.
  - reflexivity.
  - vm_compute. discriminate.
Defined.

(** ** [filter_otus_by_lineage]: order, edges and errors *)

Lemma select_sublist {A} (mask : list bool) (l : list A) :
  select mask l `sublist_of` l.
Proof.
  revert l. induction mask as [|b mask IH]; intros [|x l]; simpl;
    try apply sublist_nil_l.
  destruct b; [by apply sublist_skip|by apply sublist_cons].
Qed.

Lemma getitems_nonzero_sublist {A} (mask : list bool) (l xs : list A) :
  Forall2 (fun i x => l !! i = Some x) (nonzero mask) xs ->
  xs `sublist_of` l.
Proof.
  intros H. apply lookup_nonzero_from_select in H. rewrite drop_0 in H.
  subst xs. apply select_sublist.
Qed.

Lemma sum0_no_rows (n : nat) : sum0 (Matrix n []) = replicate n 0.
Proof.
  unfold sum0, cols, get_col. simpl.
  apply list_eq. intros j. rewrite !lookup_map.
  destruct (decide (j < n)%nat) as [Hj|Hj].
  - rewrite lookup_seq_lt by done. simpl. by rewrite lookup_replicate_2.
  - rewrite lookup_seq_ge by lia. simpl. symmetry.
    apply lookup_ge_None. rewrite length_replicate. lia.
Qed.

Section FilterEdges.

Context {G : Type}.
Variable subsample : list Z -> Z -> G -> list Z * G.

(** When no surviving column exceeds [max_seqs], the call returns the
    surviving matrix and does not touch the generator, whatever
    [subsample] is. *)
Lemma filter_run_no_draw
    (sample_ids otu_ids : list string) (p : loc) (m : matrix)
    (lineages : list (list string)) (wanted_lineage : option string)
    (max_seqs min_seqs : Z) (h : heap) (g : G) :
  h !! p = Some m ->
  wf_table sample_ids otu_ids m lineages ->
  (forall m2,
     surviving sample_ids otu_ids m lineages wanted_lineage min_seqs = Ok m2 ->
     too_big_samples m2 max_seqs = []) ->
  exists m1 o1 l1 m2 s2 p' h',
    lineage_stage otu_ids m lineages wanted_lineage = Ok (m1, o1, l1) /\
    min_depth_stage sample_ids m1 min_seqs = Ok (m2, s2) /\
    surviving sample_ids otu_ids m lineages wanted_lineage min_seqs = Ok m2 /\
    filter_otus_by_lineage subsample sample_ids otu_ids p lineages
      wanted_lineage max_seqs min_seqs (State h g)
    = (Ok (s2, o1, p', l1), State h' g) /\
    h' !! p' = Some m2 /\ h !! p' = None.
Proof.
  intros Hp Hwf Htb.
  destruct (lineage_stage_spec sample_ids otu_ids m lineages wanted_lineage Hwf)
    as (m1 & o1 & l1 & Hst1 & (Hrect1 & Hs1 & _) & _).
  destruct (min_depth_stage_spec sample_ids m1 min_seqs Hrect1 Hs1)
    as (m2 & s2 & Hst2 & _).
  assert (surviving sample_ids otu_ids m lineages wanted_lineage min_seqs = Ok m2)
    as Hsurv.
  { unfold surviving. rewrite Hst1. simpl. by rewrite Hst2. }
  destruct (filter_otus_by_lineage_run subsample sample_ids otu_ids p m lineages
              wanted_lineage max_seqs min_seqs h g Hp) as (h' & _ & Hrun).
  unfold filter_value in Hrun. rewrite Hst1, Hst2, (Htb m2 Hsurv) in Hrun.
  simpl in Hrun. destruct Hrun as (p' & Hfresh & Hp' & Hrun).
  by exists m1, o1, l1, m2, s2, p', h'.
Qed.

(** X5.  Order.  The sample ids, OTU ids and lineages that the filter
    returns are sublists of the ones it was given: what survives keeps its
    relative order, and nothing is added or repeated. *)
Theorem filter_preserves_order
    (sample_ids otu_ids : list string) (p : loc) (m : matrix)
    (lineages : list (list string)) (wanted_lineage : option string)
    (max_seqs min_seqs : Z) (h : heap) (g : G) :
  h !! p = Some m ->
  wf_table sample_ids otu_ids m lineages ->
  keeps_length subsample ->
  exists sids oids p' lins s',
    filter_otus_by_lineage subsample sample_ids otu_ids p lineages wanted_lineage
      max_seqs min_seqs (State h g)
    = (Ok (sids, oids, p', lins), s') /\
    sids `sublist_of` sample_ids /\
    oids `sublist_of` otu_ids /\
    lins `sublist_of` lineages.
Proof.
  intros Hp Hwf Hk.
  destruct (filter_run_wf subsample sample_ids otu_ids p m lineages wanted_lineage
              max_seqs min_seqs h g Hp Hwf (keeps_length_on _ _ _ Hk))
    as (m1 & o1 & l1 & m2 & s2 & m3 & p' & h' & g' & Hst1 & _ & _ & _
        & Hrun & _ & _ & _ & _ & (_ & _ & _ & Hsid & _) & _).
  destruct (lineage_stage_spec sample_ids otu_ids m lineages wanted_lineage Hwf)
    as (m1' & o1' & l1' & Hst1' & _ & _ & Hsel).
  rewrite Hst1 in Hst1'. injection Hst1' as <- <- <-.
  exists s2, o1, p', l1, (State h' g'). split; [done|].
  split; [by eapply getitems_nonzero_sublist|].
  destruct wanted_lineage as [w|].
  - destruct Hsel as (_ & Ho & Hl). rewrite good_indices_nonzero in Ho, Hl.
    split; by eapply getitems_nonzero_sublist.
  - by destruct Hsel as (_ & -> & ->).
Qed.

(** X6.  Keep all.  With [wanted_lineage = None] no OTU is dropped: the
    OTU ids and the lineages are returned as they were given and the
    matrix keeps all its rows. *)
Theorem keep_all_keeps_every_otu
    (sample_ids otu_ids : list string) (p : loc) (m : matrix)
    (lineages : list (list string))
    (max_seqs min_seqs : Z) (h : heap) (g : G) :
  h !! p = Some m ->
  wf_table sample_ids otu_ids m lineages ->
  keeps_length subsample ->
  exists sids p' h' g' m',
    filter_otus_by_lineage subsample sample_ids otu_ids p lineages None
      max_seqs min_seqs (State h g)
    = (Ok (sids, otu_ids, p', lineages), State h' g') /\
    h' !! p' = Some m' /\ nrows m' = nrows m.
Proof.
  intros Hp Hwf Hk.
  destruct (filter_run_wf subsample sample_ids otu_ids p m lineages None
              max_seqs min_seqs h g Hp Hwf (keeps_length_on _ _ _ Hk))
    as (m1 & o1 & l1 & m2 & s2 & m3 & p' & h' & g' & Hst1 & _ & _ & _
        & Hrun & _ & Hp' & _ & _ & (_ & Hr2 & _) & (_ & _ & Hr3 & _)).
  simpl in Hst1. injection Hst1 as <- <- <-.
  exists s2, p', h', g', m3. split; [done|]. split; [done|]. congruence.
Qed.

(** X7.  A floor above every column.  When [min_seqs] exceeds every
    column sum of the lineage-selected matrix, the call is no error: it
    returns no sample id and a matrix without columns, keeps the selected
    OTU ids and rows, and draws nothing. *)
Theorem floor_above_every_sample_gives_no_samples
    (sample_ids otu_ids : list string) (p : loc) (m : matrix)
    (lineages : list (list string)) (wanted_lineage : option string)
    (max_seqs min_seqs : Z) (h : heap) (g : G) :
  h !! p = Some m ->
  wf_table sample_ids otu_ids m lineages ->
  (forall m1 o1 l1,
     lineage_stage otu_ids m lineages wanted_lineage = Ok (m1, o1, l1) ->
     Forall (fun s => s < min_seqs) (sum0 m1)) ->
  exists m1 o1 l1 p' h' m',
    lineage_stage otu_ids m lineages wanted_lineage = Ok (m1, o1, l1) /\
    filter_otus_by_lineage subsample sample_ids otu_ids p lineages wanted_lineage
      max_seqs min_seqs (State h g)
    = (Ok ([], o1, p', l1), State h' g) /\
    h' !! p' = Some m' /\ ncols m' = 0%nat /\ nrows m' = nrows m1.
Proof.
  intros Hp Hwf Hmin.
  destruct (lineage_stage_spec sample_ids otu_ids m lineages wanted_lineage Hwf)
    as (m1 & o1 & l1 & Hst1 & _).
  assert (big_enough_samples m1 min_seqs = []) as Hbig.
  { unfold big_enough_samples. apply nonzero_map_none.
    eapply Forall_impl; [exact (Hmin _ _ _ Hst1)|]. simpl. intros s Hs.
    apply Z.leb_gt. lia. }
  destruct (filter_run_no_draw sample_ids otu_ids p m lineages wanted_lineage
              max_seqs min_seqs h g Hp Hwf)
    as (m1' & o1' & l1' & m2 & s2 & p' & h' & Hst1' & Hst2 & _ & Hrun & Hp' & _).
  { intros m2 Hsurv. unfold surviving in Hsurv. rewrite Hst1 in Hsurv.
    simpl in Hsurv. unfold min_depth_stage in Hsurv. rewrite Hbig in Hsurv.
    simpl in Hsurv. injection Hsurv as <-.
    apply elem_of_nil_inv. intros j [Hj _]%elem_of_too_big_samples.
    simpl in Hj. lia. }
  rewrite Hst1 in Hst1'. injection Hst1' as <- <- <-.
  unfold min_depth_stage in Hst2. rewrite Hbig in Hst2.
  simpl in Hst2. injection Hst2 as <- <-.
  eexists m1, o1, l1, p', h', _. split; [done|]. split; [done|].
  split; [done|]. split; [done|].
  unfold nrows. simpl. by rewrite length_map.
Qed.

(** X8.  No matching lineage.  When no lineage token is among the wanted
    terms every OTU is removed, and that is no error.  The matrix then has
    no row and every column sums to zero: with a positive [min_seqs] every
    sample is dropped as well; with [min_seqs <= 0 <= max_seqs] every
    sample id is kept, over a matrix without rows.  Nothing is drawn. *)
Theorem no_matching_lineage_removes_every_otu
    (sample_ids otu_ids : list string) (p : loc) (m : matrix)
    (lineages : list (list string)) (w : string)
    (max_seqs min_seqs : Z) (h : heap) (g : G) :
  h !! p = Some m ->
  wf_table sample_ids otu_ids m lineages ->
  (forall l t, l ∈ lineages -> t ∈ l -> t ∉ lineage_terms w) ->
  0 < min_seqs \/ 0 <= max_seqs ->
  exists sids p' h' m',
    filter_otus_by_lineage subsample sample_ids otu_ids p lineages (Some w)
      max_seqs min_seqs (State h g)
    = (Ok (sids, [], p', []), State h' g) /\
    h' !! p' = Some m' /\ nrows m' = 0%nat /\ length sids = ncols m' /\
    (0 < min_seqs -> sids = []) /\
    (min_seqs <= 0 -> sids = sample_ids).
Proof.
  intros Hp Hwf Hno Hcase.
  assert (good_indices w lineages = []) as Hgood.
  { apply elem_of_nil_inv. intros i (l & Hl & t & Ht & Hw)%elem_of_good_indices.
    apply (Hno l t); [by eapply list_elem_of_lookup_2|done|done]. }
  assert (lineage_stage otu_ids m lineages (Some w)
          = Ok (Matrix (ncols m) [], [], [])) as Hst1.
  { unfold lineage_stage. by rewrite Hgood. }
  pose proof Hwf as (Hrect & Hs & Ho & Hl).
  destruct (min_depth_stage_spec sample_ids (Matrix (ncols m) []) min_seqs)
    as (m2 & s2 & Hst2 & _ & Hr2 & _ & Hs2 & Hsid & _); [constructor|done|].
  assert (big_enough_samples (Matrix (ncols m) []) min_seqs
          = if decide (0 < min_seqs) then [] else seq 0 (ncols m)) as Hbig.
  { unfold big_enough_samples. rewrite sum0_no_rows.
    destruct (decide (0 < min_seqs)).
    - apply nonzero_map_none, Forall_forall.
      intros s [-> _]%elem_of_replicate. apply Z.leb_gt. lia.
    - rewrite nonzero_map_all; [by rewrite length_replicate|].
      apply Forall_forall. intros s [-> _]%elem_of_replicate.
      apply Z.leb_le. lia. }
  assert ((0 < min_seqs -> s2 = []) /\ (min_seqs <= 0 -> s2 = sample_ids)) as Hs2'.
  { rewrite Hbig in Hsid. split; intros Hmin.
    - rewrite decide_True in Hsid by done. by inversion Hsid.
    - rewrite decide_False in Hsid by lia. apply getitems_Ok in Hsid.
      simpl in Hs. rewrite <- Hs, getitems_seq in Hsid. congruence. }
  destruct (filter_run_no_draw sample_ids otu_ids p m lineages (Some w)
              max_seqs min_seqs h g Hp Hwf)
    as (m1' & o1' & l1' & m2' & s2'' & p' & h' & Hst1' & Hst2' & _
        & Hrun & Hp' & _).
  { intros m2' Hsurv. unfold surviving in Hsurv. rewrite Hst1 in Hsurv.
    simpl in Hsurv. rewrite Hst2 in Hsurv. simpl in Hsurv.
    injection Hsurv as <-.
    apply elem_of_nil_inv. intros j [Hj Hb]%elem_of_too_big_samples.
    assert (get_col m2 j = []) as Hcol.
    { apply length_zero_iff_nil. by rewrite length_get_col, Hr2. }
    rewrite Hcol in Hb. simpl in Hb.
    destruct Hcase as [Hmin|Hmax]; [|lia].
    destruct Hs2' as [Hnil _]. rewrite (Hnil Hmin) in Hs2. simpl in Hs2. lia. }
  rewrite Hst1 in Hst1'. injection Hst1' as <- <- <-.
  rewrite Hst2 in Hst2'. injection Hst2' as <- <-.
  exists s2, p', h', m2. destruct Hs2' as [Hnil Hall].
  split; [done|]. split; [done|]. split; [done|]. by split.
Qed.

End FilterEdges.

Section FilterDraws.

Context {G : Type}.
Variable subsample : list Z -> Z -> G -> list Z * G.

(** X9.  No needless draw.  When no surviving column sums to more than
    [max_seqs], [subsample] is not called: the generator state after the
    call is the one before it, and the returned matrix is the surviving
    matrix itself, whatever [subsample] would have returned. *)
Theorem no_draw_when_nothing_exceeds_max
    (sample_ids otu_ids : list string) (p : loc) (m : matrix)
    (lineages : list (list string)) (wanted_lineage : option string)
    (max_seqs min_seqs : Z) (h : heap) (g : G) :
  h !! p = Some m ->
  wf_table sample_ids otu_ids m lineages ->
  (forall m2,
     surviving sample_ids otu_ids m lineages wanted_lineage min_seqs = Ok m2 ->
     Forall (fun s => s <= max_seqs) (sum0 m2)) ->
  exists m2 sids oids p' lins h',
    surviving sample_ids otu_ids m lineages wanted_lineage min_seqs = Ok m2 /\
    filter_otus_by_lineage subsample sample_ids otu_ids p lineages wanted_lineage
      max_seqs min_seqs (State h g)
    = (Ok (sids, oids, p', lins), State h' g) /\
    h' !! p' = Some m2.
Proof.
  intros Hp Hwf Hmax.
  destruct (filter_run_no_draw subsample sample_ids otu_ids p m lineages
              wanted_lineage max_seqs min_seqs h g Hp Hwf)
    as (m1 & o1 & l1 & m2 & s2 & p' & h' & _ & _ & Hsurv & Hrun & Hp' & _).
  { intros m2 Hsurv. unfold too_big_samples. apply nonzero_map_none.
    eapply Forall_impl; [exact (Hmax m2 Hsurv)|]. simpl. intros s Hs.
    apply Z.ltb_ge. lia. }
  by exists m2, s2, o1, p', l1, h'.
Qed.

(** X10.  Depth bounds.  With [min_seqs <= max_seqs] and draws that sum to
    [max_seqs], every column of the returned matrix sums to at least
    [min_seqs] and at most [max_seqs]. *)
Theorem returned_depths_are_within_bounds
    (sample_ids otu_ids : list string) (p : loc) (m : matrix)
    (lineages : list (list string)) (wanted_lineage : option string)
    (max_seqs min_seqs : Z) (h : heap) (g : G) :
  h !! p = Some m ->
  wf_table sample_ids otu_ids m lineages ->
  min_seqs <= max_seqs ->
  (forall m2 c g0,
     surviving sample_ids otu_ids m lineages wanted_lineage min_seqs = Ok m2 ->
     c ∈ cols m2 -> max_seqs < zsum c ->
     length (subsample c max_seqs g0).1 = length c /\
     zsum (subsample c max_seqs g0).1 = max_seqs) ->
  exists sids oids p' lins h' g' m',
    filter_otus_by_lineage subsample sample_ids otu_ids p lineages wanted_lineage
      max_seqs min_seqs (State h g)
    = (Ok (sids, oids, p', lins), State h' g') /\
    h' !! p' = Some m' /\
    Forall (fun s => min_seqs <= s <= max_seqs) (sum0 m').
Proof.
  intros Hp Hwf Hmm Hsub.
  destruct (filter_run_wf subsample sample_ids otu_ids p m lineages wanted_lineage
              max_seqs min_seqs h g Hp Hwf)
    as (m1 & o1 & l1 & m2 & s2 & m3 & p' & h' & g' & _ & _ & Hsurv & _
        & Hrun & _ & Hp' & _ & _ & (_ & _ & Hs2 & Hsid & Hcol2)
        & (_ & Hc3 & _ & Hout & Hin)).
  { intros m2 c g0 Hm2 Hc Hbig. by destruct (Hsub m2 c g0 Hm2 Hc Hbig). }
  exists s2, o1, p', l1, h', g', m3. split; [done|]. split; [done|].
  apply Forall_forall. intros s (j & Hj & ->)%elem_of_sum0. rewrite Hc3 in Hj.
  destruct (decide (j ∈ too_big_samples m2 max_seqs)) as [Hbig|Hsmall].
  - destruct (Hin j Hbig) as [gj ->].
    apply elem_of_too_big_samples in Hbig as [_ Hbig].
    destruct (Hsub m2 (get_col m2 j) gj Hsurv) as [_ ->]; [|done|lia].
    apply list_elem_of_lookup. exists j. by apply lookup_cols.
  - rewrite (Hout j Hsmall). split.
    + assert (j < length (big_enough_samples m1 min_seqs))%nat as Hlt.
      { rewrite (Forall2_length _ _ _ Hsid). lia. }
      destruct (lookup_lt_is_Some_2 _ _ Hlt) as [j' Hj'].
      rewrite (Hcol2 j j' Hj').
      by apply list_elem_of_lookup_2, elem_of_big_enough_samples in Hj' as [_ ?].
    + destruct (Z.le_gt_cases (zsum (get_col m2 j)) max_seqs) as [?|Hgt]; [done|].
      exfalso. apply Hsmall. by apply elem_of_too_big_samples.
Qed.

(** X11.  A draw of the wrong shape.  When some surviving column sums to
    more than [max_seqs] and [subsample] returns neither one entry per
    row nor a single entry, the column assignment fails and the call
    raises [ValueError]. *)
Theorem wrong_length_draw_raises
    (sample_ids otu_ids : list string) (p : loc) (m : matrix)
    (lineages : list (list string)) (wanted_lineage : option string)
    (max_seqs min_seqs : Z) (h : heap) (g : G) (m2 : matrix) (j : nat) :
  h !! p = Some m ->
  wf_table sample_ids otu_ids m lineages ->
  surviving sample_ids otu_ids m lineages wanted_lineage min_seqs = Ok m2 ->
  j ∈ too_big_samples m2 max_seqs ->
  (forall c g0, length (subsample c max_seqs g0).1 <> nrows m2 /\
                length (subsample c max_seqs g0).1 <> 1%nat) ->
  (filter_otus_by_lineage subsample sample_ids otu_ids p lineages wanted_lineage
     max_seqs min_seqs (State h g)).1
  = Raise (ValueError "shape mismatch: objects cannot be broadcast to a single shape").
Proof.
  intros Hp Hwf Hsurv Hj Hbad.
  destruct (lineage_stage_spec sample_ids otu_ids m lineages wanted_lineage Hwf)
    as (m1 & o1 & l1 & Hst1 & (Hrect1 & Hs1 & _) & _).
  destruct (min_depth_stage_spec sample_ids m1 min_seqs Hrect1 Hs1)
    as (m2' & s2 & Hst2 & _).
  unfold surviving in Hsurv. rewrite Hst1 in Hsurv. simpl in Hsurv.
  rewrite Hst2 in Hsurv. simpl in Hsurv. injection Hsurv as ->.
  destruct (filter_otus_by_lineage_run subsample sample_ids otu_ids p m lineages
              wanted_lineage max_seqs min_seqs h g Hp) as (h' & _ & Hrun).
  unfold filter_value in Hrun. rewrite Hst1, Hst2 in Hrun.
  destruct (too_big_samples m2 max_seqs) as [|i rest] eqn:Htb.
  { by apply elem_of_nil in Hj. }
  assert (i < ncols m2)%nat as Hi.
  { assert (i ∈ too_big_samples m2 max_seqs) as Hin
      by (rewrite Htb; apply list_elem_of_here).
    by apply elem_of_too_big_samples in Hin as [? _]. }
  simpl in Hrun.
  destruct (subsample (get_col m2 i) max_seqs g) as [v g1] eqn:Hv.
  destruct (Hbad (get_col m2 i) g) as [Hn H1]. rewrite Hv in Hn, H1. simpl in *.
  assert (set_col m2 i v
          = Raise (ValueError "shape mismatch: objects cannot be broadcast to a single shape"))
    as Hset.
  { unfold set_col. apply Nat.ltb_lt in Hi as ->. simpl.
    apply Nat.eqb_neq in Hn as ->.
    destruct v as [|x [|y v]]; [done| |done]. done. }
  rewrite Hset in Hrun. by rewrite Hrun.
Qed.

End FilterDraws.

Lemma filter_preserves_order_witness :
  exists sids oids p' lins s',
    filter_otus_by_lineage subsample_first ex_sample_ids ex_otu_ids 1%positive
      ex_lineages (Some "Archaea") 50 11 (State ex_heap 0%nat)
    = (Ok (sids, oids, p', lins), s') /\
    sids `sublist_of` ex_sample_ids /\
    oids `sublist_of` ex_otu_ids /\
    lins `sublist_of` ex_lineages.
Proof.
  apply (filter_preserves_order subsample_first ex_sample_ids ex_otu_ids
           1%positive ex_counts ex_lineages (Some "Archaea") 50 11 ex_heap 0%nat).
  - reflexivity.
  - exact ex_table_wf.
  - exact subsample_first_keeps_length.
Defined.

Lemma keep_all_witness :
  exists sids p' h' g' m',
    filter_otus_by_lineage subsample_first ex_sample_ids ex_otu_ids 1%positive
      ex_lineages None 50 11 (State ex_heap 0%nat)
    = (Ok (sids, ex_otu_ids, p', ex_lineages), State h' g') /\
    h' !! p' = Some m' /\ nrows m' = nrows ex_counts.
Proof.
  apply (keep_all_keeps_every_otu subsample_first ex_sample_ids ex_otu_ids
           1%positive ex_counts ex_lineages 50 11 ex_heap 0%nat).
  - reflexivity.
  - exact ex_table_wf.
  - exact subsample_first_keeps_length.
Defined.

Lemma floor_above_every_sample_witness :
  exists m1 o1 l1 p' h' m',
    lineage_stage ex_otu_ids ex_counts ex_lineages (Some "Bacteria")
    = Ok (m1, o1, l1) /\
    filter_otus_by_lineage subsample_first ex_sample_ids ex_otu_ids 1%positive
      ex_lineages (Some "Bacteria") 50 101 (State ex_heap 0%nat)
    = (Ok ([], o1, p', l1), State h' 0%nat) /\
    h' !! p' = Some m' /\ ncols m' = 0%nat /\ nrows m' = nrows m1.
Proof.
  apply (floor_above_every_sample_gives_no_samples subsample_first
           ex_sample_ids ex_otu_ids 1%positive ex_counts ex_lineages
           (Some "Bacteria") 50 101 ex_heap 0%nat).
  - reflexivity.
  - exact ex_table_wf.
  - intros m1 o1 l1 Hst.
    assert (lineage_stage ex_otu_ids ex_counts ex_lineages (Some "Bacteria")
            = Ok (Matrix 2 [[10; 100]], ["otu1"], [["Root"; "Bacteria"]])) as Hs
      by (vm_compute; reflexivity).
    rewrite Hs in Hst. injection Hst as <- _ _.
    repeat constructor.
Defined.

Lemma no_matching_lineage_witness :
  exists sids p' h' m',
    filter_otus_by_lineage subsample_first ex_sample_ids ex_otu_ids 1%positive
      ex_lineages (Some "Fungi") 50 1 (State ex_heap 0%nat)
    = (Ok (sids, [], p', []), State h' 0%nat) /\
    h' !! p' = Some m' /\ nrows m' = 0%nat /\ length sids = ncols m' /\
    (0 < 1 -> sids = []) /\
    (1 <= 0 -> sids = ex_sample_ids).
Proof.
  apply (no_matching_lineage_removes_every_otu subsample_first
           ex_sample_ids ex_otu_ids 1%positive ex_counts ex_lineages "Fungi"
           50 1 ex_heap 0%nat).
  - reflexivity.
  - exact ex_table_wf.
  - intros l t Hl Ht Hw. change (t ∈ ["Fungi"]) in Hw.
    apply list_elem_of_singleton in Hw as ->.
    unfold ex_lineages in Hl.
    repeat (apply elem_of_cons in Hl as [->|Hl];
            [repeat (apply elem_of_cons in Ht as [Ht|Ht]; [discriminate Ht|]);
             by apply elem_of_nil in Ht|]).
    by apply elem_of_nil in Hl.
  - left. lia.
Defined.

Lemma no_draw_witness :
  exists m2 sids oids p' lins h',
    surviving ex_sample_ids ex_otu_ids ex_counts ex_lineages None 0 = Ok m2 /\
    filter_otus_by_lineage subsample_first ex_sample_ids ex_otu_ids 1%positive
      ex_lineages None 105 0 (State ex_heap 0%nat)
    = (Ok (sids, oids, p', lins), State h' 0%nat) /\
    h' !! p' = Some m2.
Proof.
  apply (no_draw_when_nothing_exceeds_max subsample_first
           ex_sample_ids ex_otu_ids 1%positive ex_counts ex_lineages None
           105 0 ex_heap 0%nat).
  - reflexivity.
  - exact ex_table_wf.
  - intros m2 Hm2.
    assert (surviving ex_sample_ids ex_otu_ids ex_counts ex_lineages None 0
            = Ok ex_counts) as Hs by (vm_compute; reflexivity).
    rewrite Hs in Hm2. injection Hm2 as <-.
    repeat constructor; vm_compute; discriminate.
Defined.

Lemma returned_depths_witness :
  exists sids oids p' lins h' g' m',
    filter_otus_by_lineage subsample_first ex_sample_ids ex_otu_ids 1%positive
      ex_lineages None 50 11 (State ex_heap 0%nat)
    = (Ok (sids, oids, p', lins), State h' g') /\
    h' !! p' = Some m' /\
    Forall (fun s => 11 <= s <= 50) (sum0 m').
Proof.
  apply (returned_depths_are_within_bounds subsample_first
           ex_sample_ids ex_otu_ids 1%positive ex_counts ex_lineages None
           50 11 ex_heap 0%nat).
  - reflexivity.
  - exact ex_table_wf.
  - lia.
  - intros m2 c g0 Hm2 Hc Hbig.
    assert (surviving ex_sample_ids ex_otu_ids ex_counts ex_lineages None 11
            = Ok ex_counts) as Hs by (vm_compute; reflexivity).
    rewrite Hs in Hm2. injection Hm2 as <-.
    change (c ∈ [[10; 5]; [100; 5]]) in Hc.
    apply elem_of_cons in Hc as [->|Hc].
    + vm_compute in Hbig. discriminate Hbig.
    + apply list_elem_of_singleton in Hc as ->. split; reflexivity.
Defined.

Lemma wrong_length_draw_witness :
  (filter_otus_by_lineage (fun (_ : list Z) (_ : Z) (g : nat) => ([1; 2; 3], g))
     ex_sample_ids ex_otu_ids 1%positive ex_lineages None 50 11
     (State ex_heap 0%nat)).1
  = Raise (ValueError "shape mismatch: objects cannot be broadcast to a single shape").
Proof.
  apply (wrong_length_draw_raises (fun (_ : list Z) (_ : Z) (g : nat) => ([1; 2; 3], g))
           ex_sample_ids ex_otu_ids 1%positive ex_counts ex_lineages None
           50 11 ex_heap 0%nat ex_counts 1).
  - reflexivity.
  - exact ex_table_wf.
  - vm_compute. reflexivity.
  - apply (bool_decide_eq_true_1 _). vm_compute. reflexivity.
  - intros c g0. simpl. split; [vm_compute|]; lia.
Defined.

(** ** [make_envs_dict]: the shape check and the keys *)

Lemma taxon_dict_total (sample_names : list string) (taxon : list Z) :
  length taxon = length sample_names ->
  exists d, taxon_dict sample_names taxon = Ok d.
Proof.
  intros Hlen. unfold taxon_dict.
  set (nz := nonzero (map (fun x => negb (Z.eqb x 0)) taxon)).
  assert (Forall (fun i => (i < length taxon)%nat) nz) as Hlt.
  { apply Forall_forall. intros i Hi%nonzero_lt. by rewrite length_map in Hi. }
  destruct (getitems_total sample_names nz) as [names ->]; [by rewrite <- Hlen|].
  destruct (getitems_total taxon nz Hlt) as [vals ->]. simpl. by eexists.
Qed.

Lemma envs_loop_dom (sample_names taxon_names : list string)
    (taxa : list (list Z)) :
  Forall (fun taxon => length taxon = length sample_names) taxa ->
  forall (i : nat) (envs0 : gmap string (gmap string Z)),
    (i + length taxa <= length taxon_names)%nat ->
    exists envs,
      envs_loop sample_names taxon_names i taxa envs0 = Ok envs /\
      dom envs = dom envs0 ∪ list_to_set (take (length taxa) (drop i taxon_names)).
Proof.
  induction 1 as [|taxon taxa Hlen _ IH]; intros i envs0 Hi; simpl in *.
  - exists envs0. split; [done|]. by rewrite (right_id_L ∅ (∪)).
  - destruct (taxon_dict_total sample_names taxon Hlen) as [d ->]. simpl.
    destruct (lookup_lt_is_Some_2 taxon_names i) as [t0 Ht0]; [lia|].
    unfold getitem. rewrite Ht0. simpl.
    destruct (IH (S i) (<[t0 := d]> envs0)) as (envs & -> & Hdom); [lia|].
    exists envs. split; [done|].
    rewrite Hdom, dom_insert_L, (drop_S _ _ _ Ht0). simpl.
    by rewrite (comm_L (∪) {[t0]} (dom envs0)), <- (assoc_L (∪)).
Qed.

Lemma Forall_length_cols (m : matrix) :
  Forall (fun taxon => length taxon = nrows m) (cols m).
Proof.
  apply Forall_forall. intros c Hc. apply list_elem_of_lookup in Hc as [j Hj].
  apply lookup_cols_Some in Hj as [_ ->]. apply length_get_col.
Qed.

(** X12.  The shape check.  [make_envs_dict] raises [ValueError] exactly
    when the matrix does not have one row per sample name and one column
    per taxon name; with matching labels it returns a dict, whatever the
    names and the counts are. *)
Theorem envs_dict_raises_iff_shape_mismatch
    (m : matrix) (sample_names taxon_names : list string) :
  (nrows m = length sample_names /\ ncols m = length taxon_names ->
   exists envs, make_envs_dict m sample_names taxon_names = Ok envs) /\
  (~ (nrows m = length sample_names /\ ncols m = length taxon_names) ->
   make_envs_dict m sample_names taxon_names
   = Raise (ValueError "Shape of matrix doesn't match # samples and # taxa")).
Proof.
  unfold make_envs_dict. split.
  - intros [Hr Hc]. rewrite Hr, Hc, !Nat.eqb_refl. simpl.
    destruct (envs_loop_dom sample_names taxon_names (cols m)) with
      (i := 0%nat) (envs0 := (∅ : gmap string (gmap string Z)))
      as (envs & Hrun & _).
    + rewrite <- Hr. apply Forall_length_cols.
    + rewrite length_cols. lia.
    + by exists envs.
  - intros Hne.
    destruct (Nat.eqb (nrows m) (length sample_names)) eqn:Hr;
      destruct (Nat.eqb (ncols m) (length taxon_names)) eqn:Hc; simpl; try done.
    exfalso. apply Hne. by split; apply Nat.eqb_eq.
Qed.

Lemma envs_dict_shape_check_witness :
  (exists envs, make_envs_dict ex_abund ex_abund_samples ex_abund_taxa = Ok envs) /\
  make_envs_dict ex_abund ex_abund_taxa ex_abund_samples
  = Raise (ValueError "Shape of matrix doesn't match # samples and # taxa").
Proof.
  split.
  - apply (proj1 (envs_dict_raises_iff_shape_mismatch
                    ex_abund ex_abund_samples ex_abund_taxa)).
    split; reflexivity.
  - apply (proj2 (envs_dict_raises_iff_shape_mismatch
                    ex_abund ex_abund_taxa ex_abund_samples)).
    intros [Hr _]. vm_compute in Hr. discriminate Hr.
Defined.

(** X13.  The keys.  The keys of the returned dict are the taxon names,
    all of them: a taxon of which every count is zero is not left out, it
    is mapped to the empty dict (names distinct). *)
Theorem envs_dict_keys_are_taxa
    (m : matrix) (sample_names taxon_names : list string) :
  nrows m = length sample_names ->
  ncols m = length taxon_names ->
  exists envs,
    make_envs_dict m sample_names taxon_names = Ok envs /\
    dom envs = list_to_set taxon_names /\
    (NoDup sample_names -> NoDup taxon_names ->
     forall j t,
       taxon_names !! j = Some t ->
       Forall (fun x => x = 0) (get_col m j) ->
       envs !! t = Some ∅).
Proof.
  intros Hr Hc. unfold make_envs_dict. rewrite Hr, Hc, !Nat.eqb_refl. simpl.
  assert (Forall (fun taxon => length taxon = length sample_names) (cols m)) as Hlen.
  { rewrite <- Hr. apply Forall_length_cols. }
  destruct (envs_loop_dom sample_names taxon_names (cols m) Hlen) with
    (i := 0%nat) (envs0 := (∅ : gmap string (gmap string Z)))
    as (envs & Hrun & Hdom).
  { rewrite length_cols. lia. }
  exists envs. split; [done|]. split.
  - rewrite Hdom, dom_empty_L, drop_0, length_cols, Hc, firstn_all.
    by rewrite (left_id_L ∅ (∪)).
  - intros Hsn Htn j t Ht Hzero.
    destruct (envs_loop_spec sample_names taxon_names (cols m) Hsn Htn Hlen) with
      (i := 0%nat) (envs0 := (∅ : gmap string (gmap string Z)))
      as (envs' & Hrun' & Hin & _).
    { rewrite length_cols. lia. }
    rewrite Hrun in Hrun'. injection Hrun' as <-.
    apply lookup_lt_Some in Ht as Hj. rewrite <- Hc in Hj.
    destruct (Hin j (get_col m j) t) as (d & Hd & ->); [by apply lookup_cols|done|].
    destruct (taxon_dict_spec sample_names (get_col m j) Hsn) as (d' & Hd' & Hspec).
    { by rewrite length_get_col. }
    rewrite Hd in Hd'. injection Hd' as <-. f_equal.
    apply map_empty. intros s.
    destruct (d !! s) as [c|] eqn:Hc'; [|done].
    destruct (proj1 (Hspec s c) Hc') as (i & _ & Hi & Hc0).
    rewrite Forall_forall in Hzero.
    exfalso. apply Hc0, Hzero. by eapply list_elem_of_lookup_2.
Qed.

Lemma envs_dict_keys_witness :
  exists envs,
    make_envs_dict (Matrix 2 [[1; 0]; [3; 0]]) ["s1"; "s2"] ex_abund_taxa = Ok envs /\
    dom envs = list_to_set ex_abund_taxa /\
    (NoDup ["s1"; "s2"] -> NoDup ex_abund_taxa ->
     forall j t,
       ex_abund_taxa !! j = Some t ->
       Forall (fun x => x = 0) (get_col (Matrix 2 [[1; 0]; [3; 0]]) j) ->
       envs !! t = Some ∅).
Proof.
  apply (envs_dict_keys_are_taxa (Matrix 2 [[1; 0]; [3; 0]]) ["s1"; "s2"]
           ex_abund_taxa); reflexivity.
Defined.

(** ** Loops that build a dict *)

Lemma for_each_app {A S} (body : S -> A -> result S) (l1 l2 : list A) (s : S) :
  for_each body (l1 ++ l2) s
  = (let? s' := for_each body l1 s in for_each body l2 s').
Proof.
  revert s. induction l1 as [|x l1 IH]; intros s; simpl; [done|].
  destruct (body s x); simpl; [apply IH|done].
Qed.

Lemma for_each_is_ok {A S} (body : S -> A -> result S) (ok : A -> bool)
    (l : list A) (s : S) :
  (forall s x, is_ok (body s x) = ok x) ->
  is_ok (for_each body l s) = forallb ok l.
Proof.
  intros Hok. revert s. induction l as [|x l IH]; intros s; simpl; [done|].
  rewrite <- (Hok s x). destruct (body s x); simpl; [apply IH|done].
Qed.

Lemma for_each_invariant {A S} (body : S -> A -> result S) (P : S -> Prop)
    (l : list A) :
  (forall s x s', P s -> body s x = Ok s' -> P s') ->
  forall s s', P s -> for_each body l s = Ok s' -> P s'.
Proof.
  intros Hstep. induction l as [|x l IH]; intros s s' Hs; simpl.
  - by intros [= <-].
  - destruct (body s x) as [s1|] eqn:Hb; simpl; [|done].
    apply IH. by eapply Hstep.
Qed.

Lemma for_each_assign {A V} (body : gmap string V -> A -> result (gmap string V))
    (entry : A -> option (string * V)) (l : list A) (d : gmap string V) :
  (forall d x, body d x = Ok (assign1 d (entry x))) ->
  for_each body l d = Ok (assign_all (map entry l) d).
Proof.
  intros Hbody. revert d. induction l as [|x l IH]; intros d; simpl; [done|].
  rewrite Hbody. simpl. apply IH.
Qed.

Lemma assign_all_snoc {V} (kvs : list (option (string * V))) (o : option (string * V))
    (d : gmap string V) :
  assign_all (kvs ++ [o]) d = assign1 (assign_all kvs d) o.
Proof. unfold assign_all. by rewrite fold_left_app. Qed.

(** A key holds what the last assignment to it stored, or what it held
    before the loop when nothing was assigned to it. *)
Lemma assign_all_lookup {A V} (entry : A -> option (string * V))
    (lines : list A) (d0 : gmap string V) (k : string) (v : V) :
  assign_all (map entry lines) d0 !! k = Some v <->
  last_assigned entry lines k v \/
  (never_assigned entry lines k /\ d0 !! k = Some v).
Proof.
  revert v. induction lines as [|line lines IH] using rev_ind; intros v.
  - simpl. split.
    + intros H. right. split; [|done]. intros line v' Hin. by apply elem_of_nil in Hin.
    + intros [(i & line & Hl & _)|[_ H]]; [done|done].
  - rewrite map_app. simpl. rewrite assign_all_snoc.
    assert (Hlast : forall v', entry line = Some (k, v') ->
              forall w, last_assigned entry (lines ++ [line]) k w <-> w = v').
    { intros v' He w. split.
      - intros (i & l & Hl & Hent & Hlater).
        destruct (decide (i = length lines)) as [->|Hne].
        + rewrite list_lookup_middle in Hl by done. injection Hl as <-. congruence.
        + exfalso. apply lookup_lt_Some in Hl as Hlt. rewrite length_app in Hlt.
          simpl in Hlt.
          apply (Hlater (length lines) line v'); [lia| |done].
          by apply list_lookup_middle.
      - intros ->. exists (length lines), line.
        split; [by apply list_lookup_middle|]. split; [done|].
        intros j l' w' Hj Hl'. apply lookup_lt_Some in Hl'.
        rewrite length_app in Hl'. simpl in Hl'. lia. }
    assert (Hskip : (forall v', entry line <> Some (k, v')) ->
              (forall w, last_assigned entry (lines ++ [line]) k w
                         <-> last_assigned entry lines k w) /\
              (never_assigned entry (lines ++ [line]) k
               <-> never_assigned entry lines k)).
    { intros Hne. split.
      - intros w. split.
        + intros (i & l & Hl & Hent & Hlater).
          destruct (decide (i = length lines)) as [->|Hi].
          * rewrite list_lookup_middle in Hl by done. injection Hl as <-.
            by destruct (Hne w).
          * apply lookup_lt_Some in Hl as Hlt. rewrite length_app in Hlt.
            simpl in Hlt. rewrite lookup_app_l in Hl by lia.
            exists i, l. split; [done|]. split; [done|].
            intros j l' w' Hj Hl'. apply (Hlater j l' w' Hj).
            apply lookup_app_l_Some. done.
        + intros (i & l & Hl & Hent & Hlater). exists i, l.
          split; [by apply lookup_app_l_Some|]. split; [done|].
          intros j l' w' Hj Hl'.
          destruct (decide (j = length lines)) as [->|Hj'].
          * rewrite list_lookup_middle in Hl' by done. injection Hl' as <-.
            apply Hne.
          * apply lookup_lt_Some in Hl' as Hlt. rewrite length_app in Hlt.
            simpl in Hlt. rewrite lookup_app_l in Hl' by lia.
            by apply (Hlater j).
      - split.
        + intros Hn l w Hin. apply Hn. apply elem_of_app. by left.
        + intros Hn l w [Hin|Hin%list_elem_of_singleton]%elem_of_app.
          * by apply Hn.
          * subst l. apply Hne. }
    destruct (entry line) as [[k' v']|] eqn:He; simpl.
    + destruct (decide (k' = k)) as [->|Hne].
      * rewrite lookup_insert_eq. rewrite (Hlast v' eq_refl). split.
        -- intros [= ->]. by left.
        -- intros [->|[Hn _]]; [done|]. exfalso.
           apply (Hn line v'); [|done]. apply elem_of_app. right.
           apply list_elem_of_here.
      * rewrite lookup_insert_ne by done. rewrite IH.
        destruct Hskip as [H1 H2]; [intros w [= ? _]; done|].
        by rewrite H1, H2.
    + rewrite IH. destruct Hskip as [H1 H2]; [done|]. by rewrite H1, H2.
Qed.

Lemma assign_all_lookup_empty {A V} (entry : A -> option (string * V))
    (lines : list A) (k : string) (v : V) :
  assign_all (map entry lines) ∅ !! k = Some v <-> last_assigned entry lines k v.
Proof.
  rewrite assign_all_lookup. split; [|by left].
  intros [?|[_ H]]; [done|]. by rewrite lookup_empty in H.
Qed.

(** ** Strings: joining what was split, and what [strip] leaves *)

Lemma append_nil_r (s : string) : String.append s EmptyString = s.
Proof.
  induction s as [|c s IH]; [reflexivity|].
  change (String c (String.append s EmptyString) = String c s). by rewrite IH.
Qed.

Lemma append_assoc (s1 s2 s3 : string) :
  String.append (String.append s1 s2) s3 = String.append s1 (String.append s2 s3).
Proof.
  induction s1 as [|c s1 IH]; [reflexivity|].
  change (String c (String.append (String.append s1 s2) s3)
          = String c (String.append s1 (String.append s2 s3))).
  by rewrite IH.
Qed.

Lemma join_cons (sep x : string) (l : list string) :
  l <> [] ->
  Str.join sep (x :: l) = String.append x (String.append sep (Str.join sep l)).
Proof. by destruct l. Qed.

(** Joining the pieces of a split at a one-character separator gives the
    string back. *)
Lemma join_split_scan_char (c : ascii) (s : string) :
  forall cur,
    Str.join (String c EmptyString)
      (Str.split_scan (String c EmptyString) cur 0 s)
    = String.append cur s.
Proof.
  induction s as [|a s IH]; intros cur.
  - simpl. by rewrite append_nil_r.
  - cbn [Str.split_scan Str.startswith].
    destruct (Ascii.eqb c a) eqn:Hca.
    + apply Ascii.eqb_eq in Hca as <-.
      destruct s as [|b s']; cbn [Str.startswith String.length Nat.pred].
      * simpl. done.
      * rewrite join_cons.
        -- rewrite IH. done.
        -- destruct (split_scan_cons (String c EmptyString) EmptyString 0
                       (String b s')) as (f & fs & ->). done.
    + rewrite IH. unfold Str.snoc. by rewrite append_assoc.
Qed.

Lemma join_split_char (c : ascii) (s : string) :
  Str.join (String c EmptyString) (Str.split (String c EmptyString) s) = s.
Proof. unfold Str.split. by rewrite join_split_scan_char. Qed.

Lemma append_cons (c : ascii) (s t : string) :
  String.append (String c s) t = String c (String.append s t).
Proof. reflexivity. Qed.

Lemma append_nil_l (t : string) : String.append EmptyString t = t.
Proof. reflexivity. Qed.

Lemma append_snoc_not_nil (u : string) (c : ascii) :
  String.append u (String c EmptyString) <> EmptyString.
Proof. destruct u; [rewrite append_nil_l|rewrite append_cons]; discriminate. Qed.

(** What [rstrip] returns does not end in white space. *)
Lemma rstrip_no_trailing_space (s u : string) (c : ascii) :
  Str.rstrip s = String.append u (String c EmptyString) ->
  Ascii.is_space c = false.
Proof.
  revert u. induction s as [|a s IH]; intros u; simpl.
  - intros H. symmetry in H. by apply append_snoc_not_nil in H.
  - destruct (Str.rstrip s) as [|b t] eqn:Hr.
    + destruct (Ascii.is_space a) eqn:Ha.
      * intros H. symmetry in H. by apply append_snoc_not_nil in H.
      * destruct u as [|a' u].
        -- rewrite append_nil_l. by intros [= <-].
        -- rewrite append_cons. intros [= _ H].
           symmetry in H. by apply append_snoc_not_nil in H.
    + destruct u as [|a' u].
      * rewrite append_nil_l. by intros [=].
      * rewrite append_cons. intros [= _ H]. by apply (IH u).
Qed.

Lemma strip_no_trailing_space (s u : string) (c : ascii) :
  Str.strip s = String.append u (String c EmptyString) ->
  Ascii.is_space c = false.
Proof. apply rstrip_no_trailing_space. Qed.

(** ** [fields_to_dict] *)

Lemma fields_to_dict_line_assign (delim : string)
    (strip_f : option (string -> string))
    (d : gmap string (list string)) (line : string) :
  delim <> EmptyString ->
  fields_to_dict_line delim strip_f d line
  = Ok (assign1 d (fields_entry delim strip_f line)).
Proof.
  intros Hd. unfold fields_to_dict_line, fields_entry, split_by.
  destruct delim as [|c delim]; [done|]. simpl rbind.
  destruct (split_cons (String c delim) line) as (f & fs & ->).
  destruct strip_f as [g|]; simpl;
    by destruct (String.eqb _ EmptyString).
Qed.

(** X14.  [fields_to_dict].  For a non-empty delimiter it returns a dict
    in which a key holds the fields after the first of the last line that
    has the key as its first field ([strip_f] applied to every field when
    given): a repeated key is overwritten.  A line whose first field is
    empty adds nothing, so the empty string is never a key. *)
Theorem fields_to_dict_last_line_wins
    (lines : list string) (delim : string) (strip_f : option (string -> string)) :
  delim <> EmptyString ->
  exists d,
    fields_to_dict lines delim strip_f = Ok d /\
    d !! EmptyString = None /\
    forall k v, d !! k = Some v <->
                last_assigned (fields_entry delim strip_f) lines k v.
Proof.
  intros Hd. eexists. split.
  { unfold fields_to_dict. apply for_each_assign. intros d x.
    by apply fields_to_dict_line_assign. }
  assert (forall k v,
            assign_all (map (fields_entry delim strip_f) lines) ∅ !! k = Some v <->
            last_assigned (fields_entry delim strip_f) lines k v) as Hspec
    by (intros; apply assign_all_lookup_empty).
  split; [|exact Hspec].
  destruct (assign_all _ ∅ !! EmptyString) as [v|] eqn:Hv; [|done].
  apply Hspec in Hv as (i & line & _ & Hent & _). exfalso.
  unfold fields_entry in Hent.
  destruct (match strip_f with
            | Some f => map f (Str.split delim line)
            | None => Str.split delim line
            end) as [|k rest]; [done|].
  destruct (String.eqb k EmptyString) eqn:Hk; [done|].
  injection Hent as -> _. by rewrite String.eqb_refl in Hk.
Qed.

Lemma fields_to_dict_witness :
  exists d,
    fields_to_dict [tsv ["a"; "b"; " c "]; tsv [" "; "x"]; tsv ["a"; "d"]]
      Str.TAB (Some Str.strip) = Ok d /\
    d !! EmptyString = None /\
    forall k v, d !! k = Some v <->
                last_assigned (fields_entry Str.TAB (Some Str.strip))
                  [tsv ["a"; "b"; " c "]; tsv [" "; "x"]; tsv ["a"; "d"]] k v.
Proof.
  apply (fields_to_dict_last_line_wins
           [tsv ["a"; "b"; " c "]; tsv [" "; "x"]; tsv ["a"; "d"]]
           Str.TAB (Some Str.strip)).
  discriminate.
Defined.

Example fields_to_dict_ex :
  (fun r => match r with Ok d => Some (map_to_list d) | Raise _ => None end)
    (fields_to_dict [tsv ["a"; "b"; " c "]; tsv [" "; "x"]; tsv ["a"; "d"]]
       Str.TAB (Some Str.strip))
  = Some [("a", ["d"])].
Proof. vm_compute. reflexivity. Qed.

(** ** [parse_qiime_config_file] and [parse_qiime_config_files] *)

Lemma config_file_line_assign (d : gmap string (option string)) (line : string) :
  config_file_line d line = Ok (assign1 d (config_entry line)).
Proof.
  unfold config_file_line, config_entry.
  destruct (String.eqb (Str.strip line) EmptyString || Str.startswith "#" (Str.strip line));
    [done|].
  by destruct (split_cons Str.TAB (Str.strip line)) as (f & fs & ->).
Qed.

Lemma parse_qiime_config_file_spec (lines : list string) :
  parse_qiime_config_file lines = Ok (assign_all (map config_entry lines) ∅).
Proof. apply for_each_assign, config_file_line_assign. Qed.

(** The stripped line of an assignment is the key, followed by a tab and
    the value when there is one. *)
Lemma config_entry_line (line k : string) (v : option string) :
  config_entry line = Some (k, v) ->
  Str.strip line
  = match v with
    | Some v' => String.append k (String.append Str.TAB v')
    | None => k
    end.
Proof.
  unfold config_entry.
  destruct (String.eqb (Str.strip line) EmptyString || Str.startswith "#" (Str.strip line));
    [done|].
  pose proof (join_split_char "009" (Str.strip line)) as Hjoin.
  fold Str.TAB in Hjoin.
  destruct (Str.split Str.TAB (Str.strip line)) as [|k' rest]; [done|].
  intros [= -> <-]. unfold config_value, slice_1.
  change (drop 1 (k :: rest)) with rest.
  destruct rest as [|r rs].
  - simpl in *. done.
  - rewrite join_cons in Hjoin by done.
    destruct (Str.join Str.TAB (r :: rs)) as [|c t] eqn:Hj.
    + exfalso.
      pose proof (strip_no_trailing_space line k "009"%char (eq_sym Hjoin)) as Hsp.
      discriminate Hsp.
    + by rewrite <- Hjoin.
Qed.

(** X15.  A config file.  [parse_qiime_config_file] never raises.  Blank
    lines and lines that start with [#] (after stripping) assign nothing;
    a parameter holds what the last line for it assigns; and each stored
    pair comes from a line whose stripped text is the parameter id alone
    (value [None]) or the parameter id, a tab and the value: the value is
    the whole rest of the line, tabs included. *)
Theorem config_file_last_line_wins (lines : list string) :
  exists d,
    parse_qiime_config_file lines = Ok d /\
    (forall k v, d !! k = Some v <-> last_assigned config_entry lines k v) /\
    (forall k v, d !! k = Some v ->
       exists line,
         line ∈ lines /\
         String.eqb (Str.strip line) EmptyString = false /\
         Str.startswith "#" (Str.strip line) = false /\
         Str.strip line
         = match v with
           | Some v' => String.append k (String.append Str.TAB v')
           | None => k
           end).
Proof.
  eexists. split; [apply parse_qiime_config_file_spec|].
  split; [intros; apply assign_all_lookup_empty|].
  intros k v (i & line & Hl & Hent & _)%assign_all_lookup_empty.
  exists line. split; [by eapply list_elem_of_lookup_2|].
  pose proof (config_entry_line _ _ _ Hent) as Hline.
  unfold config_entry in Hent.
  destruct (String.eqb (Str.strip line) EmptyString) eqn:H1; [done|].
  destruct (Str.startswith "#" (Str.strip line)) eqn:H2; [done|].
  done.
Qed.

Example config_file_ex :
  (fun r => match r with Ok d => Some (map_to_list d) | Raise _ => None end)
    (parse_qiime_config_file
       [" # a comment"; tsv ["blast_db"; "/db"; "x y"]; "cluster_jobs_fp";
        EmptyString; tsv ["blast_db"; "/other "]])
  = Some [("cluster_jobs_fp", None); ("blast_db", Some "/other")].
Proof. vm_compute. reflexivity. Qed.

Lemma config_files_snoc (fs : list (option (list string)))
    (f : option (list string)) :
  parse_qiime_config_files (fs ++ [f])
  = (let? d := parse_qiime_config_files fs in config_files_step d f).
Proof.
  unfold parse_qiime_config_files. rewrite for_each_app. simpl.
  destruct (for_each config_files_step fs ∅) as [d|]; simpl; [|done].
  by destruct (config_files_step d f).
Qed.

(** X16.  Several config files.  [parse_qiime_config_files] never raises:
    a file that cannot be read is skipped.  A parameter holds the value
    that the last readable file defining it gives, and a parameter that no
    readable file defines reads as [None]. *)
Theorem config_files_later_file_wins (fs : list (option (list string))) :
  exists d,
    parse_qiime_config_files fs = Ok d /\
    (forall k v,
       d !! k = Some v <->
       exists i lines di,
         fs !! i = Some (Some lines) /\
         parse_qiime_config_file lines = Ok di /\ di !! k = Some v /\
         forall j lines' dj,
           (i < j)%nat -> fs !! j = Some (Some lines') ->
           parse_qiime_config_file lines' = Ok dj -> dj !! k = None) /\
    (forall k,
       (forall i lines di,
          fs !! i = Some (Some lines) ->
          parse_qiime_config_file lines = Ok di -> di !! k = None) ->
       config_get d k = None).
Proof.
  assert (exists d,
    parse_qiime_config_files fs = Ok d /\
    (forall k v,
       d !! k = Some v <->
       exists i lines di,
         fs !! i = Some (Some lines) /\
         parse_qiime_config_file lines = Ok di /\ di !! k = Some v /\
         forall j lines' dj,
           (i < j)%nat -> fs !! j = Some (Some lines') ->
           parse_qiime_config_file lines' = Ok dj -> dj !! k = None)) as Hmain.
  { induction fs as [|f fs IH] using rev_ind.
    - exists ∅. split; [done|]. intros k v. rewrite lookup_empty.
      split; [done|]. by intros (i & lines & di & Hl & _).
    - destruct IH as (d & Hd & Hspec). rewrite config_files_snoc, Hd. simpl.
      assert (Hold : forall k v,
                (exists i lines di,
                   fs !! i = Some (Some lines) /\
                   parse_qiime_config_file lines = Ok di /\ di !! k = Some v /\
                   forall j lines' dj,
                     (i < j)%nat -> (fs ++ [f]) !! j = Some (Some lines') ->
                     parse_qiime_config_file lines' = Ok dj -> dj !! k = None)
                -> d !! k = Some v).
      { intros k v (i & lines & di & Hl & Hp & Hk & Hlater). apply Hspec.
        exists i, lines, di. split; [done|]. split; [done|]. split; [done|].
        intros j lines' dj Hj Hl'. apply (Hlater j lines' dj Hj).
        by apply lookup_app_l_Some. }
      destruct f as [lines|]; simpl.
      + rewrite (parse_qiime_config_file_spec lines). simpl.
        set (dl := assign_all (map config_entry lines) ∅).
        exists (dl ∪ d). split; [done|]. intros k v.
        rewrite lookup_union_Some_raw. split.
        * intros [Hk|[Hnone Hk]].
          -- exists (length fs), lines, dl.
             split; [by apply list_lookup_middle|].
             split; [apply parse_qiime_config_file_spec|]. split; [done|].
             intros j lines' dj Hj Hl'. apply lookup_lt_Some in Hl'.
             rewrite length_app in Hl'. simpl in Hl'. lia.
          -- apply Hspec in Hk as (i & lines0 & di & Hl & Hp & Hk & Hlater).
             exists i, lines0, di. split; [by apply lookup_app_l_Some|].
             split; [done|]. split; [done|].
             intros j lines' dj Hj Hl' Hp'.
             destruct (decide (j = length fs)) as [->|Hne].
             ++ rewrite list_lookup_middle in Hl' by done.
                injection Hl' as <-.
                rewrite parse_qiime_config_file_spec in Hp'. by injection Hp' as <-.
             ++ apply lookup_lt_Some in Hl' as Hlt. rewrite length_app in Hlt.
                simpl in Hlt. rewrite lookup_app_l in Hl' by lia.
                by apply (Hlater j lines' dj).
        * intros (i & lines0 & di & Hl & Hp & Hk & Hlater).
          destruct (decide (i = length fs)) as [->|Hne].
          -- rewrite list_lookup_middle in Hl by done. injection Hl as <-.
             rewrite parse_qiime_config_file_spec in Hp. injection Hp as <-.
             by left.
          -- apply lookup_lt_Some in Hl as Hlt. rewrite length_app in Hlt.
             simpl in Hlt. rewrite lookup_app_l in Hl by lia. right. split.
             ++ apply (Hlater (length fs) lines dl); [lia| |].
                ** by apply list_lookup_middle.
                ** apply parse_qiime_config_file_spec.
             ++ apply Hold. by exists i, lines0, di.
      + exists d. split; [done|]. intros k v. split.
        * intros (i & lines0 & di & Hl & Hp & Hk & Hlater)%Hspec.
          exists i, lines0, di. split; [by apply lookup_app_l_Some|].
          split; [done|]. split; [done|].
          intros j lines' dj Hj Hl' Hp'.
          destruct (decide (j = length fs)) as [->|Hne].
          -- by rewrite list_lookup_middle in Hl'.
          -- apply lookup_lt_Some in Hl' as Hlt. rewrite length_app in Hlt.
             simpl in Hlt. rewrite lookup_app_l in Hl' by lia.
             by apply (Hlater j lines' dj).
        * intros (i & lines0 & di & Hl & Hp & Hk & Hlater). apply Hold.
          exists i, lines0, di. split; [|done].
          destruct (decide (i = length fs)) as [->|Hne].
          -- by rewrite list_lookup_middle in Hl.
          -- apply lookup_lt_Some in Hl as Hlt. rewrite length_app in Hlt.
             simpl in Hlt. by rewrite lookup_app_l in Hl by lia. }
  destruct Hmain as (d & Hd & Hspec). exists d. split; [done|]. split; [done|].
  intros k Hnone. unfold config_get.
  destruct (d !! k) as [v|] eqn:Hk; [|done].
  apply Hspec in Hk as (i & lines & di & Hl & Hp & Hk & _).
  rewrite (Hnone i lines di Hl Hp) in Hk. done.
Qed.

Example config_files_ex :
  (fun r => match r with Ok d => Some (map_to_list d) | Raise _ => None end)
    (parse_qiime_config_files
       [Some [tsv ["a"; "1"]; tsv ["b"; "2"]]; None; Some [tsv ["a"; "3"]]])
  = Some [("a", Some "3"); ("b", Some "2")].
Proof. vm_compute. reflexivity. Qed.

(** ** [parse_tmp_to_final_filepath_map_file] *)

Lemma snoc_not_nil (cur : string) (c : ascii) : Str.snoc cur c <> EmptyString.
Proof. apply append_snoc_not_nil. Qed.

Lemma split_ws_scan_nil (s : string) :
  forall cur, split_ws_scan cur s = [] <-> cur = EmptyString /\ Str.lstrip s = EmptyString.
Proof.
  induction s as [|c s IH]; intros cur; simpl.
  - destruct cur; split; try done. by intros [? _].
  - destruct (Ascii.is_space c).
    + destruct cur as [|a cur]; [apply IH|]. split; [done|]. by intros [? _].
    + rewrite IH. split; [intros [H _]|intros [_ H]]; [|done].
      by apply snoc_not_nil in H.
Qed.

Lemma lstrip_head (s : string) (c : ascii) (t : string) :
  Str.lstrip s = String c t -> Ascii.is_space c = false.
Proof.
  induction s as [|a s IH]; simpl; [done|].
  destruct (Ascii.is_space a) eqn:Ha; [done|]. by intros [= <- _].
Qed.

Lemma strip_nil (s : string) :
  Str.strip s = EmptyString <-> Str.lstrip s = EmptyString.
Proof.
  unfold Str.strip. destruct (Str.lstrip s) as [|c t] eqn:Hl; [done|].
  apply lstrip_head in Hl. simpl. rewrite Hl.
  destruct (Str.rstrip t); split; done.
Qed.

(** A line has no word exactly when it is blank. *)
Lemma split_ws_nil (s : string) : split_ws s = [] <-> Str.strip s = EmptyString.
Proof.
  unfold split_ws. rewrite split_ws_scan_nil, strip_nil. split; [by intros [_ ?]|done].
Qed.

Lemma getitem_last_snoc {A} (l : list A) :
  l <> [] -> exists b, getitem_last l = Ok b /\ l = slice_to_m1 l ++ [b].
Proof.
  intros Hl. unfold getitem_last, slice_to_m1.
  destruct (last l) as [b|] eqn:Hb.
  - exists b. split; [done|]. apply last_Some in Hb as [l' ->].
    rewrite length_app. simpl.
    replace (length l' + 1 - 1)%nat with (length l') by lia.
    by rewrite take_app_length.
  - by apply last_None in Hb.
Qed.

Lemma filepath_map_loop_ok (lines : list string) :
  Forall (fun line => Str.strip line <> EmptyString) lines ->
  forall ins0 outs0,
    exists ins outs,
      for_each filepath_map_line lines (ins0, outs0) = Ok (ins0 ++ ins, outs0 ++ outs) /\
      length ins = length lines /\ length outs = length lines /\
      forall i line, lines !! i = Some line ->
        exists a b, ins !! i = Some a /\ outs !! i = Some b /\
                    split_ws line = a ++ [b].
Proof.
  induction 1 as [|line lines Hline _ IH]; intros ins0 outs0.
  - exists [], []. simpl. rewrite !app_nil_r. by repeat split.
  - simpl. unfold filepath_map_line at 1. simpl.
    destruct (getitem_last_snoc (split_ws line)) as (b & -> & Hsplit).
    { intros Hnil. by apply Hline, split_ws_nil. }
    simpl.
    destruct (IH (ins0 ++ [slice_to_m1 (split_ws line)]) (outs0 ++ [b]))
      as (ins & outs & -> & Hli & Hlo & Hrel).
    exists (slice_to_m1 (split_ws line) :: ins), (b :: outs).
    rewrite <- !app_assoc. simpl. split; [done|].
    split; [lia|]. split; [lia|].
    intros [|i] l Hl; simpl in *.
    + injection Hl as <-. by eexists _, _.
    + by apply Hrel.
Qed.

Lemma filepath_map_loop_blank (lines : list string) :
  Exists (fun line => Str.strip line = EmptyString) lines ->
  forall st,
    for_each filepath_map_line lines st
    = Raise (IndexError "list index out of range").
Proof.
  induction lines as [|line lines IH]; intros Hex st.
  - by apply Exists_nil in Hex.
  - simpl. unfold filepath_map_line at 1.
    destruct (split_ws line) as [|f fs] eqn:Hsplit; [done|].
    rewrite getitem_last_cons. simpl. apply IH.
    apply Exists_cons in Hex as [Hblank|Hex]; [|done].
    apply split_ws_nil in Hblank. congruence.
Qed.

(** X17.  The tmp-to-final map.  When no line is blank,
    [parse_tmp_to_final_filepath_map_file] returns one list of input
    files and one output path per line, which together are the words of
    the line in order, the output path last.  A blank line, wherever it
    is, makes it raise [IndexError]. *)
Theorem filepath_map_needs_nonblank_lines (lines : list string) :
  (Forall (fun line => Str.strip line <> EmptyString) lines ->
   exists ins outs,
     parse_tmp_to_final_filepath_map_file lines = Ok (ins, outs) /\
     length ins = length lines /\ length outs = length lines /\
     forall i line, lines !! i = Some line ->
       exists a b, ins !! i = Some a /\ outs !! i = Some b /\
                   split_ws line = a ++ [b]) /\
  (Exists (fun line => Str.strip line = EmptyString) lines ->
   parse_tmp_to_final_filepath_map_file lines
   = Raise (IndexError "list index out of range")).
Proof.
  split.
  - intros H. destruct (filepath_map_loop_ok lines H [] [])
      as (ins & outs & Hrun & Hrest).
    by exists ins, outs.
  - intros H. by apply filepath_map_loop_blank.
Qed.

Example filepath_map_ex :
  parse_tmp_to_final_filepath_map_file
    ["tmpA1.txt tmpA2.txt tmpA3.txt A.txt"; "B1.txt B2.txt B3.txt B.txt"]
  = Ok ([["tmpA1.txt"; "tmpA2.txt"; "tmpA3.txt"]; ["B1.txt"; "B2.txt"; "B3.txt"]],
        ["A.txt"; "B.txt"]).
Proof. reflexivity. Qed.

(** ** [parse_metadata_state_descriptions] *)

Lemma unpack2_is_ok {A} (l : list A) : is_ok (unpack2 l) = Nat.eqb (length l) 2.
Proof. by destruct l as [|a [|b [|c l]]]. Qed.

Lemma state_description_col_is_ok (d : gmap string (gset string)) (c : string) :
  is_ok (state_description_col d c)
  = Nat.eqb (length (Str.split COLON c)) 2.
Proof.
  unfold state_description_col.
  rewrite <- (length_map Str.strip), <- unpack2_is_ok.
  destruct (unpack2 (map Str.strip (Str.split COLON c))) as [[a b]|]; done.
Qed.

(** X18.  State descriptions.  A blank string gives the empty dict.
    Otherwise [parse_metadata_state_descriptions] returns exactly when
    every piece between the semicolons, stripped, has exactly one colon
    (so a trailing semicolon, which leaves an empty piece, makes it raise
    [ValueError] at the unpacking); and in the dict it returns no column
    has an empty set of states. *)
Theorem state_descriptions_need_one_colon (state_string : string) :
  (Str.strip state_string = EmptyString ->
   parse_metadata_state_descriptions state_string = Ok ∅) /\
  (Str.strip state_string <> EmptyString ->
   is_ok (parse_metadata_state_descriptions state_string)
   = forallb (fun c => Nat.eqb (length (Str.split COLON (Str.strip c))) 2)
       (Str.split Str.SEMI (Str.strip state_string))) /\
  (forall d col states,
     parse_metadata_state_descriptions state_string = Ok d ->
     d !! col = Some states -> states <> ∅).
Proof.
  unfold parse_metadata_state_descriptions. split; [|split].
  - intros ->. done.
  - intros Hne. apply String.eqb_neq in Hne as ->.
    rewrite (for_each_is_ok _ (fun c => Nat.eqb (length (Str.split COLON c)) 2)).
    + induction (Str.split Str.SEMI (Str.strip state_string)) as [|c cs IH];
        simpl; [done|]. by rewrite IH.
    + apply state_description_col_is_ok.
  - intros d col states.
    destruct (String.eqb (Str.strip state_string) EmptyString).
    { intros [= <-]. by rewrite lookup_empty. }
    intros Hrun. revert col states.
    eapply (for_each_invariant state_description_col
              (fun d => forall col states, d !! col = Some states -> states <> ∅));
      [| |exact Hrun].
    + intros d0 c d1 Hd0. unfold state_description_col.
      destruct (unpack2 (map Str.strip (Str.split COLON c))) as [[colname vals]|];
        simpl; [|done].
      intros [= <-] col states.
      destruct (decide (colname = col)) as [->|Hne].
      * rewrite lookup_insert_eq. intros [= <-].
        destruct (split_cons COMMA vals) as (f & fs & ->). simpl.
        intros Hempty.
        assert (Str.strip f ∈ ({[Str.strip f]} ∪ list_to_set (map Str.strip fs)
                               : gset string)) as Hin by set_solver.
        rewrite Hempty in Hin. set_solver.
      * rewrite lookup_insert_ne by done. apply Hd0.
    + intros col states. by rewrite lookup_empty.
Qed.

Example state_descriptions_ex :
  (fun r => match r with
            | Ok d => Some (map (fun kv => (kv.1, elements kv.2)) (map_to_list d))
            | Raise _ => None
            end)
    (parse_metadata_state_descriptions "col1:good1,good2;col2:good1")
  = Some [("col1", ["good1"; "good2"]); ("col2", ["good1"])]
  /\ parse_metadata_state_descriptions "col1:good1;"
     = Raise (ValueError "need more than 1 value to unpack").
Proof. vm_compute. done. Qed.

(** ** [parse_taxonomy] *)

Lemma taxonomy_line_assign (d : gmap string string) (line : string) :
  taxonomy_line d line = Ok (assign1 d (taxonomy_entry line)).
Proof.
  unfold taxonomy_line, taxonomy_entry.
  destruct (Str.split Str.TAB line) as [|f0 [|tax [|conf [|x rest]]]]; try done.
  simpl. by destruct (split_cons SPACE f0) as (otu & ws & ->).
Qed.

Lemma taxonomy_entry_three_fields (line : string) :
  length (Str.split Str.TAB line) <> 3%nat -> taxonomy_entry line = None.
Proof.
  unfold taxonomy_entry.
  by destruct (Str.split Str.TAB line) as [|f0 [|tax [|conf [|x rest]]]].
Qed.

Lemma assign_all_filter {A V} (entry : A -> option (string * V))
    (P : A -> Prop) `{forall x, Decision (P x)} (l : list A) (d : gmap string V) :
  (forall x, ~ P x -> entry x = None) ->
  assign_all (map entry (filter P l)) d = assign_all (map entry l) d.
Proof.
  intros Hnone. revert d. induction l as [|x l IH]; intros d; [done|].
  rewrite filter_cons. destruct (decide (P x)) as [Hx|Hx]; simpl.
  - apply IH.
  - rewrite (Hnone x Hx). simpl. apply IH.
Qed.

(** X19.  Taxonomy files.  [parse_taxonomy] never raises.  Only lines of
    exactly three tab-separated fields count: dropping every other line
    from the input changes nothing.  An OTU, the part of the first field
    before its first space, holds the second field of the last such line
    for it. *)
Theorem taxonomy_ignores_other_lines (lines : list string) :
  exists d,
    parse_taxonomy lines = Ok d /\
    parse_taxonomy
      (filter (fun line => length (Str.split Str.TAB line) = 3%nat) lines)
    = Ok d /\
    forall otu tax,
      d !! otu = Some tax <-> last_assigned taxonomy_entry lines otu tax.
Proof.
  eexists. split; [apply for_each_assign, taxonomy_line_assign|].
  split.
  - unfold parse_taxonomy.
    rewrite (for_each_assign _ taxonomy_entry) by apply taxonomy_line_assign.
    f_equal. apply assign_all_filter, taxonomy_entry_three_fields.
  - intros. apply assign_all_lookup_empty.
Qed.

Example taxonomy_ex :
  (fun r => match r with Ok d => Some (map_to_list d) | Raise _ => None end)
    (parse_taxonomy
       [tsv ["3 SAM1_32"; "Root,Bacteria"; "0.9"]; "not a record";
        tsv ["4"; "Root"; "1"; "extra"]; tsv ["3 SAM2_7"; "Root,Archaea"; "0.8"]])
  = Some [("3", "Root,Archaea")].
Proof. vm_compute. reflexivity. Qed.

(** ** [parse_sample_mapping] *)

Lemma for_each_map {A B S} (body : S -> B -> result S) (f : A -> B)
    (l : list A) (s : S) :
  for_each body (map f l) s = for_each (fun s x => body s (f x)) l s.
Proof.
  revert s. induction l as [|x l IH]; intros s; simpl; [done|].
  destruct (body s (f x)); simpl; [apply IH|done].
Qed.

Lemma getitem_is_ok {A} (l : list A) (i : nat) :
  is_ok (getitem l i) = Nat.ltb i (length l).
Proof.
  unfold getitem. destruct (l !! i) eqn:Hl; simpl; symmetry.
  - apply Nat.ltb_lt. by eapply lookup_lt_Some.
  - apply Nat.ltb_ge. by apply lookup_ge_None.
Qed.

Lemma sample_mapping_line_is_ok (names : gset string)
    (info : gmap string (gmap string string)) (line : list string) :
  is_ok (sample_mapping_line names info line) = Nat.leb 3 (length line).
Proof. by destruct line as [|o [|s [|c rest]]]. Qed.

Lemma sample_mapping_line_Ok (names : gset string)
    (info info' : gmap string (gmap string string)) (line : list string) :
  sample_mapping_line names info line = Ok info' ->
  exists o s c rest,
    line = o :: s :: c :: rest /\
    info' = <[o := <[s := c]> (default (zero_counts names) (info !! o))]> info.
Proof.
  destruct line as [|o [|s [|c rest]]]; try done.
  unfold sample_mapping_line. simpl. intros [= <-].
  exists o, s, c, rest. split; [done|]. by destruct (info !! o).
Qed.

Lemma mapping_entry_other (otu line : string) :
  mapping_fields line !! 0%nat <> Some otu -> mapping_entry otu line = None.
Proof.
  unfold mapping_entry. destruct (mapping_fields line) as [|o [|s [|c rest]]]; try done.
  simpl. intros Ho. destruct (String.eqb_spec o otu) as [->|]; done.
Qed.

Lemma mapping_entry_Some (otu line s c : string) :
  mapping_entry otu line = Some (s, c) ->
  exists rest, mapping_fields line = otu :: s :: c :: rest.
Proof.
  unfold mapping_entry. destruct (mapping_fields line) as [|o [|s' [|c' rest]]]; try done.
  destruct (String.eqb_spec o otu) as [->|]; [|done].
  intros [= -> ->]. by exists rest.
Qed.

Lemma assign_all_nothing {V} (kvs : list (option (string * V))) (d : gmap string V) :
  Forall (fun o => o = None) kvs -> assign_all kvs d = d.
Proof.
  induction 1 as [|o kvs -> _ IH]; [done|]. apply IH.
Qed.

Lemma assign_all_dom {V} (kvs : list (option (string * V))) (d : gmap string V) :
  (forall k v, Some (k, v) ∈ kvs -> k ∈ dom d) ->
  dom (assign_all kvs d) = dom d.
Proof.
  revert d. induction kvs as [|o kvs IH]; intros d Hin; [done|].
  change (assign_all (o :: kvs) d) with (assign_all kvs (assign1 d o)).
  assert (dom (assign1 d o) = dom d) as Hdom.
  { destruct o as [[k v]|]; [|done]. simpl. rewrite dom_insert_L.
    apply subseteq_union_1_L, singleton_subseteq_l, (Hin k v). by left. }
  rewrite IH; [done|]. intros k v Hkv. rewrite Hdom. apply (Hin k v). by right.
Qed.

(** What the loop has built after the lines read so far. *)
Lemma sample_mapping_loop (names : gset string) (lines : list string) :
  forall info,
    for_each (fun s line => sample_mapping_line names s (mapping_fields line))
      lines ∅ = Ok info ->
    (forall otu, info !! otu = None <->
                 forall line, line ∈ lines -> mapping_fields line !! 0%nat <> Some otu) /\
    (forall otu d, info !! otu = Some d ->
                   d = assign_all (map (mapping_entry otu) lines) (zero_counts names)).
Proof.
  induction lines as [|line lines IH] using rev_ind; intros info.
  - simpl. intros [= <-]. split.
    + intros otu. rewrite lookup_empty. split; [|done].
      intros _ line Hin. by apply elem_of_nil in Hin.
    + intros otu d. by rewrite lookup_empty.
  - rewrite for_each_app.
    destruct (for_each _ lines ∅) as [info0|] eqn:Hrun; simpl; [|done].
    destruct (IH info0 eq_refl) as [Hnone Hsome].
    destruct (sample_mapping_line names info0 (mapping_fields line)) as [info1|] eqn:Hb;
      simpl; [|done].
    intros [= <-].
    apply sample_mapping_line_Ok in Hb as (o & s & c & rest & Hline & ->).
    split.
    + intros otu. destruct (decide (o = otu)) as [->|Hne].
      * rewrite lookup_insert_eq. split; [done|]. intros Hall. exfalso.
        apply (Hall line); [apply elem_of_app; right; by left|]. by rewrite Hline.
      * rewrite lookup_insert_ne by done. rewrite Hnone. split.
        -- intros Hall l Hin. apply elem_of_app in Hin as [Hin|Hin]; [by apply Hall|].
           apply list_elem_of_singleton in Hin as ->. rewrite Hline. simpl. congruence.
        -- intros Hall l Hin. apply Hall, elem_of_app. by left.
    + intros otu d. rewrite map_app.
      change (map (mapping_entry otu) [line]) with [mapping_entry otu line].
      rewrite assign_all_snoc.
      destruct (decide (o = otu)) as [->|Hne].
      * rewrite lookup_insert_eq. intros [= <-].
        unfold mapping_entry at 2. rewrite Hline, String.eqb_refl. simpl. f_equal.
        destruct (info0 !! otu) as [d0|] eqn:Hd0; simpl.
        -- by apply Hsome.
        -- symmetry. apply assign_all_nothing, Forall_forall.
           intros e He. apply list_elem_of_fmap in He as (l & -> & Hl).
           apply mapping_entry_other. by apply (proj1 (Hnone otu) Hd0).
      * rewrite lookup_insert_ne by done. intros Hd.
        rewrite (mapping_entry_other otu line).
        -- simpl. by apply Hsome.
        -- rewrite Hline. simpl. congruence.
Qed.

Lemma getitem_column_elem {A} (i : nat) (ls : list (list A)) :
  forall ys,
    map_result (fun l => getitem l i) ls = Ok ys ->
    forall y, y ∈ ys <-> exists l, l ∈ ls /\ l !! i = Some y.
Proof.
  induction ls as [|l ls IH]; intros ys; simpl.
  - intros [= <-] y. split.
    + intros H. by apply elem_of_nil in H.
    + intros (l & H & _). by apply elem_of_nil in H.
  - unfold getitem at 1. destruct (l !! i) as [x|] eqn:Hl; simpl; [|done].
    destruct (map_result _ ls) as [ys'|] eqn:Hys; simpl; [|done].
    intros [= <-] y. rewrite elem_of_cons, (IH ys' eq_refl). split.
    + intros [->|(l' & Hin & Hy)].
      * exists l. split; [by left|done].
      * exists l'. split; [by right|done].
    + intros (l' & Hin & Hy). apply elem_of_cons in Hin as [->|Hin].
      * left. congruence.
      * right. by exists l'.
Qed.

Lemma forallb_fmap {A B} (f : A -> B) (p : B -> bool) (l : list A) :
  forallb p (map f l) = forallb (fun x => p (f x)) l.
Proof. induction l as [|x l IH]; simpl; [done|]. by rewrite IH. Qed.

Lemma forallb_false_mono {A} (p q : A -> bool) (l : list A) :
  (forall x, q x = true -> p x = true) ->
  forallb p l = false -> forallb q l = false.
Proof.
  intros Hpq. induction l as [|x l IH]; simpl; [done|].
  destruct (q x) eqn:Hq; [|done]. rewrite (Hpq x Hq). simpl. apply IH.
Qed.

(** X20.  Sample mapping files: when the parse fails.
    [parse_sample_mapping] returns exactly when every line, stripped, has
    at least three tab-separated fields; otherwise [line[1]] or [line[2]]
    raises [IndexError]. *)
Theorem sample_mapping_needs_three_fields (lines : list string) :
  is_ok (parse_sample_mapping lines)
  = forallb (fun line => Nat.leb 3 (length (mapping_fields line))) lines.
Proof.
  unfold parse_sample_mapping.
  change (map (fun line => Str.split Str.TAB (Str.strip line)) lines)
    with (map mapping_fields lines).
  destruct (map_result _ (map mapping_fields lines)) as [ys|e] eqn:Hys; simpl.
  - match goal with
    | |- is_ok (let? x := ?r in _) = _ =>
        transitivity (is_ok r); [by destruct r|]
    end.
    rewrite (for_each_is_ok _ (fun line => Nat.leb 3 (length line)))
      by apply sample_mapping_line_is_ok.
    apply forallb_fmap.
  - symmetry.
    assert (is_ok (map_result (fun line : list string => getitem line 1)
                     (map mapping_fields lines)) = false) as Hf by by rewrite Hys.
    rewrite map_result_is_ok, forallb_fmap in Hf.
    refine (forallb_false_mono _ _ _ _ Hf).
    intros line. rewrite getitem_is_ok.
    by destruct (mapping_fields line) as [|o [|s [|c rest]]].
Qed.

Example sample_mapping_short_line_ex :
  parse_sample_mapping [tsv ["OTU1"; "sample1"; "3"]; tsv ["OTU1"; "sample2"]]
  = Raise (IndexError "list index out of range").
Proof. reflexivity. Qed.

(** X21.  Sample mapping files: what the parse returns.  The sample names
    are the second fields of the lines and the OTUs are the first fields.
    The dict of every OTU is dense: its keys are all the sample names of
    the file.  A sample holds the count of the last line of that OTU and
    sample, and the string ['0'] when the file has no such line. *)
Theorem sample_mapping_is_dense (lines : list string)
    (info : gmap string (gmap string string)) (names : gset string) :
  parse_sample_mapping lines = Ok (info, names) ->
  (forall s, s ∈ names <->
             exists line, line ∈ lines /\ mapping_fields line !! 1%nat = Some s) /\
  (forall otu, is_Some (info !! otu) <->
               exists line, line ∈ lines /\ mapping_fields line !! 0%nat = Some otu) /\
  (forall otu d, info !! otu = Some d ->
     dom d = names /\
     forall s c, d !! s = Some c <->
       last_assigned (mapping_entry otu) lines s c \/
       (never_assigned (mapping_entry otu) lines s /\ s ∈ names /\ c = "0")).
Proof.
  unfold parse_sample_mapping.
  change (map (fun line => Str.split Str.TAB (Str.strip line)) lines)
    with (map mapping_fields lines).
  destruct (map_result _ (map mapping_fields lines)) as [ys|e] eqn:Hys; simpl; [|done].
  rewrite for_each_map.
  destruct (for_each _ lines ∅) as [info0|] eqn:Hrun; simpl; [|done].
  intros [= <- <-].
  assert (Hnames : forall s, s ∈ (list_to_set ys : gset string) <->
            exists line, line ∈ lines /\ mapping_fields line !! 1%nat = Some s).
  { intros s. rewrite elem_of_list_to_set, (getitem_column_elem _ _ _ Hys). split.
    - intros (l & Hl & Hs). apply list_elem_of_fmap in Hl as (line & -> & Hl).
      by exists line.
    - intros (line & Hl & Hs). exists (mapping_fields line).
      split; [|done]. apply list_elem_of_fmap. by exists line. }
  destruct (sample_mapping_loop _ _ _ Hrun) as [Hnone Hsome].
  split; [done|]. split.
  - intros otu. rewrite <- not_eq_None_Some, Hnone. split.
    + intros Hnot.
      destruct (decide (Exists (fun line => mapping_fields line !! 0%nat = Some otu)
                          lines)) as [Hex|Hex]; [by apply Exists_exists in Hex|].
      exfalso. apply Hnot. intros line Hin Heq. apply Hex, Exists_exists.
      by exists line.
    + intros (line & Hin & Hline) Hall. by apply (Hall line).
  - intros otu d Hd. apply Hsome in Hd as ->. split.
    + rewrite assign_all_dom; [apply dom_gset_to_gmap|].
      intros s c Hin. apply list_elem_of_fmap in Hin as (line & Heq & Hin).
      symmetry in Heq. apply mapping_entry_Some in Heq as (rest & Hline).
      unfold zero_counts. rewrite dom_gset_to_gmap. apply Hnames.
      exists line. split; [done|]. by rewrite Hline.
    + intros s c. rewrite assign_all_lookup. unfold zero_counts.
      rewrite lookup_gset_to_gmap_Some.
      split; (intros [?|(? & ? & ?)]; [by left|by right]).
Qed.

Lemma sample_mapping_witness :
  parse_sample_mapping
    [tsv ["OTU1"; "sample1"; "3"]; tsv ["OTU1"; "sample3"; "2"];
     tsv ["OTU2"; "sample1"; "1"]]
  = Ok ({[ "OTU1" := {[ "sample1" := "3"; "sample3" := "2" ]};
           "OTU2" := {[ "sample1" := "1"; "sample3" := "0" ]} ]},
        {[ "sample1"; "sample3" ]}) /\
  forall otu d,
    ({[ "OTU1" := {[ "sample1" := "3"; "sample3" := "2" ]};
        "OTU2" := {[ "sample1" := "1"; "sample3" := "0" ]} ]}
       : gmap string (gmap string string)) !! otu = Some d ->
    dom d = ({[ "sample1"; "sample3" ]} : gset string).
Proof.
  assert (parse_sample_mapping
            [tsv ["OTU1"; "sample1"; "3"]; tsv ["OTU1"; "sample3"; "2"];
             tsv ["OTU2"; "sample1"; "1"]]
          = Ok ({[ "OTU1" := {[ "sample1" := "3"; "sample3" := "2" ]};
                   "OTU2" := {[ "sample1" := "1"; "sample3" := "0" ]} ]},
                {[ "sample1"; "sample3" ]})) as H by (vm_compute; reflexivity).
  split; [exact H|].
  intros otu d Hd.
  exact (proj1 (proj2 (proj2 (sample_mapping_is_dense _ _ _ H)) otu d Hd)).
Defined.

(** ** [group_by_field] *)

Lemma list_index_spec (x : string) (l : list string) :
  (x ∉ l -> list_index x l = Raise (ValueError "list.index(x): x not in list")) /\
  (forall i, l !! i = Some x -> (forall j, (j < i)%nat -> l !! j <> Some x) ->
             list_index x l = Ok i).
Proof.
  induction l as [|y l [IHn IHs]]; simpl.
  - split; [done|]. intros i Hi. by rewrite lookup_nil in Hi.
  - destruct (String.eqb_spec y x) as [->|Hne]; split.
    + intros Hnot. exfalso. apply Hnot. by left.
    + intros [|i] Hi Hfirst; [done|]. exfalso. by apply (Hfirst 0%nat); [lia|].
    + intros Hnot. rewrite IHn; [done|]. intros Hin. apply Hnot. by right.
    + intros [|i] Hi Hfirst; simpl in Hi; [congruence|].
      rewrite (IHs i Hi); [done|]. intros j Hj. apply (Hfirst (S j)). lia.
Qed.

Lemma group_by_field_loop (col : nat) (rows : list (list string)) :
  Forall (fun row => (col < length row)%nat) rows ->
  forall d0,
    exists d,
      for_each (group_by_field_row col) rows d0 = Ok d /\
      forall state,
        default [] (d !! state) = default [] (d0 !! state) ++ headers_with col state rows /\
        (is_Some (d !! state) <->
         is_Some (d0 !! state) \/ exists row, row ∈ rows /\ row !! col = Some state).
Proof.
  induction 1 as [|row rows Hrow _ IH]; intros d0.
  - exists d0. split; [done|]. intros state. simpl. rewrite app_nil_r.
    split; [done|]. split; [by left|]. intros [?|(row & Hin & _)]; [done|].
    by apply elem_of_nil in Hin.
  - destruct (lookup_lt_is_Some_2 row col Hrow) as [st Hst].
    destruct (lookup_lt_is_Some_2 row 0%nat ltac:(lia)) as [h Hh].
    cbn [for_each]. unfold group_by_field_row at 1, getitem. rewrite Hh, Hst.
    cbn [rbind].
    destruct (IH (<[st := default [] (d0 !! st) ++ [h]]> d0)) as (d & -> & Hd).
    exists d. split; [done|]. intros state. destruct (Hd state) as [Hval Hdom].
    unfold headers_with. simpl. fold (headers_with col state rows).
    destruct (decide (st = state)) as [->|Hne].
    + rewrite lookup_insert_eq in Hval, Hdom. simpl in Hval.
      rewrite decide_True by done. rewrite Hh, Hval, <- app_assoc.
      split; [done|]. rewrite Hdom. split; [|by intros _; left].
      intros _. right. exists row. split; [by left|done].
    + rewrite lookup_insert_ne in Hval, Hdom by done.
      rewrite decide_False by congruence.
      split; [done|]. rewrite Hdom. split.
      * intros [?|(r & Hin & Hr)]; [by left|]. right. exists r. split; [by right|done].
      * intros [?|(r & Hin & Hr)]; [by left|].
        apply elem_of_cons in Hin as [->|Hin]; [congruence|].
        right. by exists r.
Qed.

Lemma group_by_field_loop_short (col : nat) (rows : list (list string)) :
  Exists (fun row => (length row <= col)%nat) rows ->
  forall d0,
    for_each (group_by_field_row col) rows d0
    = Raise (IndexError "list index out of range").
Proof.
  induction rows as [|row rows IH]; intros Hex d0.
  - by apply Exists_nil in Hex.
  - cbn [for_each]. unfold group_by_field_row at 1, getitem.
    destruct (row !! 0%nat) as [h|] eqn:Hh; cbn [rbind]; [|done].
    destruct (row !! col) as [st|] eqn:Hst; cbn [rbind]; [|done].
    apply IH. apply Exists_cons in Hex as [Hshort|Hex]; [|done].
    apply lookup_lt_Some in Hst. lia.
Qed.

(** X22.  Grouping a table by one field.  With the first row as header:
    when the name is not in the header, [group_by_field] raises
    [ValueError]; when it is, at first position [col], and every data row
    reaches that column, the dict holds for every state the first fields
    of the rows whose field [col] is that state, in the order of the
    rows, and its keys are the states that occur; a data row that does
    not reach the column raises [IndexError]. *)
Theorem group_by_field_groups_row_headers (hdr : list string)
    (rows : list (list string)) (name : string) :
  (name ∉ hdr ->
   group_by_field (hdr :: rows) name
   = Raise (ValueError "Couldn't find name in headers")) /\
  (forall col,
     hdr !! col = Some name ->
     (forall j, (j < col)%nat -> hdr !! j <> Some name) ->
     (Forall (fun row => (col < length row)%nat) rows ->
      exists d,
        group_by_field (hdr :: rows) name = Ok d /\
        forall state,
          default [] (d !! state) = headers_with col state rows /\
          (is_Some (d !! state) <->
           exists row, row ∈ rows /\ row !! col = Some state)) /\
     (Exists (fun row => (length row <= col)%nat) rows ->
      group_by_field (hdr :: rows) name
      = Raise (IndexError "list index out of range"))).
Proof.
  unfold group_by_field. simpl. destruct (list_index_spec name hdr) as [Hn Hs].
  split.
  - intros Hnot. by rewrite Hn.
  - intros col Hcol Hfirst. rewrite (Hs col Hcol Hfirst). simpl.
    change (slice_1 (hdr :: rows)) with rows. split.
    + intros Hrows. destruct (group_by_field_loop col rows Hrows ∅) as (d & -> & Hd).
      exists d. split; [done|]. intros state. destruct (Hd state) as [Hval Hdom].
      rewrite lookup_empty in Hval, Hdom. simpl in Hval. split; [done|].
      rewrite Hdom. split; [|by right]. intros [[? ?]|?]; done.
    + intros Hex. by apply group_by_field_loop_short.
Qed.

Example group_by_field_ex :
  (fun r => match r with Ok d => Some (map_to_list d) | Raise _ => None end)
    (group_by_field
       [["#SampleID"; "Day"; "Type"]; ["s1"; "1"; "gut"]; ["s2"; "2"; "skin"];
        ["s3"; "1"; "skin"]] "Day")
  = Some [("1", ["s1"; "s3"]); ("2", ["s2"])]
  /\ group_by_field [["#SampleID"; "Day"]; ["s1"; "1"]] "Week"
     = Raise (ValueError "Couldn't find name in headers")
  /\ group_by_field [["#SampleID"; "Day"]; ["s1"]] "Day"
     = Raise (IndexError "list index out of range").
Proof. vm_compute. done. Qed.

(** ** [parse_qiime_parameters] *)

Lemma qiime_parameters_line_is_ok
    (d : gmap string (gmap string (option string))) (line : string) :
  is_ok (qiime_parameters_line d line)
  = (let l := Str.strip line in
     String.eqb l EmptyString || Str.startswith "#" l
     || Nat.eqb (length (Str.split COLON (hd EmptyString (split_ws l)))) 2).
Proof.
  unfold qiime_parameters_line. cbv zeta.
  destruct (String.eqb (Str.strip line) EmptyString); [done|].
  destruct (Str.startswith "#" (Str.strip line)); [done|].
  cbn [negb andb orb].
  destruct (split_ws (Str.strip line)) as [|f0 fs]; [done|].
  cbn [hd]. rewrite <- unpack2_is_ok.
  change (getitem (f0 :: fs) 0) with (Ok (A:=string) f0). cbn [rbind].
  change ((f0 :: fs) !! 1%nat) with (fs !! 0%nat).
  destruct (unpack2 (Str.split COLON f0)) as [[script_id parameter_id]|]; simpl; [|done].
  destruct fs as [|value fs]; [done|].
  change ((value :: fs) !! 0%nat) with (Some value). cbv beta iota.
  destruct (String.eqb (upper value) "FALSE" || String.eqb (upper value) "NONE");
    [done|].
  by destruct (d !! script_id).
Qed.

(** X23.  Parameter files: when the parse fails.
    [parse_qiime_parameters] returns exactly when, on every line that is
    neither blank nor a comment, the first word has exactly one colon;
    otherwise the unpacking of [script:parameter] raises [ValueError].
    This does not depend on the value, so a line switched off with
    [False] is checked too. *)
Theorem qiime_parameters_need_one_colon (lines : list string) :
  is_ok (parse_qiime_parameters lines)
  = forallb
      (fun line =>
         let l := Str.strip line in
         String.eqb l EmptyString || Str.startswith "#" l
         || Nat.eqb (length (Str.split COLON (hd EmptyString (split_ws l)))) 2)
      lines.
Proof.
  unfold parse_qiime_parameters. apply for_each_is_ok.
  apply qiime_parameters_line_is_ok.
Qed.

Lemma is_switch_false (value : string) :
  String.eqb (upper value) "FALSE" || String.eqb (upper value) "NONE" = false ->
  String.eqb (upper value) "TRUE" = false ->
  is_switch value = false.
Proof.
  unfold is_switch. intros H1 ->. apply orb_false_elim in H1 as [-> ->]. done.
Qed.

(** X24.  Parameter files: what is stored.  In the dict
    [parse_qiime_parameters] returns no script has an empty dict of
    parameters, and no parameter holds a string that reads as [TRUE],
    [FALSE] or [NONE] in any case: [TRUE] is stored as [None] and the
    other two are not stored. *)
Theorem qiime_parameters_store_no_switch (lines : list string)
    (d : gmap string (gmap string (option string))) :
  parse_qiime_parameters lines = Ok d ->
  forall script params,
    d !! script = Some params ->
    params <> ∅ /\
    forall p v, params !! p = Some (Some v) -> is_switch v = false.
Proof.
  unfold parse_qiime_parameters.
  apply (for_each_invariant qiime_parameters_line
           (fun d => forall script params,
              d !! script = Some params ->
              params <> ∅ /\
              forall p v, params !! p = Some (Some v) -> is_switch v = false)).
  - intros d0 line d1 Hd0. unfold qiime_parameters_line.
    destruct (negb _ && negb _); [|by intros [= <-]].
    destruct (getitem _ 0) as [f0|]; simpl; [|done].
    destruct (unpack2 (Str.split COLON f0)) as [[script_id parameter_id]|];
      simpl; [|done].
    destruct (split_ws (Str.strip line) !! 1%nat) as [value|];
      [|by intros [= <-]].
    destruct (String.eqb (upper value) "FALSE" || String.eqb (upper value) "NONE")
      eqn:Hoff; [by intros [= <-]|].
    assert (Hval : forall v,
              (if String.eqb (upper value) "TRUE" then None else Some value) = Some v ->
              is_switch v = false).
    { intros v. destruct (String.eqb (upper value) "TRUE") eqn:Hon; [done|].
      intros [= <-]. by apply is_switch_false. }
    destruct (d0 !! script_id) as [params0|] eqn:Hp0; intros [= <-] script params.
    + destruct (decide (script_id = script)) as [->|Hne].
      * rewrite lookup_insert_eq. intros [= <-]. split.
        -- apply insert_non_empty.
        -- intros p v. destruct (decide (parameter_id = p)) as [->|Hnp].
           ++ rewrite lookup_insert_eq. intros [= Hv]. by apply Hval.
           ++ rewrite lookup_insert_ne by done. by apply (Hd0 script params0).
      * rewrite lookup_insert_ne by done. apply Hd0.
    + destruct (decide (script_id = script)) as [->|Hne].
      * rewrite lookup_insert_eq. intros [= <-]. split.
        -- apply insert_non_empty.
        -- intros p v. destruct (decide (parameter_id = p)) as [->|Hnp].
           ++ rewrite lookup_singleton_eq. intros [= Hv]. by apply Hval.
           ++ by rewrite lookup_singleton_ne.
      * rewrite lookup_insert_ne by done. apply Hd0.
  - intros script params. by rewrite lookup_empty.
Qed.

Lemma qiime_parameters_witness :
  parse_qiime_parameters
    ["#comment"; "pick_otus:similarity 0.97"; "align_seqs:reverse True";
     "pick_otus:enable_rev none"; EmptyString]
  = Ok {[ "pick_otus" := {[ "similarity" := Some "0.97" ]};
          "align_seqs" := {[ "reverse" := None ]} ]} /\
  forall script params,
    ({[ "pick_otus" := {[ "similarity" := Some "0.97" ]};
        "align_seqs" := {[ "reverse" := None ]} ]}
       : gmap string (gmap string (option string))) !! script = Some params ->
    params <> ∅ /\
    forall p v, params !! p = Some (Some v) -> is_switch v = false.
Proof.
  assert (parse_qiime_parameters
            ["#comment"; "pick_otus:similarity 0.97"; "align_seqs:reverse True";
             "pick_otus:enable_rev none"; EmptyString]
          = Ok {[ "pick_otus" := {[ "similarity" := Some "0.97" ]};
                  "align_seqs" := {[ "reverse" := None ]} ]}) as H
    by (vm_compute; reflexivity).
  split; [exact H|].
  exact (qiime_parameters_store_no_switch _ _ H).
Defined.

Example qiime_parameters_ex :
  parse_qiime_parameters ["pick_otus similarity"]
  = Raise (ValueError "need more than 1 value to unpack")
  /\ parse_qiime_parameters ["a:b:c False"]
     = Raise (ValueError "too many values to unpack").
Proof. split; reflexivity. Qed.

(** ** [parse_mapping_file] *)

Example parse_mapping_file_ex :
  parse_mapping_file
    [tsv ["#SampleID"; "Day "]; "# a comment"; EmptyString;
     tsv [String QUOTE (String.append "s1" (String QUOTE EmptyString)); " 1 "];
     "  "; "#second"]
    true false
  = ([["s1"; "1"]], ["SampleID"; "Day"], [" a comment"; "second"]).
Proof. vm_compute. reflexivity. Qed.

Lemma kept_lines_cons (sq ss : bool) (line : string) (lines : list string) :
  kept_lines sq ss (line :: lines)
  = if skipped ss (mapping_strip_f sq ss line)
    then kept_lines sq ss lines
    else mapping_strip_f sq ss line :: kept_lines sq ss lines.
Proof.
  unfold kept_lines. simpl.
  by destruct (skipped ss (mapping_strip_f sq ss line)).
Qed.

(** The loop from any state: rows and comments are appended, and the
    header is set by the first line with [#] only when it is still
    empty. *)
Lemma mapping_file_loop (sq ss : bool) (lines : list string) :
  forall data0 header0 comments0,
    fold_left (mapping_file_line sq ss) lines (data0, header0, comments0)
    = (data0 ++ map (fun line => map (mapping_strip_f sq ss) (Str.split Str.TAB line))
                  (data_lines (kept_lines sq ss lines)),
       match header0 with
       | [] => match hash_lines (kept_lines sq ss lines) with
               | [] => []
               | h :: _ => Str.split Str.TAB (Str.strip (str_slice_1 h))
               end
       | _ :: _ => header0
       end,
       comments0 ++ map str_slice_1
                      match header0 with
                      | [] => tail (hash_lines (kept_lines sq ss lines))
                      | _ :: _ => hash_lines (kept_lines sq ss lines)
                      end).
Proof.
  induction lines as [|line lines IH]; intros data0 header0 comments0.
  - simpl. rewrite app_nil_r. destruct header0; simpl; by rewrite app_nil_r.
  - cbn [fold_left]. rewrite kept_lines_cons.
    unfold mapping_file_line at 2. cbv zeta.
    destruct (skipped ss (mapping_strip_f sq ss line)) eqn:Hskip.
    { apply IH. }
    unfold hash_lines, data_lines. cbn [List.filter].
    fold (hash_lines (kept_lines sq ss lines)).
    fold (data_lines (kept_lines sq ss lines)).
    destruct (Str.startswith "#" (mapping_strip_f sq ss line)) eqn:Hhash; cbn [negb].
    + destruct header0 as [|h0 header0].
      * rewrite IH.
        destruct (split_cons Str.TAB (Str.strip (str_slice_1 (mapping_strip_f sq ss line))))
          as (f & fs & ->).
        done.
      * rewrite IH. cbn [map]. by rewrite <- app_assoc.
    + rewrite IH. cbn [map]. by rewrite <- app_assoc.
Qed.

(** X25.  Mapping files: what each list holds.  After [strip_f], the
    lines that are empty (or, when stripping is suppressed, blank) are
    skipped.  Of the others, the lines that do not start with [#] give
    the data rows in order, each split at the tabs with [strip_f] on every
    field; the first line that starts with [#] gives the header, stripped
    as a whole and split; the later ones are the comments, with the [#]
    removed and otherwise unchanged. *)
Theorem mapping_file_sorts_lines (lines : list string) (strip_quotes suppress_stripping : bool) :
  parse_mapping_file lines strip_quotes suppress_stripping
  = (map (fun line => map (mapping_strip_f strip_quotes suppress_stripping)
                        (Str.split Str.TAB line))
       (data_lines (kept_lines strip_quotes suppress_stripping lines)),
     match hash_lines (kept_lines strip_quotes suppress_stripping lines) with
     | [] => []
     | h :: _ => Str.split Str.TAB (Str.strip (str_slice_1 h))
     end,
     map str_slice_1 (tail (hash_lines (kept_lines strip_quotes suppress_stripping lines)))).
Proof. unfold parse_mapping_file. by rewrite mapping_file_loop. Qed.

(** Strings without a double quote. *)

Lemma no_quote_nil : no_quote EmptyString.
Proof. reflexivity. Qed.

Lemma no_quote_cons (a : ascii) (s : string) :
  no_quote (String a s) <-> a <> QUOTE /\ no_quote s.
Proof.
  unfold no_quote. cbn [Str.contains Str.startswith].
  destruct (Ascii.eqb_spec QUOTE a) as [<-|Hne].
  - split; [done|]. by intros [? _].
  - cbn [orb]. split; [|by intros [_ ?]]. intros H. split; [congruence|done].
Qed.

Lemma no_quote_remove_quotes (x : string) : no_quote (remove_quotes x).
Proof.
  induction x as [|c x IH]; simpl; [done|].
  destruct (Ascii.eqb_spec c QUOTE); [done|]. by apply no_quote_cons.
Qed.

Lemma no_quote_lstrip (s : string) : no_quote s -> no_quote (Str.lstrip s).
Proof.
  induction s as [|c s IH]; simpl; [done|].
  destruct (Ascii.is_space c); [|done]. intros H. by apply IH, (no_quote_cons c).
Qed.

Lemma no_quote_rstrip (s : string) : no_quote s -> no_quote (Str.rstrip s).
Proof.
  induction s as [|c s IH]; simpl; [done|].
  intros [Hc Hs]%no_quote_cons. specialize (IH Hs).
  destruct (Str.rstrip s) as [|b t].
  - destruct (Ascii.is_space c); [done|]. by apply no_quote_cons.
  - by apply no_quote_cons.
Qed.

Lemma no_quote_strip (s : string) : no_quote s -> no_quote (Str.strip s).
Proof. intros H. by apply no_quote_rstrip, no_quote_lstrip. Qed.

Lemma no_quote_append (a b : string) :
  no_quote (String.append a b) <-> no_quote a /\ no_quote b.
Proof.
  induction a as [|c a IH].
  - rewrite append_nil_l. split; [done|by intros [_ ?]].
  - rewrite append_cons, !no_quote_cons, IH. tauto.
Qed.

Lemma no_quote_join (sep : string) (l : list string) :
  no_quote (Str.join sep l) -> Forall no_quote l.
Proof.
  induction l as [|x l IH]; [done|].
  destruct l as [|y l].
  - simpl. by repeat constructor.
  - rewrite join_cons by done. intros [Hx [_ Hl]%no_quote_append]%no_quote_append.
    constructor; [done|]. by apply IH.
Qed.

Lemma no_quote_split_tab (s : string) :
  no_quote s -> Forall no_quote (Str.split Str.TAB s).
Proof.
  intros H. apply (no_quote_join Str.TAB). unfold Str.TAB.
  by rewrite join_split_char.
Qed.

Lemma no_quote_slice_1 (s : string) : no_quote s -> no_quote (str_slice_1 s).
Proof. destruct s as [|c s]; [done|]. by intros [_ ?]%no_quote_cons. Qed.

Lemma no_quote_strip_f (ss : bool) (x : string) :
  no_quote (mapping_strip_f true ss x).
Proof.
  unfold mapping_strip_f. destruct ss.
  - apply no_quote_remove_quotes.
  - apply no_quote_strip, no_quote_remove_quotes.
Qed.

Lemma Forall_list_filter {A} (P : A -> Prop) (f : A -> bool) (l : list A) :
  Forall P l -> Forall P (List.filter f l).
Proof.
  induction 1 as [|x l Hx _ IH]; simpl; [done|].
  destruct (f x); [by constructor|done].
Qed.

Lemma kept_lines_no_quote (ss : bool) (lines : list string) :
  Forall no_quote (kept_lines true ss lines).
Proof.
  apply Forall_list_filter, Forall_map, Forall_forall.
  intros x _. apply no_quote_strip_f.
Qed.

(** X26.  Mapping files: quotes.  With [strip_quotes] on, no double
    quote is left anywhere in what [parse_mapping_file] returns: not in a
    field of a data row, not in a field of the header, not in a comment,
    whether stripping is suppressed or not. *)
Theorem mapping_file_leaves_no_quote (lines : list string) (suppress_stripping : bool) :
  Forall (Forall no_quote) (parse_mapping_file lines true suppress_stripping).1.1 /\
  Forall no_quote (parse_mapping_file lines true suppress_stripping).1.2 /\
  Forall no_quote (parse_mapping_file lines true suppress_stripping).2.
Proof.
  unfold parse_mapping_file. rewrite mapping_file_loop. cbn [fst snd app].
  pose proof (Forall_list_filter no_quote (Str.startswith "#") _
                (kept_lines_no_quote suppress_stripping lines)) as Hhash.
  fold (hash_lines (kept_lines true suppress_stripping lines)) in Hhash.
  split; [|split].
  - apply Forall_map, Forall_forall. intros line _.
    apply Forall_map, Forall_forall. intros f _. apply no_quote_strip_f.
  - destruct (hash_lines _) as [|h hs]; [done|].
    apply no_quote_split_tab, no_quote_strip, no_quote_slice_1.
    by apply Forall_cons in Hhash as [? _].
  - apply Forall_map. eapply Forall_impl; [|intros x; apply no_quote_slice_1].
    destruct (hash_lines _) as [|h hs]; [done|].
    by apply Forall_cons in Hhash as [_ ?].
Qed.

(** What [strip] returns is not changed by [strip]. *)

Lemma rstrip_idemp (s : string) : Str.rstrip (Str.rstrip s) = Str.rstrip s.
Proof.
  induction s as [|c s IH]; [done|].
  cbn [Str.rstrip]. destruct (Str.rstrip s) as [|b t] eqn:Hr.
  - destruct (Ascii.is_space c) eqn:Hc; [done|]. simpl. by rewrite Hc.
  - cbn [Str.rstrip]. cbn [Str.rstrip] in IH. by rewrite IH.
Qed.

Lemma rstrip_head (c : ascii) (s : string) :
  Ascii.is_space c = false -> exists t, Str.rstrip (String c s) = String c t.
Proof.
  intros Hc. cbn [Str.rstrip]. destruct (Str.rstrip s) as [|b t].
  - rewrite Hc. by eexists.
  - by eexists.
Qed.

Lemma strip_idemp (s : string) : Str.strip (Str.strip s) = Str.strip s.
Proof.
  unfold Str.strip. destruct (Str.lstrip s) as [|c t] eqn:Hl; [done|].
  apply lstrip_head in Hl. destruct (rstrip_head c t Hl) as [u Hu].
  rewrite Hu. cbn [Str.lstrip]. rewrite Hl, <- Hu. apply rstrip_idemp.
Qed.

(** X27.  Mapping files: fields.  Unless stripping is suppressed, every
    data row that [parse_mapping_file] returns has at least one field,
    and no field of it starts or ends with white space: stripping it
    again changes nothing. *)
Theorem mapping_file_fields_are_stripped (lines : list string) (strip_quotes : bool) :
  Forall (fun row => row <> [] /\ Forall (fun f => Str.strip f = f) row)
    (parse_mapping_file lines strip_quotes false).1.1.
Proof.
  unfold parse_mapping_file. rewrite mapping_file_loop. cbn [fst app].
  apply Forall_map, Forall_forall. intros line _. cbn beta. split.
  - destruct (split_cons Str.TAB line) as (f & fs & ->). done.
  - apply Forall_map, Forall_forall. intros f _. cbn beta.
    unfold mapping_strip_f. destruct strip_quotes; apply strip_idemp.
Qed.

(** ** [group_by_fields] *)

Lemma list_index_error (x : string) (l : list string) (e : exn) :
  list_index x l = Raise e -> e = ValueError "list.index(x): x not in list".
Proof.
  induction l as [|y l IH]; simpl; [by intros [= <-]|].
  destruct (String.eqb y x); [done|].
  destruct (list_index x l) as [i|e']; simpl; [done|].
  intros [= <-]. by apply IH.
Qed.

Lemma col_indices_missing (hdr names : list string) :
  Exists (fun name => name ∉ hdr) names ->
  map_result (fun name => list_index name hdr) names
  = Raise (ValueError "list.index(x): x not in list").
Proof.
  induction names as [|name names IH]; intros Hex.
  - by apply Exists_nil in Hex.
  - simpl. destruct (list_index name hdr) as [i|e] eqn:Hi; simpl.
    + rewrite IH; [done|]. apply Exists_cons in Hex as [Hnot|Hex]; [|done].
      apply (proj1 (list_index_spec name hdr)) in Hnot. congruence.
    + by rewrite (list_index_error _ _ _ Hi).
Qed.

Lemma col_indices_found (hdr names : list string) (cols : list nat) :
  Forall2 (first_position hdr) names cols ->
  map_result (fun name => list_index name hdr) names = Ok cols.
Proof.
  intros H. apply map_result_Ok. eapply Forall2_impl; [exact H|].
  intros name col [Hcol Hfirst]. by apply (proj2 (list_index_spec name hdr)).
Qed.

Lemma headers_with_states_cons (cols : list nat) (states sts : list string)
    (h : string) (row : list string) (rows : list (list string)) :
  getitems (h :: row) cols = Ok sts ->
  headers_with_states cols states ((h :: row) :: rows)
  = if decide (sts = states)
    then h :: headers_with_states cols states rows
    else headers_with_states cols states rows.
Proof.
  intros H. unfold headers_with_states.
  match goal with
  | |- omap ?f (?x :: ?l) = _ =>
      change (omap f (x :: l))
        with (match f x with Some y => y :: omap f l | None => omap f l end)
  end.
  cbv beta. rewrite H. by destruct (decide (sts = states)).
Qed.

Lemma group_by_fields_loop (cols : list nat) (rows : list (list string)) :
  Forall (fun row => row <> [] /\ Forall (fun c => (c < length row)%nat) cols) rows ->
  forall d0,
    exists d,
      for_each (group_by_fields_row cols) rows d0 = Ok d /\
      forall states,
        default [] (d !! states)
        = default [] (d0 !! states) ++ headers_with_states cols states rows /\
        (is_Some (d !! states) <->
         is_Some (d0 !! states) \/
         exists row, row ∈ rows /\ getitems row cols = Ok states).
Proof.
  induction 1 as [|row rows [Hne Hrow] _ IH]; intros d0.
  - exists d0. split; [done|]. intros states. simpl. rewrite app_nil_r.
    split; [done|]. split; [by left|]. intros [?|(row & Hin & _)]; [done|].
    by apply elem_of_nil in Hin.
  - destruct (getitems_total row cols Hrow) as [sts Hsts].
    destruct row as [|h row]; [done|].
    cbn [for_each]. unfold group_by_fields_row at 1.
    change (getitem (h :: row) 0) with (Ok (A:=string) h). cbn [rbind].
    rewrite Hsts. cbn [rbind].
    destruct (IH (<[sts := default [] (d0 !! sts) ++ [h]]> d0)) as (d & -> & Hd).
    exists d. split; [done|]. intros states. destruct (Hd states) as [Hval Hdom].
    rewrite (headers_with_states_cons _ _ _ _ _ _ Hsts).
    destruct (decide (sts = states)) as [->|Hneq].
    + rewrite lookup_insert_eq in Hval, Hdom. simpl in Hval.
      rewrite Hval, <- app_assoc.
      split; [done|]. rewrite Hdom. split; [|by intros _; left].
      intros _. right. exists (h :: row). split; [by left|done].
    + rewrite lookup_insert_ne in Hval, Hdom by done.
      split; [done|]. rewrite Hdom. split.
      * intros [?|(r & Hin & Hr)]; [by left|]. right. exists r. split; [by right|done].
      * intros [?|(r & Hin & Hr)]; [by left|].
        apply elem_of_cons in Hin as [->|Hin]; [congruence|].
        right. by exists r.
Qed.

(** X28.  Grouping a table by several fields.  When some name is not in
    the header, [group_by_fields] raises the [ValueError] of [index].
    When every name is in the header, at first positions [cols], and
    every data row is non-empty and reaches those columns, the dict holds
    for every tuple of states the first fields of the rows that have
    these states at [cols], in the order of the rows, and its keys are
    the tuples that occur. *)
Theorem group_by_fields_groups_row_headers (hdr : list string)
    (rows : list (list string)) (names : list string) :
  (Exists (fun name => name ∉ hdr) names ->
   exists msg, group_by_fields (hdr :: rows) names = Raise (ValueError msg)) /\
  (forall cols,
     Forall2 (first_position hdr) names cols ->
     Forall (fun row => row <> [] /\ Forall (fun c => (c < length row)%nat) cols) rows ->
     exists d,
       group_by_fields (hdr :: rows) names = Ok d /\
       forall states,
         default [] (d !! states) = headers_with_states cols states rows /\
         (is_Some (d !! states) <->
          exists row, row ∈ rows /\ getitems row cols = Ok states)).
Proof.
  unfold group_by_fields. split.
  - intros Hex. eexists. simpl. by rewrite col_indices_missing.
  - intros cols Hcols Hrows. simpl. rewrite (col_indices_found _ _ _ Hcols). simpl.
    change (slice_1 (hdr :: rows)) with rows.
    destruct (group_by_fields_loop cols rows Hrows ∅) as (d & -> & Hd).
    exists d. split; [done|]. intros states. destruct (Hd states) as [Hval Hdom].
    rewrite lookup_empty in Hval, Hdom. simpl in Hval. split; [done|].
    rewrite Hdom. split; [|by right]. intros [[? ?]|?]; done.
Qed.

Example group_by_fields_ex :
  (fun r => match r with
            | Ok d => Some (d !! ["gut"; "1"], d !! ["skin"; "2"], d !! ["gut"; "2"])
            | Raise _ => None
            end)
    (group_by_fields
       [["#SampleID"; "Day"; "Type"]; ["s1"; "1"; "gut"]; ["s2"; "2"; "skin"];
        ["s3"; "1"; "gut"]] ["Type"; "Day"])
  = Some (Some ["s1"; "s3"], Some ["s2"], None)
  /\ group_by_fields [["#SampleID"; "Day"]; ["s1"; "1"]] ["Day"; "Week"]
     = Raise (ValueError "list.index(x): x not in list").
Proof. vm_compute. done. Qed.

(** The two grouping loops, run side by side on one column. *)
Lemma group_by_loops_agree (col : nat) (rows : list (list string)) :
  forall (d : gmap string (list string)) (d' : gmap (list string) (list string)),
    (forall k, d' !! k = match k with [state] => d !! state | _ => None end) ->
    match for_each (group_by_field_row col) rows d,
          for_each (group_by_fields_row [col]) rows d' with
    | Ok r, Ok r' =>
        forall k, r' !! k = match k with [state] => r !! state | _ => None end
    | Raise e, Raise e' => e = e'
    | _, _ => False
    end.
Proof.
  induction rows as [|row rows IH]; intros d d' Hd; [done|].
  cbn [for_each].
  set (F := for_each (group_by_field_row col) rows).
  set (F' := for_each (group_by_fields_row [col]) rows).
  unfold group_by_field_row, group_by_fields_row, getitems. cbn [map_result].
  destruct (getitem row 0) as [h|e]; cbn [rbind]; [|done].
  destruct (getitem row col) as [st|e]; cbn [rbind]; [|done].
  subst F F'. apply IH. intros k. destruct (decide (k = [st])) as [->|Hne].
  - by rewrite !lookup_insert_eq, (Hd [st]).
  - rewrite lookup_insert_ne by done. rewrite (Hd k).
    destruct k as [|state [|x k]]; try done.
    rewrite lookup_insert_ne; [done|]. congruence.
Qed.

(** X29.  One name.  [group_by_fields] with a single name and
    [group_by_field] with that name return for the same tables, and then
    hold the same groups: the dict of [group_by_fields] has the one-element
    tuple of a state as key where the other has the state, and no other
    key. *)
Theorem group_by_fields_single_name (table : list (list string)) (name : string) :
  is_ok (group_by_fields table [name]) = is_ok (group_by_field table name) /\
  forall d d',
    group_by_field table name = Ok d ->
    group_by_fields table [name] = Ok d' ->
    forall k, d' !! k = match k with [state] => d !! state | _ => None end.
Proof.
  unfold group_by_fields, group_by_field.
  destruct (getitem table 0) as [t0|e]; cbn [rbind]; [|done].
  cbn [map_result].
  destruct (list_index name t0) as [col|e]; cbn [rbind].
  - pose proof (group_by_loops_agree col (slice_1 table) ∅ ∅) as H.
    destruct (for_each (group_by_field_row col) (slice_1 table) ∅) as [r|e];
      destruct (for_each (group_by_fields_row [col]) (slice_1 table) ∅) as [r'|e'].
    + split; [done|]. intros d d' [= <-] [= <-]. apply H.
      intros k. rewrite !lookup_empty. by destruct k as [|state [|x k]].
    + exfalso. apply H. intros k. rewrite !lookup_empty.
      by destruct k as [|state [|x k]].
    + exfalso. apply H. intros k. rewrite !lookup_empty.
      by destruct k as [|state [|x k]].
    + done.
  - by destruct e.
Qed.

(** ** [parse_rarefaction_fname] *)

Lemma pop_Ok {A} (l l' : list A) (x : A) :
  pop l = Ok (x, l') -> l = l' ++ [x].
Proof.
  unfold pop. destruct (last l) as [y|] eqn:Hl; [|done].
  intros [= <- <-]. apply last_Some in Hl as [l0 ->].
  unfold slice_to_m1. rewrite length_app. simpl.
  replace (length l0 + 1 - 1)%nat with (length l0) by lia.
  by rewrite take_app_length.
Qed.

Section RarefactionFnameLemmas.

Variable splitext : string -> string * string.

(** X30.  Rarefaction file names.  When [parse_rarefaction_fname]
    returns, the root that [splitext] gave is the pieces of the base name,
    the depth field and the iteration field joined with underscores, in
    this order, the two fields read by [int]; the extension is the one
    [splitext] gave.  A root without underscore is never accepted: when
    it reads as an integer the second [pop] raises [IndexError],
    otherwise [int] raises. *)
Theorem rarefaction_fname_splits_root (name_string : string) :
  (forall base seqs iters ext,
     parse_rarefaction_fname splitext name_string = Ok (base, seqs, iters, ext) ->
     exists pieces a b,
       splitext name_string
       = (Str.join UNDERSCORE (pieces ++ [a; b]), ext) /\
       base = Str.join UNDERSCORE pieces /\
       int a = Ok seqs /\ int b = Ok iters) /\
  (forall piece,
     Str.split UNDERSCORE (splitext name_string).1 = [piece] ->
     parse_rarefaction_fname splitext name_string
     = match int piece with
       | Ok _ => Raise (IndexError "pop from empty list")
       | Raise e => Raise e
       end).
Proof.
  unfold parse_rarefaction_fname.
  destruct (splitext name_string) as [root ext0]. cbn [fst]. split.
  - intros base seqs iters ext.
    destruct (pop (Str.split UNDERSCORE root)) as [[b l1]|] eqn:Hp1; cbn [rbind]; [|done].
    destruct (int b) as [ib|] eqn:Hb; cbn [rbind]; [|done].
    destruct (pop l1) as [[a l2]|] eqn:Hp2; cbn [rbind]; [|done].
    destruct (int a) as [ia|] eqn:Ha; cbn [rbind]; [|done].
    intros [= <- <- <- <-].
    exists l2, a, b. split; [|done]. f_equal.
    apply pop_Ok in Hp1, Hp2. subst l1.
    rewrite <- app_assoc in Hp1. cbn [app] in Hp1. rewrite <- Hp1.
    unfold UNDERSCORE. by rewrite join_split_char.
  - intros piece ->. unfold pop at 1. cbn [last rbind].
    change (slice_to_m1 [piece]) with (@nil string).
    destruct (int piece); done.
Qed.

End RarefactionFnameLemmas.

Example rarefaction_fname_ex :
  parse_rarefaction_fname (fun _ => ("alpha_rare_200_5", ".txt")) "alpha_rare_200_5.txt"
  = Ok ("alpha_rare", 200, 5, ".txt")
  /\ parse_rarefaction_fname (fun _ => ("200", ".txt")) "200.txt"
     = Raise (IndexError "pop from empty list")
  /\ parse_rarefaction_fname (fun _ => ("_200_5", ".txt")) "_200_5.txt"
     = Ok (EmptyString, 200, 5, ".txt")
  /\ parse_rarefaction_fname (fun _ => ("200_5", ".txt")) "200_5.txt"
     = Ok (EmptyString, 200, 5, ".txt").
Proof. vm_compute. done. Qed.
